(** * pypowerwall: the Powerwall facade and the proxy server's GET handler

    A shallow embedding of [pypowerwall/__init__.py] (class [Powerwall]) and
    of [proxy/server.py] (function [handler.do_GET]), with the properties of
    the design document stated over it.

    Python values are a small inductive type, floats are IEEE binary64
    ([PrimFloat]), exceptions are an explicit result type, and the objects
    the code mutates (the facade, its backend client, the loggers and the
    module-level [proxystats] dictionary) are threaded as explicit state. *)

From Stdlib Require Import ZArith Floats DecimalString DecimalN.
From stdpp Require Import gmap strings list.

Set Warnings "-register-all,-inexact-float".

Local Open Scope string_scope.
Local Open Scope Z_scope.

(** ** Python values *)

(** The values a decoded JSON payload is made of. Dictionaries keep their
    insertion order, as Python's do. *)
Inductive pyval : Type :=
| PNone
| PBool (b : bool)
| PInt (z : Z)
| PFloat (f : float)
| PStr (s : string)
| PList (l : list pyval)
| PDict (d : list (string * pyval)).

Inductive exn : Type :=
| TypeError
| KeyError (k : pyval)
| IndexError
| ValueError (msg : string)
| AttributeError (attr : string)
| OverflowError
| ZeroDivisionError
| OtherError (what : string).

(** The result of evaluating Python code: a value or a raised exception. *)
Inductive outcome (A : Type) : Type :=
| Ok (a : A)
| Raise (e : exn).
Arguments Ok {A} a.
Arguments Raise {A} e.

Definition is_ok {A} (o : outcome A) : bool :=
  match o with Ok _ => true | Raise _ => false end.

(** *** Dictionaries in insertion order *)

Section Dict.
Context {V : Type}.

Fixpoint dict_get (k : string) (d : list (string * V)) : option V :=
  match d with
  | [] => None
  | (k', v) :: d' => if String.eqb k k' then Some v else dict_get k d'
  end.

(** [d[k] = v]: an existing key keeps its place, a new one goes last. *)
Fixpoint dict_set (k : string) (v : V) (d : list (string * V)) : list (string * V) :=
  match d with
  | [] => [(k, v)]
  | (k', v') :: d' =>
      if String.eqb k k' then (k, v) :: d' else (k', v') :: dict_set k v d'
  end.

Definition dict_mem (k : string) (d : list (string * V)) : bool :=
  match dict_get k d with Some _ => true | None => false end.

End Dict.

(** *** Numbers *)

(** [float(z)] for an integer: the nearest binary64 value (ties to even),
    [OverflowError] when the integer is beyond the range of a float. *)
Definition float_of_Z (z : Z) : outcome float :=
  let f := SF2Prim (binary_normalize prec emax z 0 false) in
  if PrimFloat.is_infinity f then Raise OverflowError else Ok f.

Definition Z_of_bool (b : bool) : Z := if b then 1 else 0.

(** The float a number stands for in float arithmetic ([PyNumber_Float]
    restricted to the numeric types; [bool] is a subclass of [int]). *)
Definition as_float (v : pyval) : outcome float :=
  match v with
  | PFloat f => Ok f
  | PInt z => float_of_Z z
  | PBool b => float_of_Z (Z_of_bool b)
  | _ => Raise TypeError
  end.

(** [x / y] where [y] is a float literal: true division in binary64. The
    divisors in the source are the non-zero literal [0.95]. *)
Definition py_truediv_float (x : pyval) (y : float) : outcome float :=
  match as_float x with
  | Ok f => if PrimFloat.eqb y 0 then Raise ZeroDivisionError else Ok (f / y)%float
  | Raise e => Raise e
  end.

(** Truth value of an object ([bool(x)]). *)
Definition py_truthy (v : pyval) : bool :=
  match v with
  | PNone => false
  | PBool b => b
  | PInt z => negb (z =? 0)
  | PFloat f => negb (PrimFloat.eqb f 0)
  | PStr s => negb (String.eqb s "")
  | PList l => match l with [] => false | _ => true end
  | PDict d => match d with [] => false | _ => true end
  end.

(** [a or b] *)
Definition py_or (a b : pyval) : pyval := if py_truthy a then a else b.

(** [s in t] for two strings: [s] occurs in [t]. *)
Fixpoint substringb (s t : string) : bool :=
  String.prefix s t ||
  match t with
  | EmptyString => false
  | String _ t' => substringb s t'
  end.

(** [x == PStr k] for a list element [x]: only a string compares equal to a
    string. *)
Definition eq_strb (k : string) (x : pyval) : bool :=
  match x with PStr s => String.eqb k s | _ => false end.

(** ['key' in payload] *)
Definition py_contains (k : string) (payload : pyval) : outcome bool :=
  match payload with
  | PDict d => Ok (dict_mem k d)
  | PStr s => Ok (substringb k s)
  | PList l => Ok (existsb (eq_strb k) l)
  | _ => Raise TypeError
  end.

(** [payload['key']] *)
Definition py_getitem (payload : pyval) (k : string) : outcome pyval :=
  match payload with
  | PDict d => match dict_get k d with Some v => Ok v | None => Raise (KeyError (PStr k)) end
  | _ => Raise TypeError
  end.

(** [l[i]] for a list, where a negative index counts from the end. *)
Definition list_index {A} (l : list A) (i : Z) : option A :=
  let n := Z.of_nat (length l) in
  let j := if i <? 0 then i + n else i in
  if (0 <=? j) && (j <? n) then nth_error l (Z.to_nat j) else None.

(** [container[key]] for any two objects: a dictionary takes a hashable
    key, a list or a string an integer index ([bool] is an integer). *)
Definition py_subscript (container key : pyval) : outcome pyval :=
  match container with
  | PDict d =>
      match key with
      | PStr k => py_getitem container k
      | PList _ | PDict _ => Raise TypeError
      | _ => Raise (KeyError key)
      end
  | PList l =>
      match key with
      | PInt i =>
          match list_index l i with Some v => Ok v | None => Raise IndexError end
      | PBool b =>
          match list_index l (Z_of_bool b) with Some v => Ok v | None => Raise IndexError end
      | _ => Raise TypeError
      end
  | PStr s =>
      match key with
      | PInt i =>
          match list_index (String.list_ascii_of_string s) i with
          | Some c => Ok (PStr (String c EmptyString))
          | None => Raise IndexError
          end
      | PBool b =>
          match list_index (String.list_ascii_of_string s) (Z_of_bool b) with
          | Some c => Ok (PStr (String c EmptyString))
          | None => Raise IndexError
          end
      | _ => Raise TypeError
      end
  | _ => Raise TypeError
  end.

(** [payload.get('key')] *)
Definition py_get (payload : pyval) (k : string) : outcome pyval :=
  match payload with
  | PDict d => match dict_get k d with Some v => Ok v | None => Ok PNone end
  | _ => Raise (AttributeError "get")
  end.

(** ** Stateful code that may raise *)

(** A computation over a mutable state [St]: the state it leaves is kept
    also when an exception is raised, as the objects mutated so far are. *)
Definition Py (St A : Type) : Type := St → outcome A * St.

Definition ret {St A} (a : A) : Py St A := fun st => (Ok a, st).

Definition raise {St A} (e : exn) : Py St A := fun st => (Raise e, st).

Definition bind {St A B} (c : Py St A) (k : A → Py St B) : Py St B :=
  fun st =>
    match c st with
    | (Ok a, st') => k a st'
    | (Raise e, st') => (Raise e, st')
    end.

Notation "x <- c ;; k" := (bind c (fun x => k))
  (at level 100, c at next level, right associativity).
Notation "c ;;; k" := (bind c (fun _ => k))
  (at level 100, right associativity).

(** A pure step that may raise. *)
Definition lift_outcome {St A} (o : outcome A) : Py St A := fun st => (o, st).

(** [try: c except Exception: h] *)
Definition try_except {St A} (c : Py St A) (h : exn → Py St A) : Py St A :=
  fun st =>
    match c st with
    | (Ok a, st') => (Ok a, st')
    | (Raise e, st') => h e st'
    end.

(** ** The facade: class [Powerwall] *)

(** The two backend classes the constructor chooses between, with the
    arguments it passes to each. *)
Inductive backend : Type :=
| PyPowerwallCloud (email : string) (pwcacheexpire timeout : Z)
    (siteid : option string) (authpath : string)
| PyPowerwallLocal (host password email timezone : string)
    (timeout pwcacheexpire poolmaxsize : Z) (authmode cachefile : string).

(** A client object: its class with the constructor arguments, and its
    internal state of type [S] (session, cache, connection pool). *)
Record client_obj (S : Type) : Type := Client { cls : backend; cst : S }.
Arguments Client {S} cls cst.
Arguments cls {S} c.
Arguments cst {S} c.

(** The methods of the backend classes ([pypowerwall_base.PyPowerwallBase]
    and its two subclasses are imported by the facade, their source is in
    other modules): one operational class per method, over the client's
    internal state. *)
Class ClientNew (S : Type) := client_new : backend → outcome S.
Class ClientAuthenticate (S : Type) := client_authenticate : backend → S → outcome unit * S.
(** [client.poll(api, force, recursive, raw)] *)
Class ClientPoll (S : Type) := client_poll : backend → string → bool → bool → bool → S → outcome pyval * S.
Class ClientPower (S : Type) := client_power : backend → S → outcome pyval * S.
Class ClientVitals (S : Type) := client_vitals : backend → S → outcome pyval * S.
(** [client.fetchpower(sensor, verbose)] *)
Class ClientFetchpower (S : Type) := client_fetchpower : backend → string → bool → S → outcome pyval * S.
Class ClientTimeRemaining (S : Type) := client_get_time_remaining : backend → S → outcome pyval * S.

(** Functions of the Python standard library and of [pypowerwall_base]. *)
(** [json.dumps(v)] and, with [true], [json.dumps(v, indent=4, sort_keys=True)],
    which return a string for every value of [pyval] *)
Class JsonDumps := json_dumps : bool → pyval → string.
(** [float(s)] for a string: the parsed number, or [None] for [ValueError] *)
Class FloatOfString := float_of_string : string → option float.
Class ParseVersion := parse_version : pyval → outcome pyval.
Class ExpandUser := expanduser : string → string.

(** The loops of [strings] and [battery_blocks] that rearrange the fields
    of a payload already fetched: they call nothing on [self] and are taken
    as given. [strings_from_vitals verbose v] is the result built from
    non-empty vitals, [strings_from_solar payload] the one built from the
    payload of [/api/solar_powerwall], [blocks_from system_status devices]
    the result of [battery_blocks]. *)
Class StringsFromVitals := strings_from_vitals : bool → pyval → outcome pyval.
Class StringsFromSolar := strings_from_solar : pyval → outcome pyval.
Class BlocksFrom := blocks_from : pyval → pyval → outcome pyval.

(** The attributes of a [Powerwall] object, in the order [__init__] sets them. *)
Record Powerwall (S : Type) : Type := MkPowerwall {
  pw_cachefile : string;
  pw_host : string;
  pw_password : string;
  pw_email : string;
  pw_timezone : string;
  pw_timeout : Z;
  pw_poolmaxsize : Z;
  pw_auth : list (string * string);
  pw_token : option string;
  pw_pwcachetime : list (string * Z);
  pw_pwcache : list (string * pyval);
  pw_pwcacheexpire : Z;
  pw_cloudmode : bool;
  pw_siteid : option string;
  pw_authpath : string;
  pw_authmode : string;
  pw_pwcooldown : Z;
  pw_vitals_api : bool;
  pw_client : client_obj S
}.
Arguments MkPowerwall {S}.
Arguments pw_cachefile {S} p.
Arguments pw_host {S} p.
Arguments pw_password {S} p.
Arguments pw_email {S} p.
Arguments pw_timezone {S} p.
Arguments pw_timeout {S} p.
Arguments pw_poolmaxsize {S} p.
Arguments pw_auth {S} p.
Arguments pw_token {S} p.
Arguments pw_pwcachetime {S} p.
Arguments pw_pwcache {S} p.
Arguments pw_pwcacheexpire {S} p.
Arguments pw_cloudmode {S} p.
Arguments pw_siteid {S} p.
Arguments pw_authpath {S} p.
Arguments pw_authmode {S} p.
Arguments pw_pwcooldown {S} p.
Arguments pw_vitals_api {S} p.
Arguments pw_client {S} p.

(** The only thing a method of the facade changes in [self] is the inside
    of the client object. *)
Definition with_client_state {S} (p : Powerwall S) (s : S) : Powerwall S :=
  MkPowerwall (pw_cachefile p) (pw_host p) (pw_password p) (pw_email p)
    (pw_timezone p) (pw_timeout p) (pw_poolmaxsize p) (pw_auth p) (pw_token p)
    (pw_pwcachetime p) (pw_pwcache p) (pw_pwcacheexpire p) (pw_cloudmode p)
    (pw_siteid p) (pw_authpath p) (pw_authmode p) (pw_pwcooldown p)
    (pw_vitals_api p) (Client (cls (pw_client p)) s).

(** Records written to the two loggers ([pypowerwall] and [proxy]); the
    text of a record is kept as its parts. *)
Inductive logrec : Type :=
| DebugSiteNameParse (payload : pyval) (exc : exn)
| DebugStatusParam (param : string) (payload : pyval)
| DebugGridStatusParse (payload : pyval) (type : string)
| DebugMissingKey (key : string)
| DebugClearStats
| ErrorSocketBroken.

(** The state a call on the facade works on: the object and the log. *)
Record FacadeSt (S : Type) : Type := MkFacadeSt {
  self : Powerwall S;
  logs : list logrec
}.
Arguments MkFacadeSt {S} self logs.
Arguments self {S} f.
Arguments logs {S} f.

Definition log_write {S} (r : logrec) : Py (FacadeSt S) unit :=
  fun st => (Ok tt, MkFacadeSt (self st) (logs st ++ [r])).

(** A method call on [self.client]. *)
Definition call_client {S A} (m : backend → S → outcome A * S) : Py (FacadeSt S) A :=
  fun st =>
    let c := pw_client (self st) in
    let '(r, s') := m (cls c) (cst c) in
    (r, MkFacadeSt (with_client_state (self st) s') (logs st)).

Section Facade.
Context {S : Type}.
Context `{!ClientNew S, !ClientAuthenticate S, !ClientPoll S, !ClientPower S,
          !ClientVitals S, !ClientFetchpower S, !ClientTimeRemaining S}.
Context `{!JsonDumps, !FloatOfString, !ParseVersion, !ExpandUser}.
Context `{!StringsFromVitals, !StringsFromSolar, !BlocksFrom}.

(** [Powerwall.__init__]: the attributes, the choice of the backend class,
    and the first authentication; an exception of the backend's constructor
    or of [authenticate] leaves no object. *)
Definition Powerwall_init (host password email timezone : string)
    (pwcacheexpire timeout poolmaxsize : Z) (cloudmode : bool)
    (siteid : option string) (authpath authmode cachefile : string)
    : outcome (Powerwall S) :=
  let authpath' := expanduser authpath in
  let cloud := cloudmode || String.eqb host "" in
  let b :=
    if cloud
    then PyPowerwallCloud email pwcacheexpire timeout siteid authpath'
    else PyPowerwallLocal host password email timezone timeout pwcacheexpire
           poolmaxsize authmode cachefile in
  match client_new b with
  | Raise e => Raise e
  | Ok s =>
      match client_authenticate b s with
      | (Raise e, _) => Raise e
      | (Ok _, s') =>
          Ok (MkPowerwall cachefile host password email timezone timeout
                poolmaxsize [] None [] [] pwcacheexpire
                (if cloud then true else false)
                siteid authpath' authmode 0 true (Client b s'))
      end
  end.

(** [Powerwall.poll(api, jsonformat, raw, recursive, force)] *)
Definition poll (api : string) (jsonformat raw recursive force : bool)
    : Py (FacadeSt S) pyval :=
  payload <- call_client (fun b => client_poll b api force recursive raw) ;;
  if jsonformat then ret (PStr (json_dumps false payload)) else ret payload.

(** [(level / 0.95) - (5 / 0.95)] *)
Definition app_scale (level : pyval) : outcome pyval :=
  match py_truediv_float level 0.95, py_truediv_float (PInt 5) 0.95 with
  | Ok a, Ok b => Ok (PFloat (a - b)%float)
  | Raise e, _ => Raise e
  | _, Raise e => Raise e
  end.

(** [Powerwall.level(scale)] *)
Definition level (scale : bool) : Py (FacadeSt S) pyval :=
  payload <- poll "/api/system_status/soe" false false false false ;;
  match payload with
  | PNone => ret PNone
  | _ =>
      has <- lift_outcome (py_contains "percentage" payload) ;;
      if (has : bool) then
        level <- lift_outcome (py_getitem payload "percentage") ;;
        if scale then lift_outcome (app_scale level) else ret level
      else ret PNone
  end.

(** [Powerwall.power()] *)
Definition power : Py (FacadeSt S) pyval := call_client client_power.

(** [Powerwall.vitals(jsonformat)] *)
Definition vitals (jsonformat : bool) : Py (FacadeSt S) pyval :=
  output <- call_client client_vitals ;;
  if jsonformat then ret (PStr (json_dumps true output)) else ret output.

(** [Powerwall.site], [solar], [battery], [load] and the aliases [grid], [home] *)
Definition site (verbose : bool) : Py (FacadeSt S) pyval :=
  call_client (fun b => client_fetchpower b "site" verbose).

Definition solar (verbose : bool) : Py (FacadeSt S) pyval :=
  call_client (fun b => client_fetchpower b "solar" verbose).

Definition battery (verbose : bool) : Py (FacadeSt S) pyval :=
  call_client (fun b => client_fetchpower b "battery" verbose).

Definition load (verbose : bool) : Py (FacadeSt S) pyval :=
  call_client (fun b => client_fetchpower b "load" verbose).

Definition grid (verbose : bool) : Py (FacadeSt S) pyval := site verbose.

Definition home (verbose : bool) : Py (FacadeSt S) pyval := load verbose.

(** [Powerwall.site_name()] *)
Definition site_name : Py (FacadeSt S) pyval :=
  payload <- poll "/api/site_info/site_name" false false false false ;;
  try_except
    (lift_outcome (py_getitem payload "site_name"))
    (fun exc => log_write (DebugSiteNameParse payload exc) ;;; ret PNone).

(** [Powerwall.status(param, jsonformat)] *)
Definition status (param : option string) (jsonformat : bool)
    : Py (FacadeSt S) pyval :=
  payload <- call_client (fun b => client_poll b "/api/status" false false false) ;;
  match payload with
  | PNone => ret PNone
  | _ =>
      match param with
      | None =>
          if jsonformat then ret (PStr (json_dumps true payload)) else ret payload
      | Some p =>
          has <- lift_outcome (py_contains p payload) ;;
          if (has : bool) then lift_outcome (py_getitem payload p)
          else log_write (DebugStatusParam p payload) ;;; ret PNone
      end
  end.

(** [Powerwall.version(int_value)] *)
Definition version (int_value : bool) : Py (FacadeSt S) pyval :=
  if negb int_value then status (Some "version") false
  else v <- status (Some "version") false ;; lift_outcome (parse_version v).

Definition uptime : Py (FacadeSt S) pyval := status (Some "up_time_seconds") false.

Definition din : Py (FacadeSt S) pyval := status (Some "din") false.

(** [Powerwall.is_connected()] *)
Definition is_connected : Py (FacadeSt S) bool :=
  try_except
    (st <- status None false ;;
     match st with PNone => ret false | _ => ret true end)
    (fun _ => ret false).

(** The objects a [for x in v] loop visits. *)
Definition py_iter (v : pyval) : outcome (list pyval) :=
  match v with
  | PDict d => Ok (map (fun kv => PStr (fst kv)) d)
  | PList l => Ok l
  | PStr s => Ok (map (fun c => PStr (String c EmptyString)) (String.list_ascii_of_string s))
  | _ => Raise TypeError
  end.

(** The loop of [temps]: for each device whose name starts with [TETHC],
    [temps[device] = devices[device].get('THC_AmbientTemp')]. *)
Fixpoint temps_loop (devices : pyval) (todo : list pyval)
    (temps : list (string * pyval)) : outcome (list (string * pyval)) :=
  match todo with
  | [] => Ok temps
  | PStr device :: rest =>
      if String.prefix "TETHC" device then
        match py_getitem devices device with
        | Ok dev =>
            match py_get dev "THC_AmbientTemp" with
            | Ok t => temps_loop devices rest (dict_set device t temps)
            | Raise e => Raise e
            end
        | Raise e => Raise e
        end
      else temps_loop devices rest temps
  | _ :: _ => Raise (AttributeError "startswith")
  end.

(** [Powerwall.temps(jsonformat)] *)
Definition temps (jsonformat : bool) : Py (FacadeSt S) pyval :=
  v <- vitals false ;;
  let devices := py_or v (PDict []) in
  todo <- lift_outcome (py_iter devices) ;;
  t <- lift_outcome (temps_loop devices todo []) ;;
  if jsonformat then ret (PStr (json_dumps true (PDict t))) else ret (PDict t).

(** [Powerwall.strings(jsonformat, verbose)]: the device loop runs over
    the vitals, and only when there are none is [/api/solar_powerwall]
    polled. *)
Definition strings (jsonformat verbose : bool) : Py (FacadeSt S) pyval :=
  v <- vitals false ;;
  result <-
    (if py_truthy v then lift_outcome (strings_from_vitals verbose v)
     else
       payload <- poll "/api/solar_powerwall" false false false false ;;
       lift_outcome (strings_from_solar (py_or payload (PDict [])))) ;;
  if jsonformat then ret (PStr (json_dumps true result)) else ret result.

(** The element [alerts] gets for the alert [i] of [device]: [i] itself, or
    the dictionary [{device: i}]. A device that is no string comes up only
    when the vitals are a list and not a dictionary; the loop over a list
    ends in an exception whatever was appended ([alerts_loop_list]), and the
    element is then recorded as [None]. *)
Definition alert_item (alertsonly : bool) (device i : pyval) : pyval :=
  if alertsonly then i
  else match device with
       | PStr k => PDict [(k, i)]
       | _ => PNone
       end.

(** The loop of [alerts] over the devices. *)
Fixpoint alerts_loop (devices : pyval) (alertsonly : bool) (todo : list pyval)
    (alerts : list pyval) : outcome (list pyval) :=
  match todo with
  | [] => Ok alerts
  | device :: rest =>
      match py_subscript devices device with
      | Raise e => Raise e
      | Ok dev =>
          match py_contains "alerts" dev with
          | Raise e => Raise e
          | Ok false => alerts_loop devices alertsonly rest alerts
          | Ok true =>
              match py_getitem dev "alerts" with
              | Raise e => Raise e
              | Ok a =>
                  match py_iter a with
                  | Raise e => Raise e
                  | Ok items =>
                      alerts_loop devices alertsonly rest
                        (alerts ++ map (alert_item alertsonly device) items)
                  end
              end
          end
      end
  end.

(** [for alert, value in d.items(): if value is True: alerts.append(alert)] *)
Definition true_keys (d : list (string * pyval)) : list pyval :=
  map (fun kv => PStr (fst kv))
    (List.filter (fun kv => match snd kv with PBool true => true | _ => false end) d).

(** [data.get(key) or {}], and its items that are [True]. *)
Definition alerts_of (data : pyval) (key : string) : outcome (list pyval) :=
  match py_get data key with
  | Raise e => Raise e
  | Ok v =>
      match py_or v (PDict []) with
      | PDict d => Ok (true_keys d)
      | _ => Raise (AttributeError "items")
      end
  end.

(** [Powerwall.alerts(jsonformat, alertsonly)] *)
Definition alerts (jsonformat alertsonly : bool) : Py (FacadeSt S) pyval :=
  v <- vitals false ;;
  let devices := py_or v (PDict []) in
  alerts <-
    (if py_truthy devices then
       todo <- lift_outcome (py_iter devices) ;;
       lift_outcome (alerts_loop devices alertsonly todo [])
     else if alertsonly then
       p <- poll "/api/solar_powerwall" false false false false ;;
       let data := py_or p (PDict []) in
       pvac <- lift_outcome (alerts_of data "pvac_alerts") ;;
       pvs <- lift_outcome (alerts_of data "pvs_alerts") ;;
       ret (pvac ++ pvs)%list
     else ret []) ;;
  if jsonformat then ret (PStr (json_dumps true (PList alerts))) else ret (PList alerts).

(** [float(x)] *)
Definition py_float (x : pyval) : outcome float :=
  match x with
  | PStr s =>
      match float_of_string s with
      | Some f => Ok f
      | None => Raise (ValueError "could not convert string to float")
      end
  | _ => as_float x
  end.

(** [Powerwall.get_reserve(scale)] *)
Definition get_reserve (scale : bool) : Py (FacadeSt S) pyval :=
  data <- poll "/api/operation" false false false false ;;
  match data with
  | PNone => ret PNone
  | _ =>
      has <- lift_outcome (py_contains "backup_reserve_percent" data) ;;
      if (has : bool) then
        raw <- lift_outcome (py_getitem data "backup_reserve_percent") ;;
        percent <- lift_outcome (py_float raw) ;;
        if scale then lift_outcome (app_scale (PFloat percent))
        else ret (PFloat percent)
      else ret PNone
  end.

(** The table [gridmap] of [grid_status]. *)
Definition gridmap : list (string * list (string * pyval)) :=
  [ ("SystemGridConnected", [("string", PStr "UP"); ("numeric", PInt 1)]);
    ("SystemIslandedActive", [("string", PStr "DOWN"); ("numeric", PInt 0)]);
    ("SystemTransitionToGrid", [("string", PStr "SYNCING"); ("numeric", PInt (-1))]);
    ("SystemTransitionToIsland", [("string", PStr "SYNCING"); ("numeric", PInt (-1))]);
    ("SystemIslandedReady", [("string", PStr "SYNCING"); ("numeric", PInt (-1))]);
    ("SystemMicroGridFaulted", [("string", PStr "DOWN"); ("numeric", PInt 0)]);
    ("SystemWaitForUser", [("string", PStr "DOWN"); ("numeric", PInt 0)]) ].

(** [gridmap.get(grid_status, {}).get(type)]: a list or a dictionary is no
    dictionary key (unhashable), any other value that is not a key of the
    table gives the empty dictionary. *)
Definition gridmap_get (grid_status : pyval) (type : string) : outcome pyval :=
  match grid_status with
  | PList _ | PDict _ => Raise TypeError
  | PStr s =>
      match dict_get s gridmap with
      | Some row => match dict_get type row with Some v => Ok v | None => Ok PNone end
      | None => Ok PNone
      end
  | _ => Ok PNone
  end.

(** [Powerwall.grid_status(type)] *)
Definition grid_status (type : string) : Py (FacadeSt S) pyval :=
  if negb (String.eqb type "json" || String.eqb type "string" || String.eqb type "numeric")
  then raise (ValueError (String.append "Invalid value for parameter 'type': " type))
  else
    payload <- poll "/api/system_status/grid_status" false false false false ;;
    if String.eqb type "json" then ret (PStr (json_dumps true payload))
    else
      gs <- lift_outcome (py_getitem payload "grid_status") ;;
      status <- lift_outcome (gridmap_get gs type) ;;
      match status with
      | PNone => log_write (DebugGridStatusParse payload type) ;;; ret status
      | _ => ret status
      end.

(** [Powerwall.system_status(jsonformat)] *)
Definition system_status (jsonformat : bool) : Py (FacadeSt S) pyval :=
  payload <- poll "/api/system_status" false false false false ;;
  match payload with
  | PNone => ret PNone
  | _ => if jsonformat then ret (PStr (json_dumps true payload)) else ret payload
  end.

(** [Powerwall.battery_blocks(jsonformat)] *)
Definition battery_blocks (jsonformat : bool) : Py (FacadeSt S) pyval :=
  ss <- system_status false ;;
  match ss with
  | PNone => ret PNone
  | _ =>
      devices <- vitals false ;;
      if negb (py_truthy devices) then ret PNone
      else
        result <- lift_outcome (blocks_from ss devices) ;;
        if jsonformat then ret (PStr (json_dumps true result)) else ret result
  end.

(** [Powerwall.get_time_remaining()] *)
Definition get_time_remaining : Py (FacadeSt S) pyval :=
  call_client client_get_time_remaining.

End Facade.

(** ** The ["%0.2f"] conversion *)

Definition Z_to_string (z : Z) : string :=
  NilZero.string_of_uint (N.to_uint (Z.to_N z)).

(** The integer nearest to [m * 100 * 2^e], ties to even: the number of
    hundredths the conversion prints for a float of mantissa [m] and
    exponent [e]. *)
Definition hundredths (m : positive) (e : Z) : Z :=
  match e with
  | Zneg k =>
      let d := 2 ^ Zpos k in
      let q := (Zpos m * 100) / d in
      let r := (Zpos m * 100) mod d in
      match 2 * r ?= d with
      | Lt => q
      | Gt => q + 1
      | Eq => if Z.even q then q else q + 1
      end
  | _ => Zpos m * 100 * 2 ^ e
  end.

Definition two_digits (n : Z) : string :=
  String.append (Z_to_string (n / 10)) (Z_to_string (n mod 10)).

(** ["%0.2f" % f] for a float. *)
Definition format_2f (f : float) : string :=
  match Prim2SF f with
  | S754_nan => "nan"
  | S754_infinity s => if s then "-inf" else "inf"
  | S754_zero s => if s then "-0.00" else "0.00"
  | S754_finite s m e =>
      let n := hundredths m e in
      String.append (if s then "-" else "")
        (String.append (Z_to_string (n / 100))
           (String.append "." (two_digits (n mod 100))))
  end.

(** ["%0.2f" % x] for any object: a number is converted to a float first,
    anything else is a [TypeError]. *)
Definition pct_2f (x : pyval) : outcome string :=
  match as_float x with
  | Ok f => Ok (format_2f f)
  | Raise e => Raise e
  end.

(** The line feed character. *)
Definition newline : string := String (Ascii.ascii_of_nat 10) EmptyString.

(** ["%0.2f,%0.2f,%0.2f,%0.2f,%0.2f\n" % (a, b, c, d, e)] *)
Definition csv_line (a b c d e : pyval) : outcome string :=
  match pct_2f a, pct_2f b, pct_2f c, pct_2f d, pct_2f e with
  | Ok sa, Ok sb, Ok sc, Ok sd, Ok se =>
      Ok (String.concat "," [sa; sb; sc; sd; String.append se newline])
  | Raise x, _, _, _, _ => Raise x
  | _, Raise x, _, _, _ => Raise x
  | _, _, Raise x, _, _ => Raise x
  | _, _, _, Raise x, _ => Raise x
  | _, _, _, _, Raise x => Raise x
  end.

(** ** The proxy server *)

(** [ALLOWLIST] *)
Definition ALLOWLIST : list string :=
  [ "/api/status"; "/api/site_info/site_name"; "/api/meters/site";
    "/api/meters/solar"; "/api/sitemaster"; "/api/powerwalls";
    "/api/customer/registration"; "/api/system_status"; "/api/system_status/grid_status";
    "/api/system/update/status"; "/api/site_info"; "/api/system_status/grid_faults";
    "/api/operation"; "/api/site_info/grid_codes"; "/api/solars"; "/api/solars/brands";
    "/api/customer"; "/api/meters"; "/api/installer"; "/api/networks";
    "/api/system/networks"; "/api/meters/readings"; "/api/synchrometer/ct_voltage_references";
    "/api/troubleshooting/problems"; "/api/auth/toggle/supported"; "/api/solar_powerwall" ].

(** The module-level dictionary [proxystats]; the key [authmode] is only
    there once [/stats] or [/help] has been served. *)
Record ProxyStats : Type := MkStats {
  st_pypowerwall : string;
  st_gets : Z;
  st_errors : Z;
  st_timeout : Z;
  st_uri : list (string * Z);
  st_ts : Z;
  st_start : Z;
  st_clear : Z;
  st_uptime : string;
  st_mem : Z;
  st_site_name : pyval;
  st_cloudmode : bool;
  st_siteid : pyval;
  st_counter : Z;
  st_authmode : option string
}.

Definition set_gets (v : Z) (p : ProxyStats) : ProxyStats :=
  MkStats (st_pypowerwall p) v (st_errors p) (st_timeout p) (st_uri p) (st_ts p)
    (st_start p) (st_clear p) (st_uptime p) (st_mem p) (st_site_name p)
    (st_cloudmode p) (st_siteid p) (st_counter p) (st_authmode p).

Definition set_errors (v : Z) (p : ProxyStats) : ProxyStats :=
  MkStats (st_pypowerwall p) (st_gets p) v (st_timeout p) (st_uri p) (st_ts p)
    (st_start p) (st_clear p) (st_uptime p) (st_mem p) (st_site_name p)
    (st_cloudmode p) (st_siteid p) (st_counter p) (st_authmode p).

Definition set_timeout (v : Z) (p : ProxyStats) : ProxyStats :=
  MkStats (st_pypowerwall p) (st_gets p) (st_errors p) v (st_uri p) (st_ts p)
    (st_start p) (st_clear p) (st_uptime p) (st_mem p) (st_site_name p)
    (st_cloudmode p) (st_siteid p) (st_counter p) (st_authmode p).

Definition set_uri (v : list (string * Z)) (p : ProxyStats) : ProxyStats :=
  MkStats (st_pypowerwall p) (st_gets p) (st_errors p) (st_timeout p) v (st_ts p)
    (st_start p) (st_clear p) (st_uptime p) (st_mem p) (st_site_name p)
    (st_cloudmode p) (st_siteid p) (st_counter p) (st_authmode p).

Definition set_clear (v : Z) (p : ProxyStats) : ProxyStats :=
  MkStats (st_pypowerwall p) (st_gets p) (st_errors p) (st_timeout p) (st_uri p) (st_ts p)
    (st_start p) v (st_uptime p) (st_mem p) (st_site_name p)
    (st_cloudmode p) (st_siteid p) (st_counter p) (st_authmode p).

(** The assignments to [ts], [uptime] and [mem] that start the [/stats]
    and [/help] branches. *)
Definition set_ts_uptime_mem (ts : Z) (up : string) (mem : Z) (p : ProxyStats) : ProxyStats :=
  MkStats (st_pypowerwall p) (st_gets p) (st_errors p) (st_timeout p) (st_uri p) ts
    (st_start p) (st_clear p) up mem (st_site_name p)
    (st_cloudmode p) (st_siteid p) (st_counter p) (st_authmode p).

Definition set_site_name_cloudmode (n : pyval) (c : bool) (p : ProxyStats) : ProxyStats :=
  MkStats (st_pypowerwall p) (st_gets p) (st_errors p) (st_timeout p) (st_uri p) (st_ts p)
    (st_start p) (st_clear p) (st_uptime p) (st_mem p) n c
    (st_siteid p) (st_counter p) (st_authmode p).

Definition set_authmode (a : string) (p : ProxyStats) : ProxyStats :=
  MkStats (st_pypowerwall p) (st_gets p) (st_errors p) (st_timeout p) (st_uri p) (st_ts p)
    (st_start p) (st_clear p) (st_uptime p) (st_mem p) (st_site_name p)
    (st_cloudmode p) (st_siteid p) (st_counter p) (Some a).

(** [proxystats] as the dictionary [json.dumps] is given. *)
Definition stats_dict (p : ProxyStats) : pyval :=
  PDict
    ([ ("pypowerwall", PStr (st_pypowerwall p));
       ("gets", PInt (st_gets p));
       ("errors", PInt (st_errors p));
       ("timeout", PInt (st_timeout p));
       ("uri", PDict (map (fun kv => (fst kv, PInt (snd kv))) (st_uri p)));
       ("ts", PInt (st_ts p));
       ("start", PInt (st_start p));
       ("clear", PInt (st_clear p));
       ("uptime", PStr (st_uptime p));
       ("mem", PInt (st_mem p));
       ("site_name", st_site_name p);
       ("cloudmode", PBool (st_cloudmode p));
       ("siteid", st_siteid p);
       ("counter", PInt (st_counter p)) ]
     ++ match st_authmode p with
        | Some a => [("authmode", PStr a)]
        | None => []
        end).

(** The state a request works on: the facade [pw] with the log, and
    [proxystats]. *)
Record ServerSt (S : Type) : Type := MkServerSt {
  facade : FacadeSt S;
  proxystats : ProxyStats
}.
Arguments MkServerSt {S} facade proxystats.
Arguments facade {S} s.
Arguments proxystats {S} s.

(** What a request brings: its path, and the readings of the clock
    ([int(time.time())]) and of [ru_maxrss] while it is served. *)
Record Request : Type := MkRequest {
  path : string;
  now : Z;
  maxrss : Z
}.

(** What the handler sends: [send_response(200)], the headers in the order
    of [send_header], whether [end_headers] was reached, and the body
    written. *)
Record Response : Type := MkResponse {
  status_code : Z;
  headers : list (string * string);
  headers_ended : bool;
  body : option string
}.

(** A call on [pw] from the handler. *)
Definition on_pw {S A} (c : Py (FacadeSt S) A) : Py (ServerSt S) A :=
  fun st =>
    let '(r, f') := c (facade st) in
    (r, MkServerSt f' (proxystats st)).

Definition get_stats {S} : Py (ServerSt S) ProxyStats :=
  fun st => (Ok (proxystats st), st).

Definition modify_stats {S} (f : ProxyStats → ProxyStats) : Py (ServerSt S) unit :=
  fun st => (Ok tt, MkServerSt (facade st) (f (proxystats st))).

Definition get_pw {S} : Py (ServerSt S) (Powerwall S) :=
  fun st => (Ok (self (facade st)), st).

(** [get_value(a, key)]: the value of a key, or [None] and a debug record
    when the key is missing. *)
Definition get_value {S} (a : pyval) (key : string) : Py (FacadeSt S) pyval :=
  has <- lift_outcome (py_contains key a) ;;
  if (has : bool) then lift_outcome (py_getitem a key)
  else log_write (DebugMissingKey key) ;;; ret PNone.

(** [len(message)] *)
Definition py_len (v : pyval) : outcome nat :=
  match v with
  | PStr s => Ok (String.length s)
  | PList l => Ok (length l)
  | PDict d => Ok (length d)
  | _ => Raise TypeError
  end.

(** [message == "ERROR!"] *)
Definition is_error_marker (message : pyval) : bool :=
  match message with PStr s => String.eqb s "ERROR!" | _ => false end.

(** What the handler does not compute from [pw] and [proxystats] itself. *)
(** [str(datetime.timedelta(seconds=delta))] *)
Class TimedeltaStr := timedelta_str : Z → string.
(** The page of [/help], built from [proxystats] and the clock. *)
Class RenderHelp := render_help : ProxyStats → Z → string.
(** The reshaping branches [/alerts/pw], [/freq], [/pod] and [/version]:
    projections of facade calls into flat dictionaries, which work on [pw]
    and the log and leave [proxystats] alone. *)
Class Reshaped (S : Type) := reshaped : string → Py (FacadeSt S) pyval.
(** The static branch after its cookies: [get_static] and [inject_js] of
    module [transform], or the request to the gateway's own web server; it
    gives the further headers and the content written. *)
Class ServeStatic (S : Type) := serve_static : string → Py (FacadeSt S) (list (string * string) * option string).

Section Server.
Context {S : Type}.
Context `{!ClientPoll S, !ClientPower S, !ClientVitals S, !ClientFetchpower S,
          !ClientTimeRemaining S}.
Context `{!JsonDumps, !FloatOfString, !ParseVersion}.
Context `{!StringsFromVitals, !StringsFromSolar, !BlocksFrom}.
Context `{!TimedeltaStr, !RenderHelp, !Reshaped S, !ServeStatic S}.
(** The cookie attributes chosen from [PW_HTTPS] when the module is loaded. *)
Context (cookiesuffix : string).

(** The assignments of the [/stats] and [/help] branches to [proxystats].
    The class [Powerwall] has no attribute [Tesla], so the test
    [pw.cloudmode and pw.Tesla is not None] raises in cloud mode. *)
Definition refresh_stats (req : Request) : Py (ServerSt S) unit :=
  p <- get_stats ;;
  modify_stats
    (set_ts_uptime_mem (now req) (timedelta_str (now req - st_start p)) (maxrss req)) ;;;
  n <- on_pw site_name ;;
  pw <- get_pw ;;
  modify_stats (set_site_name_cloudmode n (pw_cloudmode pw)) ;;;
  (if pw_cloudmode pw then raise (AttributeError "Tesla") else ret tt) ;;;
  modify_stats (set_authmode (pw_authmode pw)).

(** The branch of [/stats/clear]. *)
Definition clear_stats (req : Request) : Py (ServerSt S) pyval :=
  on_pw (log_write DebugClearStats) ;;;
  modify_stats (set_gets 0) ;;;
  modify_stats (set_errors 0) ;;;
  modify_stats (set_uri []) ;;;
  modify_stats (set_clear (now req)) ;;;
  p <- get_stats ;;
  ret (PStr (json_dumps false (stats_dict p))).

(** The branch of [/csv]. *)
Definition csv_message : Py (ServerSt S) pyval :=
  batterylevel <- on_pw (level false) ;;
  g <- on_pw (grid false) ;;
  let grid := py_or g (PInt 0) in
  s <- on_pw (solar false) ;;
  let solar := py_or s (PInt 0) in
  b <- on_pw (battery false) ;;
  let battery := py_or b (PInt 0) in
  h <- on_pw (home false) ;;
  let home := py_or h (PInt 0) in
  line <- lift_outcome (csv_line grid home solar battery batterylevel) ;;
  ret (PStr line).

(** The loop of [/temps/pw]: [pwtemp["PW%d_temp" % idx] = temps[i]]. *)
Fixpoint pwtemp_loop (temps : pyval) (todo : list pyval) (idx : Z)
    (pwtemp : list (string * pyval)) : outcome (list (string * pyval)) :=
  match todo with
  | [] => Ok pwtemp
  | i :: rest =>
      match py_subscript temps i with
      | Ok t =>
          pwtemp_loop temps rest (idx + 1)
            (dict_set (String.concat "" ["PW"; Z_to_string idx; "_temp"]) t pwtemp)
      | Raise e => Raise e
      end
  end.

(** The branch of [/temps/pw]. *)
Definition temps_pw_message : Py (ServerSt S) pyval :=
  temps <- on_pw (temps false) ;;
  todo <- lift_outcome (py_iter temps) ;;
  pwtemp <- lift_outcome (pwtemp_loop temps todo 1 []) ;;
  ret (PStr (json_dumps false (PDict pwtemp))).

Definition reshaped_path (p : string) : bool :=
  existsb (String.eqb p) ["/alerts/pw"; "/freq"; "/pod"; "/version"].

Definition json_type : string := "application/json".

(** The double quote character, and the default body
    [{"problems": []}] of [/api/troubleshooting/problems]. *)
Definition dquote : string := String (Ascii.ascii_of_nat 34) EmptyString.

Definition default_problems : string :=
  String.concat "" ["{"; dquote; "problems"; dquote; ": []}"].

(** The chain of tests on [self.path]: the message and content type of an
    API branch, or [None] when the request falls through to the last
    [else], the static branch. *)
Definition api_message (req : Request) : option (Py (ServerSt S) (pyval * string)) :=
  let p := path req in
  if String.eqb p "/aggregates" || String.eqb p "/api/meters/aggregates" then
    Some (m <- on_pw (poll "/api/meters/aggregates" false false false false) ;; ret (m, json_type))
  else if String.eqb p "/soe" then
    Some (m <- on_pw (poll "/api/system_status/soe" false false false false) ;; ret (m, json_type))
  else if String.eqb p "/api/system_status/soe" then
    Some (l <- on_pw (level true) ;;
          ret (PStr (json_dumps false (PDict [("percentage", l)])), json_type))
  else if String.eqb p "/api/system_status/grid_status" then
    Some (m <- on_pw (poll "/api/system_status/grid_status" false false false false) ;;
          ret (m, json_type))
  else if String.eqb p "/csv" then
    Some (m <- csv_message ;; ret (m, "text/plain; charset=utf-8"))
  else if String.eqb p "/vitals" then
    Some (v <- on_pw (vitals true) ;; ret (py_or v (PDict []), json_type))
  else if String.eqb p "/strings" then
    Some (v <- on_pw (strings true false) ;; ret (py_or v (PDict []), json_type))
  else if String.eqb p "/stats" then
    Some (refresh_stats req ;;;
          st <- get_stats ;;
          ret (PStr (json_dumps false (stats_dict st)), json_type))
  else if String.eqb p "/stats/clear" then
    Some (m <- clear_stats req ;; ret (m, json_type))
  else if String.eqb p "/temps" then
    Some (t <- on_pw (temps true) ;; ret (py_or t (PDict []), json_type))
  else if String.eqb p "/temps/pw" then
    Some (m <- temps_pw_message ;; ret (m, json_type))
  else if String.eqb p "/alerts" then
    Some (a <- on_pw (alerts true true) ;; ret (py_or a (PList []), json_type))
  else if reshaped_path p then
    Some (m <- on_pw (reshaped p) ;; ret (m, json_type))
  else if String.eqb p "/help" then
    Some (refresh_stats req ;;;
          st <- get_stats ;;
          ret (PStr (render_help st (now req)), "text/html"))
  else if String.eqb p "/api/troubleshooting/problems" then
    Some (m <- on_pw (poll "/api/troubleshooting/problems" false false false false) ;;
          ret (py_or m (PStr default_problems), json_type))
  else if existsb (String.eqb p) ALLOWLIST then
    Some (m <- on_pw (poll p false false false false) ;; ret (m, json_type))
  else None.

(** The section [# Count]. *)
Definition count (p : string) (message : pyval) : Py (ServerSt S) pyval :=
  match message with
  | PNone =>
      modify_stats (fun st => set_timeout (st_timeout st + 1) st) ;;;
      ret (PStr "TIMEOUT!")
  | _ =>
      if is_error_marker message then
        modify_stats (fun st => set_errors (st_errors st + 1) st) ;;;
        ret (PStr "ERROR!")
      else
        modify_stats (fun st => set_gets (st_gets st + 1) st) ;;;
        modify_stats (fun st =>
          match dict_get p (st_uri st) with
          | Some n => set_uri (dict_set p (n + 1) (st_uri st)) st
          | None => set_uri (dict_set p 1 (st_uri st)) st
          end) ;;;
        ret message
  end.

(** The section [# Send headers and payload]: [len] and [bytes] of an object
    that is no string raise, which the [except] clause logs. *)
Definition send (contenttype : string) (message : pyval) : Py (ServerSt S) Response :=
  let h1 := [("Content-type", contenttype)] in
  match py_len message with
  | Raise _ =>
      on_pw (log_write ErrorSocketBroken) ;;;
      ret (MkResponse 200 h1 false None)
  | Ok n =>
      let hs := (h1 ++ [("Content-Length", Z_to_string (Z.of_nat n));
                        ("Access-Control-Allow-Origin", "*")])%list in
      match message with
      | PStr s => ret (MkResponse 200 hs true (Some s))
      | _ =>
          on_pw (log_write ErrorSocketBroken) ;;;
          ret (MkResponse 200 hs true None)
      end
  end.

(** The [Set-Cookie] headers of the static branch. *)
Definition auth_cookies (pw : Powerwall S) : outcome (list (string * string)) :=
  if String.eqb (pw_authmode pw) "token" then
    Ok [("Set-Cookie", String.append "AuthCookie=1234567890;" cookiesuffix);
        ("Set-Cookie", String.append "UserRecord=1234567890;" cookiesuffix)]
  else
    match dict_get "AuthCookie" (pw_auth pw) with
    | None => Raise (KeyError (PStr "AuthCookie"))
    | Some a =>
        match dict_get "UserRecord" (pw_auth pw) with
        | None => Raise (KeyError (PStr "UserRecord"))
        | Some u =>
            Ok [("Set-Cookie", String.concat "" ["AuthCookie="; a; ";"; cookiesuffix]);
                ("Set-Cookie", String.concat "" ["UserRecord="; u; ";"; cookiesuffix])]
        end
    end.

(** The last [else] of the chain: the static branch, which counts the
    request in [gets] and returns before the section [# Count]. *)
Definition static_branch (req : Request) : Py (ServerSt S) Response :=
  modify_stats (fun st => set_gets (st_gets st + 1) st) ;;;
  pw <- get_pw ;;
  cookies <- lift_outcome (auth_cookies pw) ;;
  r <- on_pw (serve_static (path req)) ;;
  ret (MkResponse 200 (cookies ++ fst r)%list true (snd r)).

(** [handler.do_GET] *)
Definition do_GET (req : Request) : Py (ServerSt S) Response :=
  match api_message req with
  | Some branch =>
      mc <- branch ;;
      message <- count (path req) (fst mc) ;;
      send (snd mc) message
  | None => static_branch req
  end.

(** Requests served one after the other, as long as none raises. *)
Fixpoint serve (reqs : list Request) : Py (ServerSt S) (list Response) :=
  match reqs with
  | [] => ret []
  | r :: rest =>
      x <- do_GET r ;;
      xs <- serve rest ;;
      ret (x :: xs)
  end.

End Server.

(** ** The calls a user of the facade can make *)

(** The methods of [Powerwall] embedded above, with their arguments. *)
Inductive method : Type :=
| CallPoll (api : string) (jsonformat raw recursive force : bool)
| CallLevel (scale : bool)
| CallPower
| CallVitals (jsonformat : bool)
| CallSite (verbose : bool)
| CallSolar (verbose : bool)
| CallBattery (verbose : bool)
| CallLoad (verbose : bool)
| CallGrid (verbose : bool)
| CallHome (verbose : bool)
| CallSiteName
| CallStatus (param : option string) (jsonformat : bool)
| CallVersion (int_value : bool)
| CallUptime
| CallDin
| CallIsConnected
| CallTemps (jsonformat : bool)
| CallStrings (jsonformat verbose : bool)
| CallAlerts (jsonformat alertsonly : bool)
| CallBatteryBlocks (jsonformat : bool)
| CallGetReserve (scale : bool)
| CallGridStatus (type : string)
| CallSystemStatus (jsonformat : bool)
| CallGetTimeRemaining.

Section Calls.
Context {S : Type}.
Context `{!ClientPoll S, !ClientPower S, !ClientVitals S, !ClientFetchpower S,
          !ClientTimeRemaining S}.
Context `{!JsonDumps, !FloatOfString, !ParseVersion}.
Context `{!StringsFromVitals, !StringsFromSolar, !BlocksFrom}.

Definition call (m : method) : Py (FacadeSt S) pyval :=
  match m with
  | CallPoll api j r rc f => poll api j r rc f
  | CallLevel s => level s
  | CallPower => power
  | CallVitals j => vitals j
  | CallSite v => site v
  | CallSolar v => solar v
  | CallBattery v => battery v
  | CallLoad v => load v
  | CallGrid v => grid v
  | CallHome v => home v
  | CallSiteName => site_name
  | CallStatus p j => status p j
  | CallVersion i => version i
  | CallUptime => uptime
  | CallDin => din
  | CallIsConnected => b <- is_connected ;; ret (PBool b)
  | CallTemps j => temps j
  | CallStrings j v => strings j v
  | CallAlerts j a => alerts j a
  | CallBatteryBlocks j => battery_blocks j
  | CallGetReserve s => get_reserve s
  | CallGridStatus t => grid_status t
  | CallSystemStatus j => system_status j
  | CallGetTimeRemaining => get_time_remaining
  end.

(** The object after a sequence of calls; a call that raises leaves the
    object as it was when the exception came up, and the next call goes on
    from there. *)
Fixpoint after_calls (ms : list method) (st : FacadeSt S) : FacadeSt S :=
  match ms with
  | [] => st
  | m :: rest => after_calls rest (snd (call m st))
  end.

End Calls.

(** * More of the handler: the branches [/version], [/freq] and [/pod] *)

(** ** Strings and integers *)

(** A string is read as the sequence of its characters, each a code point
    below 256. *)

(** [s.split(sep)] for a separator of one character. *)
Fixpoint split_char (sep : Ascii.ascii) (s : string) : list string :=
  match s with
  | EmptyString => [EmptyString]
  | String c s' =>
      if Ascii.eqb c sep then EmptyString :: split_char sep s'
      else match split_char sep s' with
           | h :: t => String c h :: t
           | [] => [String c EmptyString]
           end
  end.

(** [c.isdigit()]: the digits [0] to [9] and, below 256, the superscripts
    two, three and one. *)
Definition py_isdigit (c : Ascii.ascii) : bool :=
  let n := Ascii.nat_of_ascii c in
  ((48 <=? n)%nat && (n <=? 57)%nat) || Nat.eqb n 178 || Nat.eqb n 179 || Nat.eqb n 185.

(** [c in './\\'] *)
Definition version_punct (c : Ascii.ascii) : bool :=
  let n := Ascii.nat_of_ascii c in
  Nat.eqb n 46 || Nat.eqb n 47 || Nat.eqb n 92.

(** [''.join(i for i in val if i.isdigit() or i in './\\')] *)
Fixpoint version_chars (val : string) : string :=
  match val with
  | EmptyString => EmptyString
  | String c s =>
      if py_isdigit c || version_punct c then String c (version_chars s)
      else version_chars s
  end.

(** [int(x, 10)] for a string of the characters [version_chars] keeps: the
    number written by its decimal digits, and [ValueError] for the empty
    string and for a string with any other character. (The interpreter's
    limit on the number of digits of a literal, for which it raises
    [ValueError] as well, is not modelled.) *)
Definition int10 (x : string) : outcome Z :=
  match x with
  | EmptyString => Raise (ValueError "invalid literal for int() with base 10")
  | _ =>
      match NilEmpty.uint_of_string x with
      | Some d => Ok (Z.of_N (N.of_uint d))
      | None => Raise (ValueError "invalid literal for int() with base 10")
      end
  end.

(** [[int(x, 10) for x in xs]]: the first string that is no number raises. *)
Fixpoint int10_all (xs : list string) : outcome (list Z) :=
  match xs with
  | [] => Ok []
  | x :: rest =>
      match int10 x with
      | Raise e => Raise e
      | Ok n =>
          match int10_all rest with
          | Raise e => Raise e
          | Ok ns => Ok (n :: ns)
          end
      end
  end.

(** [while len(val.split('.')) < 3: val = val + ".0"]; a string has at least
    one component, so two rounds are the most the loop makes. *)
Fixpoint pad_version (rounds : nat) (val : string) : string :=
  match rounds with
  | O => val
  | Datatypes.S n =>
      if (length (split_char (Ascii.ascii_of_nat 46) val) <? 3)%nat
      then pad_version n (String.append val ".0")
      else val
  end.

(** [sum(x * (100 ** i) for i, x in enumerate(l))] *)
Fixpoint weighted_sum (i : Z) (l : list Z) : Z :=
  match l with
  | [] => 0
  | x :: rest => x * 100 ^ i + weighted_sum (i + 1) rest
  end.

(** The integer [vint] that [/version] computes from a version string. *)
Definition vint_of (version : string) : outcome Z :=
  let val := hd EmptyString (split_char (Ascii.ascii_of_nat 32) version) in
  let val := version_chars val in
  let val := pad_version 2 val in
  match int10_all (split_char (Ascii.ascii_of_nat 46) val) with
  | Raise e => Raise e
  | Ok l => Ok (weighted_sum 0 (rev l))
  end.

(** [int(f)] for a float: the integer part, towards zero. *)
Definition float_trunc (f : float) : outcome Z :=
  match Prim2SF f with
  | S754_nan => Raise (ValueError "cannot convert float NaN to integer")
  | S754_infinity _ => Raise OverflowError
  | S754_zero _ => Ok 0
  | S754_finite s m e =>
      let a := match e with
               | Zneg k => Zpos m / 2 ^ Zpos k
               | _ => Zpos m * 2 ^ e
               end in
      Ok (if s then - a else a)
  end.

(** [int(s)] for a string: the parsed number, or [None] for [ValueError] *)
Class IntOfString := int_of_string : string → option Z.

(** [int(x)] *)
Definition py_int `{!IntOfString} (x : pyval) : outcome Z :=
  match x with
  | PBool b => Ok (Z_of_bool b)
  | PInt z => Ok z
  | PFloat f => float_trunc f
  | PStr s =>
      match int_of_string s with
      | Some z => Ok z
      | None => Raise (ValueError "invalid literal for int() with base 10")
      end
  | _ => Raise TypeError
  end.

(** ** The three branches *)

(** Where the value of a key of the flat dictionaries of [/freq] and
    [/pod] comes from: the placeholder [None], the device name, a field
    read with [get_value], or [int] of such a field. *)
Inductive cell : Type :=
| CNone
| CName
| CField (key : string)
| CInt (key : string).

(** ["PW%d" % idx] followed by the rest of the key. *)
Definition pwkey (idx : Z) (suffix : string) : string :=
  String.concat "" ["PW"; Z_to_string idx; suffix].

(** The assignments of the loop over [battery_blocks] in [/freq]. *)
Definition freq_block_rows : list (string * cell) :=
  [ ("_name", CNone);
    ("_PINV_Fout", CField "f_out");
    ("_PINV_VSplit1", CNone);
    ("_PINV_VSplit2", CNone);
    ("_PackagePartNumber", CField "PackagePartNumber");
    ("_PackageSerialNumber", CField "PackageSerialNumber");
    ("_p_out", CField "p_out");
    ("_q_out", CField "q_out");
    ("_v_out", CField "v_out");
    ("_f_out", CField "f_out");
    ("_i_out", CField "i_out") ].

(** The assignments for a [TEPINV] device in [/freq]. *)
Definition freq_device_rows : list (string * cell) :=
  [ ("_name", CName);
    ("_PINV_Fout", CField "PINV_Fout");
    ("_PINV_VSplit1", CField "PINV_VSplit1");
    ("_PINV_VSplit2", CField "PINV_VSplit2") ].

(** The assignments of the loop over [battery_blocks] in [/pod]. *)
Definition pod_block_rows : list (string * cell) :=
  [ ("_name", CNone);
    ("_POD_ActiveHeating", CNone);
    ("_POD_ChargeComplete", CNone);
    ("_POD_ChargeRequest", CNone);
    ("_POD_DischargeComplete", CNone);
    ("_POD_PermanentlyFaulted", CNone);
    ("_POD_PersistentlyFaulted", CNone);
    ("_POD_enable_line", CNone);
    ("_POD_available_charge_power", CNone);
    ("_POD_available_dischg_power", CNone);
    ("_POD_nom_energy_remaining", CNone);
    ("_POD_nom_energy_to_be_charged", CNone);
    ("_POD_nom_full_pack_energy", CNone);
    ("_POD_nom_energy_remaining", CField "nominal_energy_remaining");
    ("_POD_nom_full_pack_energy", CField "nominal_full_pack_energy");
    ("_PackagePartNumber", CField "PackagePartNumber");
    ("_PackageSerialNumber", CField "PackageSerialNumber");
    ("_pinv_state", CField "pinv_state");
    ("_pinv_grid_state", CField "pinv_grid_state");
    ("_p_out", CField "p_out");
    ("_q_out", CField "q_out");
    ("_v_out", CField "v_out");
    ("_f_out", CField "f_out");
    ("_i_out", CField "i_out");
    ("_energy_charged", CField "energy_charged");
    ("_energy_discharged", CField "energy_discharged");
    ("_off_grid", CInt "off_grid");
    ("_vf_mode", CInt "vf_mode");
    ("_wobble_detected", CInt "wobble_detected");
    ("_charge_power_clamped", CInt "charge_power_clamped");
    ("_backup_ready", CInt "backup_ready");
    ("_OpSeqState", CField "OpSeqState");
    ("_version", CField "version") ].

(** The assignments for a [TEPOD] device in [/pod]. *)
Definition pod_device_rows : list (string * cell) :=
  [ ("_name", CName);
    ("_POD_ActiveHeating", CInt "POD_ActiveHeating");
    ("_POD_ChargeComplete", CInt "POD_ChargeComplete");
    ("_POD_ChargeRequest", CInt "POD_ChargeRequest");
    ("_POD_DischargeComplete", CInt "POD_DischargeComplete");
    ("_POD_PermanentlyFaulted", CInt "POD_PermanentlyFaulted");
    ("_POD_PersistentlyFaulted", CInt "POD_PersistentlyFaulted");
    ("_POD_enable_line", CInt "POD_enable_line");
    ("_POD_available_charge_power", CField "POD_available_charge_power");
    ("_POD_available_dischg_power", CField "POD_available_dischg_power");
    ("_POD_nom_energy_remaining", CField "POD_nom_energy_remaining");
    ("_POD_nom_energy_to_be_charged", CField "POD_nom_energy_to_be_charged");
    ("_POD_nom_full_pack_energy", CField "POD_nom_full_pack_energy") ].

Section Branches.
Context {S : Type}.
Context `{!ClientPoll S, !ClientPower S, !ClientVitals S, !ClientFetchpower S,
          !ClientTimeRemaining S}.
Context `{!JsonDumps, !FloatOfString, !ParseVersion, !IntOfString}.

(** The branch of [/version]: [pw.version()], and the version with its
    integer, or ["SolarOnly"] and 0 when there is no version. *)
Definition version_branch : Py (FacadeSt S) pyval :=
  version <- version false ;;
  match version with
  | PNone =>
      ret (PStr (json_dumps false (PDict [("version", PStr "SolarOnly"); ("vint", PInt 0)])))
  | PStr s =>
      vint <- lift_outcome (vint_of s) ;;
      ret (PStr (json_dumps false (PDict [("version", PStr s); ("vint", PInt vint)])))
  | _ => raise (AttributeError "split")
  end.

(** The value of one cell read from the object [a] ([block] or the vitals
    of a device) for the device called [name]. *)
Definition cell_value (a name : pyval) (c : cell) : Py (FacadeSt S) pyval :=
  match c with
  | CNone => ret PNone
  | CName => ret name
  | CField k => get_value a k
  | CInt k =>
      v <- get_value a k ;;
      n <- lift_outcome (py_int v) ;;
      ret (PInt n)
  end.

(** The assignments [out["PW%d..." % idx] = ...] of one round of a loop,
    in their order. *)
Fixpoint assign_rows (a name : pyval) (idx : Z) (rows : list (string * cell))
    (out : list (string * pyval)) : Py (FacadeSt S) (list (string * pyval)) :=
  match rows with
  | [] => ret out
  | (suffix, c) :: rest =>
      v <- cell_value a name c ;;
      assign_rows a name idx rest (dict_set (pwkey idx suffix) v out)
  end.

(** [for block in d["battery_blocks"]: ...; idx = idx + 1] *)
Fixpoint blocks_loop (rows : list (string * cell)) (blocks : list pyval) (idx : Z)
    (out : list (string * pyval)) : Py (FacadeSt S) (list (string * pyval)) :=
  match blocks with
  | [] => ret out
  | block :: rest =>
      out' <- assign_rows block PNone idx rows out ;;
      blocks_loop rows rest (idx + 1) out'
  end.

(** [d = pw.system_status() or {}] and, when it has the key
    [battery_blocks], the loop over the blocks. *)
Definition blocks_part (rows : list (string * cell)) (d : pyval)
    (out : list (string * pyval)) : Py (FacadeSt S) (list (string * pyval)) :=
  has <- lift_outcome (py_contains "battery_blocks" d) ;;
  if (has : bool) then
    bs <- lift_outcome (py_getitem d "battery_blocks") ;;
    blocks <- lift_outcome (py_iter bs) ;;
    blocks_loop rows blocks 1 out
  else ret out.

(** [for i in d: if i.startswith('ISLAND') or i.startswith('METER'):
    fcv[i] = d[i]] *)
Fixpoint island_meter_loop (d : pyval) (todo : list pyval)
    (fcv : list (string * pyval)) : outcome (list (string * pyval)) :=
  match todo with
  | [] => Ok fcv
  | PStr i :: rest =>
      if String.prefix "ISLAND" i || String.prefix "METER" i then
        match py_subscript d (PStr i) with
        | Ok v => island_meter_loop d rest (dict_set i v fcv)
        | Raise e => Raise e
        end
      else island_meter_loop d rest fcv
  | _ :: _ => Raise (AttributeError "startswith")
  end.

(** The loop of [/freq] over the vitals. *)
Fixpoint freq_devices_loop (vitals : pyval) (todo : list pyval) (idx : Z)
    (fcv : list (string * pyval)) : Py (FacadeSt S) (list (string * pyval)) :=
  match todo with
  | [] => ret fcv
  | device :: rest =>
      d <- lift_outcome (py_subscript vitals device) ;;
      match device with
      | PStr name =>
          r <- (if String.prefix "TEPINV" name then
                  fcv' <- assign_rows d device idx freq_device_rows fcv ;;
                  ret (fcv', idx + 1)
                else ret (fcv, idx)) ;;
          fcv'' <- (if String.prefix "TESYNC" name || String.prefix "TEMSA" name then
                      keys <- lift_outcome (py_iter d) ;;
                      lift_outcome (island_meter_loop d keys (fst r))
                    else ret (fst r)) ;;
          freq_devices_loop vitals rest (snd r) fcv''
      | _ => raise (AttributeError "startswith")
      end
  end.

(** The branch of [/freq]. *)
Definition freq_branch : Py (FacadeSt S) pyval :=
  ss <- system_status false ;;
  let d := py_or ss (PDict []) in
  fcv <- blocks_part freq_block_rows d [] ;;
  v <- vitals false ;;
  let vitals := py_or v (PDict []) in
  todo <- lift_outcome (py_iter vitals) ;;
  fcv <- freq_devices_loop vitals todo 1 fcv ;;
  gs <- grid_status "numeric" ;;
  ret (PStr (json_dumps false (PDict (dict_set "grid_status" gs fcv)))).

(** The loop of [/pod] over the vitals. *)
Fixpoint pod_devices_loop (vitals : pyval) (todo : list pyval) (idx : Z)
    (pod : list (string * pyval)) : Py (FacadeSt S) (list (string * pyval)) :=
  match todo with
  | [] => ret pod
  | device :: rest =>
      v <- lift_outcome (py_subscript vitals device) ;;
      match device with
      | PStr name =>
          if String.prefix "TEPOD" name then
            pod' <- assign_rows v device idx pod_device_rows pod ;;
            pod_devices_loop vitals rest (idx + 1) pod'
          else pod_devices_loop vitals rest idx pod
      | _ => raise (AttributeError "startswith")
      end
  end.

(** [if pod:] the data polled only when there is battery data. *)
Definition pod_aggregate (d : pyval) (pod : list (string * pyval))
    : Py (FacadeSt S) (list (string * pyval)) :=
  match pod with
  | [] => ret pod
  | _ =>
      t <- get_time_remaining ;;
      let pod := dict_set "time_remaining_hours" t pod in
      r <- get_reserve true ;;
      let pod := dict_set "backup_reserve_percent" r pod in
      f <- get_value d "nominal_full_pack_energy" ;;
      let pod := dict_set "nominal_full_pack_energy" f pod in
      e <- get_value d "nominal_energy_remaining" ;;
      ret (dict_set "nominal_energy_remaining" e pod)
  end.

(** The branch of [/pod]. *)
Definition pod_branch : Py (FacadeSt S) pyval :=
  ss <- system_status false ;;
  let d := py_or ss (PDict []) in
  pod <- blocks_part pod_block_rows d [] ;;
  v <- vitals false ;;
  let vitals := py_or v (PDict []) in
  todo <- lift_outcome (py_iter vitals) ;;
  pod <- pod_devices_loop vitals todo 1 pod ;;
  pod <- pod_aggregate d pod ;;
  ret (PStr (json_dumps false (PDict pod))).

(** The reshaping branches as the handler has them; [/alerts/pw] is the one
    left as given. *)
Definition handler_reshaped (alerts_pw : Py (FacadeSt S) pyval) : Reshaped S :=
  fun p =>
    if String.eqb p "/freq" then freq_branch
    else if String.eqb p "/pod" then pod_branch
    else if String.eqb p "/version" then version_branch
    else alerts_pw.

End Branches.

(** ** The response cache of the backend clients *)

Module ResponseCache.

(** Modelled from the spec: the CacheEntry of the design's data model, the
    payload of an API path and the time it was fetched; the entries are kept
    in a map keyed by the path. The backend clients that own the cache
    ([PyPowerwallLocal] and [PyPowerwallCloud]) are in modules that are not
    among the sources. *)
Record CacheEntry : Type := MkEntry {
  payload : pyval;
  fetchedAt : Z
}.

(** Modelled from the spec: the state of a backend client, which is not
    among the sources: the cache, the clock the client reads, the replies
    of the device (to the fetch of a path that is the n-th fetch issued,
    [None] for a failed fetch), and the network fetches issued so far,
    latest first. *)
Record ClientState : Type := MkClient {
  cache : gmap string CacheEntry;
  clock : Z;
  upstream : string → nat → option pyval;
  fetched : list string
}.

(** [pwcacheexpire], given to either constructor. *)
Definition cache_expire (b : backend) : Z :=
  match b with
  | PyPowerwallCloud _ e _ _ _ => e
  | PyPowerwallLocal _ _ _ _ _ e _ _ _ => e
  end.

(** Modelled from the spec: an entry is served while it is younger than the
    time-to-live; the client code that decides it is not among the
    sources. *)
Definition fresh (ttl now : Z) (e : CacheEntry) : bool := now - fetchedAt e <? ttl.

(** Modelled from the spec: the method [poll] of the backend clients
    ([PyPowerwallLocal.poll] and [PyPowerwallCloud.poll], not among the
    sources), as the design's ResponseCache. With the cache not bypassed, an
    entry of the path that is not stale is returned at once: no fetch, no
    change. Otherwise the backend fetches: a successful fetch is stored
    with the current time and returned; a failed one is reported as an
    absent payload and not stored, and the stale entry is dropped unless
    the call is a raw one. *)
Definition cache_poll : ClientPoll ClientState :=
  fun b api force recursive raw c =>
    let hit :=
      if force then None
      else match cache c !! api with
           | Some e => if fresh (cache_expire b) (clock c) e then Some e else None
           | None => None
           end in
    match hit with
    | Some e => (Ok (payload e), c)
    | None =>
        match upstream c api (length (fetched c)) with
        | Some p =>
            (Ok p, MkClient (<[api := MkEntry p (clock c)]> (cache c)) (clock c)
                     (upstream c) (api :: fetched c))
        | None =>
            (Ok PNone, MkClient (if raw then cache c else delete api (cache c)) (clock c)
                         (upstream c) (api :: fetched c))
        end
    end.

(** The world moves on: the clock of the client reads [t]. *)
Definition at_time (t : Z) (st : FacadeSt ClientState) : FacadeSt ClientState :=
  let c := cst (pw_client (self st)) in
  MkFacadeSt
    (with_client_state (self st) (MkClient (cache c) t (upstream c) (fetched c)))
    (logs st).

Definition client_of (st : FacadeSt ClientState) : ClientState := cst (pw_client (self st)).

Definition ttl_of (st : FacadeSt ClientState) : Z := cache_expire (cls (pw_client (self st))).

(** The number of network fetches issued so far. *)
Definition fetch_count (st : FacadeSt ClientState) : nat := length (fetched (client_of st)).

(** Modelled from the spec: the entry of a path that a poll without bypass
    serves at once, the one in the cache when it is not stale. *)
Definition fresh_entry (st : FacadeSt ClientState) (api : string) : option CacheEntry :=
  match cache (client_of st) !! api with
  | Some e => if fresh (ttl_of st) (clock (client_of st)) e then Some e else None
  | None => None
  end.

(** Modelled from the spec: the time [t2] is within the window that a poll
    of [api] in the state [st] finds open or opens: within the lifetime of
    the entry the poll serves or, when the poll has to fetch, the fetch
    succeeds and [t2] is within the lifetime of an entry fetched now. A
    failed fetch is not cached and opens no window. *)
Definition within_window (st : FacadeSt ClientState) (api : string) (t2 : Z) : Prop :=
  match fresh_entry st api with
  | Some e => t2 - fetchedAt e < ttl_of st
  | None =>
      upstream (client_of st) api (fetch_count st) ≠ None
      ∧ t2 - clock (client_of st) < ttl_of st
  end.

End ResponseCache.

(** ** The vocabulary of the properties *)

(** An object that is no list index. *)
Definition no_index (x : pyval) : Prop :=
  match x with PInt _ | PBool _ => False | _ => True end.

Section FacadeVocabulary.
Context {S : Type}.

(** The raw states of the table of [grid_status]. *)
Definition known_grid_state (s : string) : bool := dict_mem s gridmap.

(** A raw battery percentage: a float, or an integer from 0 to 100. *)
Definition raw_percent (r : pyval) : Prop :=
  match r with
  | PFloat _ => True
  | PInt z => 0 ≤ z ≤ 100
  | _ => False
  end.

(** [z == f] for an integer and a float, which Python decides on the exact
    values. *)
Definition float_is_int (f : float) (z : Z) : bool :=
  match Prim2SF f with
  | S754_zero _ => z =? 0
  | S754_finite s m e =>
      let a := if s then - z else z in
      match e with
      | Zneg k => Zpos m =? a * 2 ^ Zpos k
      | _ => Zpos m * 2 ^ e =? a
      end
  | _ => false
  end.

(** [r == f] for a number [r] and a float [f]. *)
Definition same_number (r : pyval) (f : float) : Prop :=
  match r with
  | PFloat g => g = f
  | PInt z => float_is_int f z = true
  | _ => False
  end.

(** [p'] is [p] with a client whose inside may have changed: every
    attribute of the facade, and the class and constructor arguments of the
    client, are those of [p]. *)
Definition same_object (p p' : Powerwall S) : Prop :=
  ∃ s, p' = with_client_state p s.

(** A computation that leaves [self] the same object. *)
Definition keeps_self {A} (c : Py (FacadeSt S) A) : Prop :=
  ∀ st, same_object (self st) (self (snd (c st))).

End FacadeVocabulary.

Section ServerVocabulary.
Context {S : Type}.
Context `{!ClientPoll S, !ClientPower S, !ClientVitals S, !ClientFetchpower S,
          !ClientTimeRemaining S}.
Context `{!JsonDumps, !FloatOfString, !ParseVersion}.
Context `{!StringsFromVitals, !StringsFromSolar, !BlocksFrom}.
Context `{!TimedeltaStr, !RenderHelp, !Reshaped S, !ServeStatic S}.
Implicit Types (st : ServerSt S) (req : Request) (p : ProxyStats).

(** The hit counter of a path: the entry of [proxystats['uri']], 0 when
    there is none. *)
Definition hits (q : string) (uri : list (string * Z)) : Z :=
  match dict_get q uri with Some n => n | None => 0 end.

(** [proxystats] after the [else] of the section [# Count]. *)
Definition counted_get (q : string) p : ProxyStats :=
  let p1 := set_gets (st_gets p + 1) p in
  match dict_get q (st_uri p1) with
  | Some n => set_uri (dict_set q (n + 1) (st_uri p1)) p1
  | None => set_uri (dict_set q 1 (st_uri p1)) p1
  end.

(** The three headers of an API response whose body has [n] characters. *)
Definition api_headers (contenttype : string) (n : nat) : list (string * string) :=
  [("Content-type", contenttype);
   ("Content-Length", Z_to_string (Z.of_nat n));
   ("Access-Control-Allow-Origin", "*")].

(** A finite float. *)
Definition is_finite (f : float) : bool :=
  match Prim2SF f with
  | S754_zero _ | S754_finite _ _ _ => true
  | _ => false
  end.

(** [v] is a number, [f] the finite float it is printed as. *)
Definition real_number (v : pyval) (f : float) : Prop :=
  as_float v = Ok f ∧ is_finite f = true.

Definition is_digit (c : Ascii.ascii) : bool :=
  let n := Ascii.nat_of_ascii c in (48 <=? n)%nat && (n <=? 57)%nat.

Fixpoint all_digits (s : string) : bool :=
  match s with
  | EmptyString => true
  | String c s' => is_digit c && all_digits s'
  end.

(** A number printed with two decimal places: an optional minus sign, at
    least one digit, a point, two digits. *)
Definition two_decimals (s : string) : Prop :=
  ∃ sign int frac,
    s = String.append sign (String.append int (String.append "." frac))
    ∧ (sign = "" ∨ sign = "-")
    ∧ int ≠ "" ∧ all_digits int = true
    ∧ all_digits frac = true ∧ String.length frac = 2%nat.

(** The counters of [p'] are those of [p]. *)
Definition same_counters p p' : Prop :=
  st_gets p' = st_gets p ∧ st_errors p' = st_errors p
  ∧ st_timeout p' = st_timeout p ∧ st_uri p' = st_uri p
  ∧ st_start p' = st_start p.

(** A computation that leaves the counters alone. *)
Definition keeps_counters {A} (c : Py (ServerSt S) A) : Prop :=
  ∀ st, same_counters (proxystats st) (proxystats (snd (c st))).

(** The static branch: does the request fall through the chain? *)
Definition is_static req : bool :=
  match api_message req with Some _ => false | None => true end.

(** One request counted once: either in [gets], and then, for an API
    branch, also in the hit counter of its path; or, for an API branch, in
    [errors] or in [timeout], the hit counters unchanged. *)
Definition counted_once (static : bool) (q : string) p p' : Prop :=
  (st_gets p' = st_gets p + 1 ∧ st_errors p' = st_errors p
   ∧ st_timeout p' = st_timeout p
   ∧ ∀ q', hits q' (st_uri p')
           = hits q' (st_uri p) + (if static then 0 else if String.eqb q q' then 1 else 0))
  ∨ (static = false
     ∧ ((st_gets p' = st_gets p ∧ st_errors p' = st_errors p + 1
         ∧ st_timeout p' = st_timeout p)
        ∨ (st_gets p' = st_gets p ∧ st_errors p' = st_errors p
           ∧ st_timeout p' = st_timeout p + 1))
     ∧ ∀ q', hits q' (st_uri p') = hits q' (st_uri p)).

(** The requests of a list that an API branch serves for the path [q]. *)
Definition api_requests (q : string) (reqs : list Request) : Z :=
  Z.of_nat (length (List.filter (λ r, negb (is_static r) && String.eqb (path r) q) reqs)).

(** What [poll] returns for a payload: the payload, or its JSON text. *)
Definition rendered (jsonformat : bool) (v : pyval) : pyval :=
  if jsonformat then PStr (json_dumps false v) else v.

End ServerVocabulary.

(** ** A table-driven client and stand-ins, to run the code on examples *)

Module Demo.

(** A client whose replies are read from a table: [poll] looks the API path
    up, [fetchpower] the sensor name; nothing is cached or changed. *)
Definition table : Type := list (string * pyval).

Definition reply (k : string) (t : table) : pyval :=
  match dict_get k t with Some v => v | None => PNone end.

Definition demo_new : ClientNew table := fun _ => Ok [].

Definition demo_authenticate : ClientAuthenticate table := fun _ t => (Ok tt, t).

Definition demo_poll : ClientPoll table := fun _ api _ _ _ t => (Ok (reply api t), t).

Definition demo_power : ClientPower table := fun _ t => (Ok (reply "power" t), t).

Definition demo_vitals : ClientVitals table := fun _ t => (Ok (reply "vitals" t), t).

Definition demo_fetchpower : ClientFetchpower table :=
  fun _ sensor _ t => (Ok (reply sensor t), t).

Definition demo_time_remaining : ClientTimeRemaining table :=
  fun _ t => (Ok (reply "time_remaining" t), t).

(** A stand-in for [json.dumps] that only tells the kinds of value apart. *)
Definition demo_dumps : JsonDumps :=
  fun _ v =>
    match v with
    | PNone => "null"
    | PBool true => "true"
    | PBool false => "false"
    | PInt z => if z <? 0 then String.append "-" (Z_to_string (- z)) else Z_to_string z
    | PFloat f => format_2f f
    | PStr s => String.concat "" [dquote; s; dquote]
    | PList _ => "[...]"
    | PDict _ => "{...}"
    end.

Definition demo_float_of_string : FloatOfString := fun _ => None.

Definition demo_parse_version : ParseVersion := fun _ => Ok PNone.

Definition demo_expanduser : ExpandUser := fun p => p.

Definition demo_strings_from_vitals : StringsFromVitals := fun _ _ => Ok (PDict []).

Definition demo_strings_from_solar : StringsFromSolar := fun _ => Ok (PDict []).

Definition demo_blocks_from : BlocksFrom := fun _ _ => Ok (PDict []).

Definition demo_timedelta : TimedeltaStr := fun d => Z_to_string d.

Definition demo_help : RenderHelp := fun _ _ => "<html></html>".

Definition demo_reshaped : Reshaped table := fun _ => ret (PStr "{}").

Definition demo_static : ServeStatic table :=
  fun _ => ret ([("Content-type", "text/plain")], Some "Not Found").

(** A facade in local mode over a table of replies, with an empty log. *)
Definition demo_pw (t : table) : Powerwall table :=
  MkPowerwall ".powerwall" "10.0.1.99" "password" "email@example.com"
    "America/Los_Angeles" 5 15 [] None [] [] 5 false None "" "cookie" 0 true
    (Client (PyPowerwallLocal "10.0.1.99" "password" "email@example.com"
               "America/Los_Angeles" 5 5 15 "cookie" ".powerwall") t).

Definition demo_facade (t : table) : FacadeSt table := MkFacadeSt (demo_pw t) [].

(** [proxystats] with the given counters, started at time 1000. *)
Definition demo_stats (gets errors timeout : Z) (uri : list (string * Z)) : ProxyStats :=
  MkStats "0.8.0 Proxy t43" gets errors timeout uri 1000 1000 1000 "" 0 (PStr "")
    false PNone 0 None.

Definition demo_server (t : table) (p : ProxyStats) : ServerSt table :=
  MkServerSt (demo_facade t) p.

(** The same with bearer token authentication ([PW_AUTH_MODE=token]). *)
Definition demo_token_pw (t : table) : Powerwall table :=
  MkPowerwall ".powerwall" "10.0.1.99" "password" "email@example.com"
    "America/Los_Angeles" 5 15 [] None [] [] 5 false None "" "token" 0 true
    (Client (PyPowerwallLocal "10.0.1.99" "password" "email@example.com"
               "America/Los_Angeles" 5 5 15 "token" ".powerwall") t).

Definition demo_token_server (t : table) (p : ProxyStats) : ServerSt table :=
  MkServerSt (MkFacadeSt (demo_token_pw t) []) p.

(** A gateway that reports a battery at 50 percent, a reserve of 50
    percent and a grid that is connected. *)
Definition telemetry : table :=
  [ ("/api/system_status/soe", PDict [("percentage", PInt 50)]);
    ("/api/operation", PDict [("backup_reserve_percent", PInt 50)]);
    ("/api/system_status/grid_status",
     PDict [("grid_status", PStr "SystemGridConnected"); ("grid_services_active", PBool false)]);
    ("site", PFloat 1234.5); ("solar", PInt 3); ("battery", PFloat (-250.25)) ].

(** The facade the constructor builds when no host is given. *)
Definition cloud_pw : Powerwall table :=
  MkPowerwall ".powerwall" "" "password" "email@example.com" "America/Los_Angeles"
    5 15 [] None [] [] 5 true None "" "cookie" 0 true
    (Client (PyPowerwallCloud "email@example.com" 5 5 None "") []).

(** Three requests to API branches, all answered with a payload. *)
Definition three_requests : list Request :=
  [MkRequest "/soe" 1000 0; MkRequest "/api/system_status/grid_status" 1001 0;
   MkRequest "/soe" 1002 0].

(** A gateway that answers every fetch of [/api/status] with a version, and
    a local-mode facade over it with a cache lifetime of 5 seconds: the
    cache is empty at time 100. *)
Definition status_payload : pyval := PDict [("version", PStr "23.44.0")].

Definition gateway (api : string) (n : nat) : option pyval :=
  if String.eqb api "/api/status" then Some status_payload else None.

Definition cold_facade : FacadeSt ResponseCache.ClientState :=
  MkFacadeSt
    (MkPowerwall ".powerwall" "10.0.1.99" "password" "email@example.com"
       "America/Los_Angeles" 5 15 [] None [] [] 5 false None "" "cookie" 0 true
       (Client (PyPowerwallLocal "10.0.1.99" "password" "email@example.com"
                  "America/Los_Angeles" 5 5 15 "cookie" ".powerwall")
          (ResponseCache.MkClient ∅ 100 gateway [])))
    [].

(** The facade after a first poll at time 100. *)
Definition warm_facade : FacadeSt ResponseCache.ClientState :=
  snd (@poll _ ResponseCache.cache_poll demo_dumps "/api/status" false false false false
         cold_facade).

(** A stand-in for [int] of a string that parses nothing. *)
Definition demo_int_of_string : IntOfString := fun _ => None.

(** A client whose gateway does not answer: every poll gives [None]. *)
Definition demo_poll_down : ClientPoll table := fun _ _ _ _ _ t => (Ok PNone, t).

(** A gateway that reports its firmware version and its identifier. *)
Definition status_table : table :=
  [ ("/api/status",
     PDict [("version", PStr "23.44.0 eb113390"); ("din", PStr "1232100-00-E--TG0123")]) ].

(** A gateway whose battery level and reserve are null. *)
Definition null_table : table :=
  [ ("/api/system_status/soe", PDict [("percentage", PNone)]);
    ("/api/operation", PDict [("backup_reserve_percent", PNone)]) ].

(** A gateway without vitals that reports the alerts of its inverters. *)
Definition solar_alerts_table : table :=
  [ ("/api/solar_powerwall",
     PDict [("pvac_alerts", PDict [("PVAC_a", PBool true); ("PVAC_b", PBool false)]);
            ("pvs_alerts", PDict [("PVS_a", PBool true)])]) ].

(** Vitals with a thermal controller and a battery pod. *)
Definition thermal_table : table :=
  [ ("vitals",
     PDict [("TETHC--1", PDict [("THC_AmbientTemp", PFloat 21.5)]);
            ("TEPOD--1", PDict [])]) ].

(** A gateway that answers the aggregates with a text. *)
Definition text_table : table := [ ("/api/meters/aggregates", PStr "{}") ].

(** A system status with one battery block that has the flag [off_grid]
    and lacks the others. *)
Definition battery_table : table :=
  [ ("/api/system_status",
     PDict [("battery_blocks",
             PList [PDict [("PackageSerialNumber", PStr "TG0123"); ("off_grid", PInt 0)]])]) ].

End Demo.

(** * Properties *)

(** ** Dictionaries *)

Section DictFacts.
Context {V : Type}.
Implicit Types (d : list (string * V)) (k : string) (v : V).

Lemma dict_get_set_eq k v d : dict_get k (dict_set k v d) = Some v.
Proof.
  induction d as [|[k' v'] d IH]; simpl.
  - by rewrite String.eqb_refl.
  - destruct (String.eqb k k') eqn:E; simpl.
    + by rewrite String.eqb_refl.
    + by rewrite E.
Qed.

Lemma dict_get_set_ne k k' v d : k ≠ k' → dict_get k' (dict_set k v d) = dict_get k' d.
Proof.
  intros Hne. induction d as [|[k0 v0] d IH]; simpl.
  - destruct (String.eqb k' k) eqn:E; [|done].
    apply String.eqb_eq in E. congruence.
  - destruct (String.eqb k k0) eqn:E; simpl.
    + apply String.eqb_eq in E. subst k0.
      destruct (String.eqb k' k) eqn:E'; [|done].
      apply String.eqb_eq in E'. congruence.
    + destruct (String.eqb k' k0); [done|apply IH].
Qed.

End DictFacts.

(** ** The facade *)

Section FacadeFacts.
Context {S : Type}.
Context `{!ClientNew S, !ClientAuthenticate S, !ClientPoll S, !ClientPower S,
          !ClientVitals S, !ClientFetchpower S, !ClientTimeRemaining S}.
Context `{!JsonDumps, !FloatOfString, !ParseVersion, !ExpandUser}.
Context `{!StringsFromVitals, !StringsFromSolar, !BlocksFrom}.
Implicit Types (st : FacadeSt S) (payload : pyval).

(** What [poll] without [jsonformat] does: it hands the client's reply on. *)
Lemma poll_plain api raw recursive force st :
  poll api false raw recursive force st
  = call_client (fun b => client_poll b api force recursive raw) st.
Proof.
  unfold poll, bind.
  destruct (call_client _ st) as [[a|e] st']; reflexivity.
Qed.

(** C10: [grid(verbose)] is [site(verbose)] and [home(verbose)] is
    [load(verbose)]: the result and the state the call leaves are those of
    the one call [client.fetchpower('site', verbose)] (or ['load']), for
    either value of the flag and from every state; the aliases compute
    nothing more and change nothing more. *)
Theorem grid_home_aliases (verbose : bool) st :
  grid verbose st = site verbose st
  ∧ home verbose st = load verbose st
  ∧ grid verbose st = call_client (fun b => client_fetchpower b "site" verbose) st
  ∧ home verbose st = call_client (fun b => client_fetchpower b "load" verbose) st.
Proof. repeat split; reflexivity. Qed.

(** What [grid_status] returns for a raw state string, once the payload is
    there. *)
Lemma grid_status_of_string type payload s st st' :
  type = "string" ∨ type = "numeric" →
  poll "/api/system_status/grid_status" false false false false st = (Ok payload, st') →
  py_getitem payload "grid_status" = Ok (PStr s) →
  grid_status type st =
    match gridmap_get (PStr s) type with
    | Ok PNone => (Ok PNone, MkFacadeSt (self st') (logs st' ++ [DebugGridStatusParse payload type]))
    | r => (r, st')
    end.
Proof.
  intros Ht Hp Hg. unfold grid_status.
  assert (Hj : String.eqb type "json" = false) by (by destruct Ht; subst).
  assert (Hv : negb (String.eqb type "json" || String.eqb type "string"
                     || String.eqb type "numeric") = false) by (by destruct Ht; subst).
  rewrite Hv. unfold bind at 1. rewrite Hp, Hj.
  unfold bind, lift_outcome. rewrite Hg.
  destruct (gridmap_get (PStr s) type) as [[]|]; reflexivity.
Qed.

(** C3: for the payload of [/api/system_status/grid_status] with the raw
    state string [s], [grid_status] returns ["UP"] / [1] for
    [SystemGridConnected], ["DOWN"] / [0] for [SystemIslandedActive] and
    ["SYNCING"] / [-1] for [SystemTransitionToGrid] (for type ["string"] /
    ["numeric"]); for a string that is no key of the table it returns
    [None], writes the debug record and raises nothing. *)
Theorem grid_status_mapping payload s st st' :
  poll "/api/system_status/grid_status" false false false false st = (Ok payload, st') →
  py_getitem payload "grid_status" = Ok (PStr s) →
  (s = "SystemGridConnected" →
     grid_status "string" st = (Ok (PStr "UP"), st')
     ∧ grid_status "numeric" st = (Ok (PInt 1), st'))
  ∧ (s = "SystemIslandedActive" →
     grid_status "string" st = (Ok (PStr "DOWN"), st')
     ∧ grid_status "numeric" st = (Ok (PInt 0), st'))
  ∧ (s = "SystemTransitionToGrid" →
     grid_status "string" st = (Ok (PStr "SYNCING"), st')
     ∧ grid_status "numeric" st = (Ok (PInt (-1)), st'))
  ∧ (known_grid_state s = false →
     ∀ type, type = "string" ∨ type = "numeric" →
       grid_status type st
       = (Ok PNone, MkFacadeSt (self st') (logs st' ++ [DebugGridStatusParse payload type]))).
Proof.
  intros Hp Hg.
  assert (Hs := λ t Ht, grid_status_of_string t payload s st st' Ht Hp Hg).
  split; [|split; [|split]];
    [intros ->; split; rewrite Hs by auto; reflexivity ..|].
  intros Hk type Ht.
  rewrite (grid_status_of_string type payload s st st') by auto.
  unfold known_grid_state, dict_mem in Hk. unfold gridmap_get.
  destruct (dict_get s gridmap); [discriminate|reflexivity].
Qed.

(** *** Battery percentage *)

Lemma float_of_percent z :
  0 ≤ z ≤ 100 → ∃ f, float_of_Z z = Ok f ∧ float_is_int f z = true.
Proof.
  intros Hz.
  assert (Hall : forallb (λ z, match float_of_Z z with
                               | Ok f => float_is_int f z
                               | Raise _ => false
                               end) (seqZ 0 101) = true) by (vm_compute; reflexivity).
  rewrite forallb_forall in Hall.
  specialize (Hall z). rewrite <- list_elem_of_In, elem_of_seqZ in Hall.
  specialize (Hall ltac:(lia)).
  destruct (float_of_Z z) as [f|]; [eauto|discriminate].
Qed.

Lemma raw_percent_same r f : raw_percent r → as_float r = Ok f → same_number r f.
Proof.
  destruct r; simpl; try done.
  - intros Hz Hf. destruct (float_of_percent z Hz) as (g & Hg & Hi). congruence.
  - congruence.
Qed.

Lemma app_scale_float r f :
  as_float r = Ok f → app_scale r = Ok (PFloat (f / 0.95 - 5 / 0.95)%float).
Proof. intros Hf. unfold app_scale, py_truediv_float. rewrite Hf. reflexivity. Qed.

Lemma level_of_payload scale d r st st' :
  poll "/api/system_status/soe" false false false false st = (Ok (PDict d), st') →
  dict_get "percentage" d = Some r →
  level scale st = (if scale then app_scale r else Ok r, st').
Proof.
  intros Hp Hd. unfold level. unfold bind at 1. rewrite Hp.
  unfold bind, lift_outcome, py_contains, py_getitem, dict_mem, ret.
  rewrite Hd. by destruct scale.
Qed.

Lemma get_reserve_of_payload scale d r f st st' :
  poll "/api/operation" false false false false st = (Ok (PDict d), st') →
  dict_get "backup_reserve_percent" d = Some r →
  as_float r = Ok f →
  get_reserve scale st = (if scale then app_scale (PFloat f) else Ok (PFloat f), st').
Proof.
  intros Hp Hd Hf. unfold get_reserve. unfold bind at 1. rewrite Hp.
  unfold bind, lift_outcome, py_contains, py_getitem, dict_mem, ret.
  rewrite Hd.
  assert (Hpf : py_float r = Ok f) by (destruct r; try done).
  rewrite Hpf. by destruct scale.
Qed.

(** C2: for a raw percentage [r], a number found under [percentage] in the
    payload of [/api/system_status/soe] and under [backup_reserve_percent]
    in that of [/api/operation], and [f] the float it stands for:
    [level(scale=True)] and [get_reserve(scale=True)] return the binary64
    value of [(r / 0.95) - (5 / 0.95)]; raw 100 gives 100.0, raw 50 gives
    47.36842105263158 and raw 5 gives 0.0; with [scale=False], [level]
    returns [r] itself and [get_reserve] returns [float(r)], which for a
    float, and for an integer from 0 to 100, is the same number. *)
Theorem battery_scaling r f soe op st st1 st2 :
  as_float r = Ok f →
  poll "/api/system_status/soe" false false false false st = (Ok (PDict soe), st1) →
  dict_get "percentage" soe = Some r →
  poll "/api/operation" false false false false st = (Ok (PDict op), st2) →
  dict_get "backup_reserve_percent" op = Some r →
  (level true st = (Ok (PFloat (f / 0.95 - 5 / 0.95)%float), st1)
   ∧ get_reserve true st = (Ok (PFloat (f / 0.95 - 5 / 0.95)%float), st2))
  ∧ (r = PInt 100 →
     level true st = (Ok (PFloat 100%float), st1)
     ∧ get_reserve true st = (Ok (PFloat 100%float), st2))
  ∧ (r = PInt 50 →
     level true st = (Ok (PFloat 47.36842105263158%float), st1)
     ∧ get_reserve true st = (Ok (PFloat 47.36842105263158%float), st2))
  ∧ (r = PInt 5 →
     level true st = (Ok (PFloat 0%float), st1)
     ∧ get_reserve true st = (Ok (PFloat 0%float), st2))
  ∧ (level false st = (Ok r, st1)
     ∧ get_reserve false st = (Ok (PFloat f), st2)
     ∧ (raw_percent r → same_number r f)).
Proof.
  intros Hf Hsoe Hpct Hop Hres.
  assert (Hl := λ scale, level_of_payload scale soe r st st1 Hsoe Hpct).
  assert (Hg := λ scale, get_reserve_of_payload scale op r f st st2 Hop Hres Hf).
  assert (Hscaled : level true st = (Ok (PFloat (f / 0.95 - 5 / 0.95)%float), st1)
                    ∧ get_reserve true st = (Ok (PFloat (f / 0.95 - 5 / 0.95)%float), st2)).
  { rewrite Hl, Hg. rewrite (app_scale_float r f Hf).
    by rewrite (app_scale_float (PFloat f) f). }
  split; [exact Hscaled|].
  split; [|split; [|split]].
  1-3: intros ->; vm_compute in Hf; injection Hf as <-; exact Hscaled.
  rewrite Hl, Hg. repeat split. intros Hr. by apply raw_percent_same.
Qed.

(** *** Absent payloads *)

(** [site_name] tolerates an absent payload. *)
Lemma site_name_null st st' :
  poll "/api/site_info/site_name" false false false false st = (Ok PNone, st') →
  site_name st
  = (Ok PNone, MkFacadeSt (self st') (logs st' ++ [DebugSiteNameParse PNone TypeError])).
Proof. intros Hp. unfold site_name. unfold bind at 1. rewrite Hp. reflexivity. Qed.

(** [level] and [get_reserve] tolerate an absent payload. *)
Lemma level_null scale st st' :
  poll "/api/system_status/soe" false false false false st = (Ok PNone, st') →
  level scale st = (Ok PNone, st').
Proof. intros Hp. unfold level. unfold bind at 1. rewrite Hp. reflexivity. Qed.

Lemma get_reserve_null scale st st' :
  poll "/api/operation" false false false false st = (Ok PNone, st') →
  get_reserve scale st = (Ok PNone, st').
Proof. intros Hp. unfold get_reserve. unfold bind at 1. rewrite Hp. reflexivity. Qed.

(** [temps] tolerates absent vitals: the result is the empty dictionary. *)
Lemma temps_null st st' :
  vitals false st = (Ok PNone, st') →
  temps false st = (Ok (PDict []), st').
Proof. intros Hv. unfold temps. unfold bind at 1. rewrite Hv. reflexivity. Qed.

(** [alerts] tolerates absent vitals and an absent payload of
    [/api/solar_powerwall]: the result is the empty list. *)
Lemma alerts_null st st1 st2 :
  vitals false st = (Ok PNone, st1) →
  poll "/api/solar_powerwall" false false false false st1 = (Ok PNone, st2) →
  alerts false true st = (Ok (PList []), st2).
Proof.
  intros Hv Hp. unfold alerts. unfold bind at 1. rewrite Hv. cbn [py_or py_truthy].
  unfold bind at 1. unfold bind at 1. rewrite Hp. reflexivity.
Qed.

Lemma classic_no_index x : no_index x ∨ ¬ no_index x.
Proof. destruct x; simpl; auto. Qed.

Lemma list_index_In {A} (l : list A) i x : list_index l i = Some x → In x l.
Proof.
  unfold list_index. destruct (_ && _); [|done]. apply nth_error_In.
Qed.

(** Over vitals that are a list, the loop of [alerts] ends in an exception
    as soon as an element yet to be visited is no index. *)
Lemma alerts_loop_no_index l alertsonly todo acc :
  (∃ x, In x todo ∧ no_index x) →
  ∃ e, alerts_loop (PList l) alertsonly todo acc = Raise e.
Proof.
  revert acc. induction todo as [|device rest IH]; intros acc (x & Hin & Hx).
  - destruct Hin.
  - assert (Hrest : no_index device ∨ ∃ y, In y rest ∧ no_index y).
    { destruct Hin as [<-|Hin]; [by left|right; eauto]. }
    cbn [alerts_loop].
    destruct (py_subscript (PList l) device) as [dev|e] eqn:Hsub; [|eauto].
    destruct Hrest as [Hd|Hrest].
    { by destruct device. }
    destruct (py_contains "alerts" dev) as [[]|]; [|by apply IH|eauto].
    destruct (py_getitem dev "alerts"); [|eauto].
    destruct (py_iter _); [by apply IH|eauto].
Qed.

(** Over vitals that are a non-empty list, the loop of [alerts] always ends
    in an exception: an element that can be subscripted with is an integer,
    and what it selects is an element that cannot. *)
Lemma alerts_loop_list l alertsonly :
  l ≠ [] → ∃ e, alerts_loop (PList l) alertsonly l [] = Raise e.
Proof.
  destruct l as [|device rest]; [done|]. intros _.
  destruct (classic_no_index device) as [Hd|Hd].
  - apply alerts_loop_no_index. exists device. split; [by left|done].
  - cbn [alerts_loop].
    destruct (py_subscript (PList (device :: rest)) device) as [dev|e] eqn:Hsub; [|eauto].
    assert (Hin : In dev (device :: rest)).
    { destruct device; try done; simpl in Hsub.
      - destruct (list_index _ (Z_of_bool b)) eqn:Hi; [|done].
        injection Hsub as <-. by eapply list_index_In.
      - destruct (list_index _ z) eqn:Hi; [|done].
        injection Hsub as <-. by eapply list_index_In. }
    destruct (py_contains "alerts" dev) as [has|] eqn:Hc; [|eauto].
    assert (Hdev : no_index dev) by (by destruct dev).
    assert (Hrest : ∃ y, In y rest ∧ no_index y).
    { exists dev. split; [|done]. destruct Hin as [<-|Hin]; [done|done]. }
    destruct has; [|by apply alerts_loop_no_index].
    destruct (py_getitem dev "alerts"); [|eauto].
    destruct (py_iter _); [by apply alerts_loop_no_index|eauto].
Qed.

(** C6, where the code departs from it: [grid_status] with type ["string"]
    or ["numeric"] does not tolerate an absent payload, nor a payload
    without the key [grid_status]: the subscript [payload['grid_status']]
    is outside any [try] and after no test, so the call raises [TypeError]
    for [None] and [KeyError] for a dictionary without the key, where
    [site_name], [level], [get_reserve] and [temps] return [None] or the
    empty dictionary. *)
Theorem grid_status_absent_payload_raises type d st st' :
  type = "string" ∨ type = "numeric" →
  dict_get "grid_status" d = None →
  (poll "/api/system_status/grid_status" false false false false st = (Ok PNone, st') →
   grid_status type st = (Raise TypeError, st'))
  ∧ (poll "/api/system_status/grid_status" false false false false st = (Ok (PDict d), st') →
     grid_status type st = (Raise (KeyError (PStr "grid_status")), st')).
Proof.
  intros Ht Hd.
  assert (Hv : negb (String.eqb type "json" || String.eqb type "string"
                     || String.eqb type "numeric") = false) by (by destruct Ht; subst).
  assert (Hj : String.eqb type "json" = false) by (by destruct Ht; subst).
  split; intros Hp; unfold grid_status; rewrite Hv; unfold bind at 1;
    rewrite Hp, Hj; unfold bind, lift_outcome, py_getitem.
  - reflexivity.
  - by rewrite Hd.
Qed.

(** *** The object is the same after every call *)

Lemma same_object_refl (p : Powerwall S) : same_object p p.
Proof. exists (cst (pw_client p)). by destruct p as [????????????????? ? []]. Qed.

Lemma same_object_trans (p q r : Powerwall S) :
  same_object p q → same_object q r → same_object p r.
Proof. intros [s ->] [s' ->]. by exists s'. Qed.

Lemma same_object_attrs (p p' : Powerwall S) :
  same_object p p' →
  pw_cloudmode p' = pw_cloudmode p ∧ cls (pw_client p') = cls (pw_client p)
  ∧ pw_host p' = pw_host p.
Proof. by intros [s ->]. Qed.

Lemma keeps_ret {A} (a : A) : keeps_self (S:=S) (ret a).
Proof. intros st. apply same_object_refl. Qed.

Lemma keeps_raise {A} e : keeps_self (S:=S) (raise (A:=A) e).
Proof. intros st. apply same_object_refl. Qed.

Lemma keeps_lift {A} (o : outcome A) : keeps_self (S:=S) (lift_outcome o).
Proof. intros st. apply same_object_refl. Qed.

Lemma keeps_log r : keeps_self (S:=S) (log_write r).
Proof. intros st. apply same_object_refl. Qed.

Lemma keeps_call_client {A} (m : backend → S → outcome A * S) : keeps_self (call_client m).
Proof.
  intros st. unfold call_client.
  destruct (m _ _) as [r s']. simpl. by exists s'.
Qed.

Lemma keeps_bind {A B} (c : Py (FacadeSt S) A) (k : A → Py (FacadeSt S) B) :
  keeps_self c → (∀ a, keeps_self (k a)) → keeps_self (bind c k).
Proof.
  intros Hc Hk st. unfold bind. specialize (Hc st).
  destruct (c st) as [[a|e] st1]; [|exact Hc].
  eapply same_object_trans; [exact Hc|apply Hk].
Qed.

Lemma keeps_try {A} (c : Py (FacadeSt S) A) (h : exn → Py (FacadeSt S) A) :
  keeps_self c → (∀ e, keeps_self (h e)) → keeps_self (try_except c h).
Proof.
  intros Hc Hh st. unfold try_except. specialize (Hc st).
  destruct (c st) as [[a|e] st1]; [exact Hc|].
  eapply same_object_trans; [exact Hc|apply Hh].
Qed.

Create HintDb keeps discriminated.
#[local] Hint Resolve keeps_ret keeps_raise keeps_lift keeps_log keeps_call_client : keeps.

(** Goes through a method: binds, handlers and case distinctions. *)
Ltac keeps_step :=
  match goal with
  | |- keeps_self (bind _ _) => apply keeps_bind; [|intros ?]
  | |- keeps_self (try_except _ _) => apply keeps_try; [|intros ?]
  | |- keeps_self (if ?b then _ else _) => destruct b
  | |- keeps_self (match ?x with _ => _ end) => destruct x
  | |- keeps_self _ => solve [auto with keeps]
  end.

Lemma keeps_poll api j r rc f : keeps_self (poll api j r rc f).
Proof. unfold poll. repeat keeps_step. Qed.

Lemma keeps_status p j : keeps_self (status p j).
Proof. unfold status. repeat keeps_step. Qed.

Lemma keeps_vitals j : keeps_self (vitals j).
Proof. unfold vitals. repeat keeps_step. Qed.

#[local] Hint Resolve keeps_poll keeps_status keeps_vitals : keeps.

Lemma keeps_call m : keeps_self (call m).
Proof.
  destruct m; simpl;
    unfold level, power, site, solar, battery, load, grid, home, site_name, version,
      uptime, din, is_connected, temps, strings, alerts, battery_blocks, get_reserve,
      grid_status, system_status, get_time_remaining, site, load;
    repeat keeps_step.
Qed.

Lemma after_calls_same ms st : same_object (self st) (self (after_calls ms st)).
Proof.
  revert st. induction ms as [|m ms IH]; intros st; simpl.
  - apply same_object_refl.
  - eapply same_object_trans; [apply keeps_call|apply IH].
Qed.

(** C7: the constructor puts the facade in cloud mode, with a
    [PyPowerwallCloud] client, when [host] is the empty string or
    [cloudmode] is true, and in local mode, with a [PyPowerwallLocal]
    client, otherwise; and after any sequence of calls of its methods the
    mode, the class of the client and the arguments the client was built
    with are those the constructor chose. *)
Theorem backend_selection host password email timezone pwcacheexpire timeout
    poolmaxsize cloudmode siteid authpath authmode cachefile (pw : Powerwall S) :
  Powerwall_init host password email timezone pwcacheexpire timeout poolmaxsize
    cloudmode siteid authpath authmode cachefile = Ok pw →
  (host = "" ∨ cloudmode = true →
     pw_cloudmode pw = true
     ∧ cls (pw_client pw)
       = PyPowerwallCloud email pwcacheexpire timeout siteid (expanduser authpath))
  ∧ (host ≠ "" ∧ cloudmode = false →
     pw_cloudmode pw = false
     ∧ cls (pw_client pw)
       = PyPowerwallLocal host password email timezone timeout pwcacheexpire
           poolmaxsize authmode cachefile)
  ∧ (∀ ms log,
       pw_cloudmode (self (after_calls ms (MkFacadeSt pw log))) = pw_cloudmode pw
       ∧ cls (pw_client (self (after_calls ms (MkFacadeSt pw log)))) = cls (pw_client pw)).
Proof.
  intros Hinit. unfold Powerwall_init in Hinit.
  split; [|split].
  - intros Hc.
    assert (Hb : cloudmode || String.eqb host "" = true).
    { destruct Hc as [-> | ->]; [by rewrite orb_true_r|done]. }
    rewrite Hb in Hinit.
    destruct (client_new _) as [s|]; [|discriminate].
    destruct (client_authenticate _ s) as [[[]|] s']; [|discriminate].
    by injection Hinit as <-.
  - intros [Hh ->].
    assert (Hb : false || String.eqb host "" = false).
    { simpl. by apply String.eqb_neq. }
    rewrite Hb in Hinit.
    destruct (client_new _) as [s|]; [|discriminate].
    destruct (client_authenticate _ s) as [[[]|] s']; [|discriminate].
    by injection Hinit as <-.
  - intros ms log.
    destruct (same_object_attrs _ _ (after_calls_same ms (MkFacadeSt pw log)))
      as (Hm & Hc & _).
    done.
Qed.

End FacadeFacts.

(** ** The server *)

Section ServerFacts.
Context {S : Type}.
Context `{!ClientPoll S, !ClientPower S, !ClientVitals S, !ClientFetchpower S,
          !ClientTimeRemaining S}.
Context `{!JsonDumps, !FloatOfString, !ParseVersion}.
Context `{!StringsFromVitals, !StringsFromSolar, !BlocksFrom}.
Context `{!TimedeltaStr, !RenderHelp, !Reshaped S, !ServeStatic S}.
Context (cookiesuffix : string).
Implicit Types (st : ServerSt S) (req : Request) (p : ProxyStats).

Lemma hits_counted_get q q' p :
  hits q' (st_uri (counted_get q p))
  = hits q' (st_uri p) + (if String.eqb q q' then 1 else 0).
Proof.
  unfold counted_get, hits. simpl.
  destruct (String.eqb q q') eqn:E.
  - apply String.eqb_eq in E. subst q'.
    destruct (dict_get q (st_uri p)); simpl; by rewrite dict_get_set_eq.
  - apply String.eqb_neq in E.
    destruct (dict_get q (st_uri p)); simpl; rewrite dict_get_set_ne by done; lia.
Qed.

(** What the section [# Count] and the section that sends do to a message
    that is a string other than the error marker. *)
Lemma count_send_string q contenttype s st :
  String.eqb s "ERROR!" = false →
  (message <- count q (PStr s) ;; send contenttype message) st
  = (Ok (MkResponse 200 (api_headers contenttype (String.length s)) true (Some s)),
     MkServerSt (facade st) (counted_get q (proxystats st))).
Proof.
  intros He. unfold count, is_error_marker. rewrite He.
  unfold bind, modify_stats, ret, send, counted_get. simpl.
  destruct (dict_get q (st_uri (proxystats st))); reflexivity.
Qed.

Lemma on_pw_run {A} (c : Py (FacadeSt S) A) st r f' :
  c (facade st) = (r, f') → on_pw c st = (r, MkServerSt f' (proxystats st)).
Proof. intros Hc. unfold on_pw. by rewrite Hc. Qed.

(** C8: a request to [/api/troubleshooting/problems] whose poll gives an
    absent or empty payload ([None], [{}], [[]], the empty string) is
    answered with status 200 and the body [{"problems": []}], of type
    [application/json], and is counted in [gets] and in the hit counter of
    the path, not as an error or a timeout. *)
Theorem problems_default_on_failure req st m f' :
  path req = "/api/troubleshooting/problems" →
  poll "/api/troubleshooting/problems" false false false false (facade st) = (Ok m, f') →
  py_truthy m = false →
  do_GET cookiesuffix req st
  = (Ok (MkResponse 200 (api_headers "application/json" 16) true (Some default_problems)),
     MkServerSt f' (counted_get "/api/troubleshooting/problems" (proxystats st)))
  ∧ default_problems = String.concat "" ["{"; dquote; "problems"; dquote; ": []}"].
Proof.
  intros Hpath Hp Hm. split; [|reflexivity].
  unfold do_GET.
  assert (Hb : api_message req
               = Some (m <- on_pw (poll "/api/troubleshooting/problems" false false false false) ;;
                       ret (py_or m (PStr default_problems), json_type))).
  { unfold api_message. rewrite Hpath. reflexivity. }
  rewrite Hb, Hpath. unfold bind at 1. unfold bind at 1.
  rewrite (on_pw_run _ st (Ok m) f' Hp).
  unfold ret at 1. cbn [fst snd]. unfold py_or. rewrite Hm.
  by rewrite count_send_string.
Qed.

(** The line of five numbers. *)
Lemma csv_line_of g h s b l fg fh fs fb fl :
  as_float g = Ok fg → as_float h = Ok fh → as_float s = Ok fs →
  as_float b = Ok fb → as_float l = Ok fl →
  csv_line g h s b l
  = Ok (String.concat "," [format_2f fg; format_2f fh; format_2f fs; format_2f fb;
                           String.append (format_2f fl) newline]).
Proof.
  intros Hg Hh Hs Hb Hl. unfold csv_line, pct_2f.
  by rewrite Hg, Hh, Hs, Hb, Hl.
Qed.

(** *** Two decimal places *)

Lemma all_digits_uint d : all_digits (NilEmpty.string_of_uint d) = true.
Proof. induction d; simpl; try done. Qed.

Lemma Z_to_string_digits z : Z_to_string z ≠ "" ∧ all_digits (Z_to_string z) = true.
Proof.
  unfold Z_to_string, NilZero.string_of_uint.
  destruct (N.to_uint (Z.to_N z)) eqn:E; try done;
    (split; [done|]); rewrite <- E at 1; try apply all_digits_uint;
    change (all_digits (NilEmpty.string_of_uint (N.to_uint (Z.to_N z))) = true);
    apply all_digits_uint.
Qed.

Lemma two_digits_shape k :
  0 ≤ k < 100 → all_digits (two_digits k) = true ∧ String.length (two_digits k) = 2%nat.
Proof.
  intros Hk.
  assert (Hall : forallb (λ k, all_digits (two_digits k)
                               && Nat.eqb (String.length (two_digits k)) 2)
                   (seqZ 0 100) = true) by (vm_compute; reflexivity).
  rewrite forallb_forall in Hall.
  specialize (Hall k). rewrite <- list_elem_of_In, elem_of_seqZ in Hall.
  specialize (Hall ltac:(lia)).
  apply andb_prop in Hall as [Hd Hl]. by apply Nat.eqb_eq in Hl.
Qed.

Lemma format_2f_two_decimals f : is_finite f = true → two_decimals (format_2f f).
Proof.
  unfold is_finite, format_2f. destruct (Prim2SF f) as [sg| | |sg m e]; try done; intros _.
  - exists (if sg then "-" else ""), "0", "00". by destruct sg; repeat split; auto.
  - exists (if sg then "-" else ""), (Z_to_string (hundredths m e / 100)),
      (two_digits (hundredths m e mod 100)).
    destruct (Z_to_string_digits (hundredths m e / 100)) as [Hne Hd].
    destruct (two_digits_shape (hundredths m e mod 100)) as [Hf Hl].
    { apply Z.mod_pos_bound. lia. }
    repeat split; try done. destruct sg; auto.
Qed.

(** A number printed with two decimal places is not the error marker. *)
Lemma two_decimals_first s rest :
  two_decimals s → String.eqb (String.append s rest) "ERROR!" = false.
Proof.
  intros (sign & int & frac & -> & Hs & Hne & Hd & _).
  destruct int as [|c int]; [done|]. simpl in Hd. apply andb_prop in Hd as [Hc _].
  destruct Hs as [-> | ->]; simpl; [|done].
  match goal with
  | |- context [Ascii.eqb c ?e] => destruct (Ascii.eqb c e) eqn:E; [|done]
  end.
  apply Ascii.eqb_eq in E. by subst c.
Qed.

Lemma csv_message_run st lv g s b h f1 f2 f3 f4 f5 :
  level false (facade st) = (Ok lv, f1) →
  grid false f1 = (Ok g, f2) →
  solar false f2 = (Ok s, f3) →
  battery false f3 = (Ok b, f4) →
  home false f4 = (Ok h, f5) →
  csv_message st
  = (match csv_line (py_or g (PInt 0)) (py_or h (PInt 0)) (py_or s (PInt 0))
             (py_or b (PInt 0)) lv with
     | Ok line => Ok (PStr line)
     | Raise e => Raise e
     end, MkServerSt f5 (proxystats st)).
Proof.
  intros Hl Hg Hs Hb Hh. unfold csv_message.
  unfold bind at 1. rewrite (on_pw_run _ st _ _ Hl).
  unfold bind at 1. rewrite (on_pw_run _ (MkServerSt f1 _) _ _ Hg).
  unfold bind at 1. rewrite (on_pw_run _ (MkServerSt f2 _) _ _ Hs).
  unfold bind at 1. rewrite (on_pw_run _ (MkServerSt f3 _) _ _ Hb).
  unfold bind at 1. rewrite (on_pw_run _ (MkServerSt f4 _) _ _ Hh).
  unfold bind, lift_outcome, ret. cbn [proxystats].
  by destruct (csv_line _ _ _ _ _).
Qed.

(** C9: with the battery level a number and each of the four power
    readings a number or absent, [/csv] answers with status 200, type
    [text/plain; charset=utf-8] and the body [grid,home,solar,battery,level]
    followed by a line feed: five values separated by commas, each printed
    by ["%0.2f"] with two decimal places; an absent ([None]) grid, home,
    solar or battery reading is replaced by 0 and printed as [0.00]. *)
Theorem csv_five_values req st lv g s b h f1 f2 f3 f4 f5 fl fg fs fb fh :
  path req = "/csv" →
  level false (facade st) = (Ok lv, f1) →
  grid false f1 = (Ok g, f2) →
  solar false f2 = (Ok s, f3) →
  battery false f3 = (Ok b, f4) →
  home false f4 = (Ok h, f5) →
  real_number lv fl →
  real_number (py_or g (PInt 0)) fg →
  real_number (py_or h (PInt 0)) fh →
  real_number (py_or s (PInt 0)) fs →
  real_number (py_or b (PInt 0)) fb →
  let line :=
    String.concat "," [format_2f fg; format_2f fh; format_2f fs; format_2f fb;
                       String.append (format_2f fl) newline] in
  do_GET cookiesuffix req st
  = (Ok (MkResponse 200 (api_headers "text/plain; charset=utf-8" (String.length line))
           true (Some line)),
     MkServerSt f5 (counted_get "/csv" (proxystats st)))
  ∧ Forall two_decimals [format_2f fg; format_2f fh; format_2f fs; format_2f fb; format_2f fl]
  ∧ (g = PNone → format_2f fg = "0.00")
  ∧ (h = PNone → format_2f fh = "0.00")
  ∧ (s = PNone → format_2f fs = "0.00")
  ∧ (b = PNone → format_2f fb = "0.00").
Proof.
  intros Hpath Hl Hg Hs Hb Hh [Hfl Hnl] [Hfg Hng] [Hfh Hnh] [Hfs Hns] [Hfb Hnb] line.
  assert (Hzero : ∀ v f, v = PNone → as_float (py_or v (PInt 0)) = Ok f →
                         format_2f f = "0.00").
  { intros v f -> Hf. vm_compute in Hf. by injection Hf as <-. }
  split; [|split; [|repeat split; eauto]].
  - unfold do_GET.
    assert (Hbr : api_message req
                  = Some (m <- csv_message ;; ret (m, "text/plain; charset=utf-8"))).
    { unfold api_message. rewrite Hpath. reflexivity. }
    rewrite Hbr, Hpath. unfold bind at 1. unfold bind at 1.
    rewrite (csv_message_run st lv g s b h f1 f2 f3 f4 f5) by done.
    rewrite (csv_line_of _ _ _ _ _ fg fh fs fb fl) by done.
    unfold ret at 1. cbn [fst snd]. fold line.
    rewrite count_send_string; [done|].
    apply two_decimals_first. by apply format_2f_two_decimals.
  - repeat constructor; by apply format_2f_two_decimals.
Qed.

(** With no battery level, the line cannot be formatted: the level is the
    one reading [/csv] does not replace by 0 when it is absent, and the
    request ends in a [TypeError], counted nowhere. *)
Lemma csv_absent_level_raises req st g s b h f1 f2 f3 f4 f5 fg fs fb fh :
  path req = "/csv" →
  level false (facade st) = (Ok PNone, f1) →
  grid false f1 = (Ok g, f2) →
  solar false f2 = (Ok s, f3) →
  battery false f3 = (Ok b, f4) →
  home false f4 = (Ok h, f5) →
  as_float (py_or g (PInt 0)) = Ok fg →
  as_float (py_or h (PInt 0)) = Ok fh →
  as_float (py_or s (PInt 0)) = Ok fs →
  as_float (py_or b (PInt 0)) = Ok fb →
  do_GET cookiesuffix req st = (Raise TypeError, MkServerSt f5 (proxystats st)).
Proof.
  intros Hpath Hl Hg Hs Hb Hh Hfg Hfh Hfs Hfb.
  unfold do_GET.
  assert (Hbr : api_message req
                = Some (m <- csv_message ;; ret (m, "text/plain; charset=utf-8"))).
  { unfold api_message. rewrite Hpath. reflexivity. }
  rewrite Hbr. unfold bind at 1. unfold bind at 1.
  rewrite (csv_message_run st PNone g s b h f1 f2 f3 f4 f5) by done.
  unfold csv_line, pct_2f. by rewrite Hfg, Hfh, Hfs, Hfb.
Qed.

(** *** The counters *)

Lemma same_counters_refl p : same_counters p p.
Proof. by repeat split. Qed.

Lemma same_counters_trans p q r : same_counters p q → same_counters q r → same_counters p r.
Proof. unfold same_counters. intros (?&?&?&?&?) (?&?&?&?&?). repeat split; congruence. Qed.

Lemma kc_ret {A} (a : A) : keeps_counters (S:=S) (ret a).
Proof. intros st. apply same_counters_refl. Qed.

Lemma kc_raise {A} e : keeps_counters (S:=S) (raise (A:=A) e).
Proof. intros st. apply same_counters_refl. Qed.

Lemma kc_lift {A} (o : outcome A) : keeps_counters (S:=S) (lift_outcome o).
Proof. intros st. apply same_counters_refl. Qed.

Lemma kc_get_stats : keeps_counters (S:=S) get_stats.
Proof. intros st. apply same_counters_refl. Qed.

Lemma kc_get_pw : keeps_counters (S:=S) get_pw.
Proof. intros st. apply same_counters_refl. Qed.

Lemma kc_on_pw {A} (c : Py (FacadeSt S) A) : keeps_counters (on_pw c).
Proof. intros st. unfold on_pw. destruct (c _). apply same_counters_refl. Qed.

Lemma kc_modify (f : ProxyStats → ProxyStats) :
  (∀ p, same_counters p (f p)) → keeps_counters (S:=S) (modify_stats f).
Proof. intros Hf st. apply Hf. Qed.

Lemma kc_bind {A B} (c : Py (ServerSt S) A) (k : A → Py (ServerSt S) B) :
  keeps_counters c → (∀ a, keeps_counters (k a)) → keeps_counters (bind c k).
Proof.
  intros Hc Hk st. unfold bind. specialize (Hc st).
  destruct (c st) as [[a|e] st1]; [|exact Hc].
  eapply same_counters_trans; [exact Hc|apply Hk].
Qed.

Create HintDb counters discriminated.
#[local] Hint Resolve kc_ret kc_raise kc_lift kc_get_stats kc_get_pw kc_on_pw
  same_counters_refl : counters.

Ltac kc_step :=
  match goal with
  | |- keeps_counters (bind _ _) => apply kc_bind; [|intros ?]
  | |- keeps_counters (modify_stats _) => apply kc_modify; intros ?; by repeat split
  | |- keeps_counters (if ?b then _ else _) => destruct b
  | |- keeps_counters _ => solve [auto with counters]
  end.

Lemma kc_refresh_stats req : keeps_counters (refresh_stats req).
Proof. unfold refresh_stats. repeat kc_step. Qed.

Lemma kc_csv_message : keeps_counters csv_message.
Proof. unfold csv_message. repeat kc_step. Qed.

Lemma kc_temps_pw_message : keeps_counters temps_pw_message.
Proof. unfold temps_pw_message. repeat kc_step. Qed.

#[local] Hint Resolve kc_refresh_stats kc_csv_message kc_temps_pw_message : counters.

(** Every branch of the chain but that of [/stats/clear] computes its
    message without touching the counters. *)
Lemma kc_api_message req branch :
  api_message req = Some branch → path req ≠ "/stats/clear" → keeps_counters branch.
Proof.
  intros Hb Hp. unfold api_message in Hb.
  repeat match type of Hb with
         | (if ?b then _ else _) = _ => destruct b eqn:?
         end;
    try discriminate; injection Hb as <-;
    try (repeat kc_step; fail).
  exfalso. apply Hp. by apply String.eqb_eq.
Qed.

Lemma kc_send contenttype message : keeps_counters (S:=S) (send contenttype message).
Proof.
  unfold send. destruct (py_len message); [destruct message|]; repeat kc_step.
Qed.

Lemma counted_get_fields q p :
  st_gets (counted_get q p) = st_gets p + 1
  ∧ st_errors (counted_get q p) = st_errors p
  ∧ st_timeout (counted_get q p) = st_timeout p
  ∧ st_start (counted_get q p) = st_start p.
Proof. unfold counted_get. simpl. by destruct (dict_get q (st_uri p)). Qed.

Lemma counted_get_once q p : counted_once false q p (counted_get q p).
Proof.
  left. destruct (counted_get_fields q p) as (?&?&?&?).
  repeat split; try done. intros q'. apply hits_counted_get.
Qed.

(** The section [# Count] never raises and counts the message once. *)
Lemma count_run q message st :
  ∃ m' p', count q message st = (Ok m', MkServerSt (facade st) p')
           ∧ counted_once false q (proxystats st) p'.
Proof.
  unfold count.
  assert (Herr : ∀ s, ∃ m' p',
    (modify_stats (λ p, set_errors (st_errors p + 1) p) ;;; ret (PStr s)) st
    = (Ok m', MkServerSt (facade st) p') ∧ counted_once false q (proxystats st) p').
  { intros s. eexists _, _. split; [reflexivity|]. right. simpl. by auto 10. }
  assert (Hget : ∃ m' p',
    (modify_stats (λ p, set_gets (st_gets p + 1) p) ;;;
     modify_stats (λ p, match dict_get q (st_uri p) with
                        | Some n => set_uri (dict_set q (n + 1) (st_uri p)) p
                        | None => set_uri (dict_set q 1 (st_uri p)) p
                        end) ;;; ret message) st
    = (Ok m', MkServerSt (facade st) p') ∧ counted_once false q (proxystats st) p').
  { exists message, (counted_get q (proxystats st)). split; [|apply counted_get_once].
    unfold bind, modify_stats, ret, counted_get. simpl.
    by destruct (dict_get q (st_uri (proxystats st))). }
  destruct message; try (destruct (is_error_marker _); [apply Herr|apply Hget]).
  eexists _, _. split; [reflexivity|]. right. simpl. by auto 10.
Qed.

Lemma counted_once_proper b q p p1 p2 p3 :
  same_counters p p1 → counted_once b q p1 p2 → same_counters p2 p3 →
  counted_once b q p p3.
Proof.
  unfold same_counters, counted_once.
  intros (Hg & He & Ht & Hu & _) Hc (Hg' & He' & Ht' & Hu' & _).
  rewrite Hg', He', Ht', Hu'. rewrite Hg, He, Ht, Hu in Hc. exact Hc.
Qed.

(** The static branch counts the request in [gets], whatever comes of it. *)
Lemma static_branch_counts req st :
  counted_once true (path req) (proxystats st)
    (proxystats (snd (static_branch cookiesuffix req st))).
Proof.
  unfold static_branch. unfold bind at 1. cbn [modify_stats].
  match goal with
  | |- context [snd (?tail ?st1)] =>
      assert (Hk : keeps_counters tail) by (repeat kc_step);
      specialize (Hk st1); destruct Hk as (Hg & He & Ht & Hu & _)
  end.
  left. cbn [proxystats] in *. rewrite Hg, He, Ht, Hu. simpl.
  repeat split; try done. intros q'. lia.
Qed.

(** What one request that is answered does to the counters. *)
Lemma do_GET_counted_once req st r st' :
  do_GET cookiesuffix req st = (Ok r, st') →
  path req ≠ "/stats/clear" →
  counted_once (is_static req) (path req) (proxystats st) (proxystats st').
Proof.
  intros Hrun Hp. unfold is_static.
  unfold do_GET in Hrun.
  destruct (api_message req) as [branch|] eqn:Hb.
  - assert (Hk := kc_api_message req branch Hb Hp st).
    unfold bind at 1 in Hrun.
    destruct (branch st) as [[mc|e] st1]; [|discriminate]. cbn [snd] in Hk.
    destruct (count_run (path req) (fst mc) st1) as (m' & p' & Hc & Honce).
    unfold bind at 1 in Hrun. rewrite Hc in Hrun.
    assert (Hs := kc_send (snd mc) m' (MkServerSt (facade st1) p')).
    rewrite Hrun in Hs. cbn [snd proxystats] in Hs.
    eapply counted_once_proper; eauto.
  - assert (Hs := static_branch_counts req st). by rewrite Hrun in Hs.
Qed.

(** The counters of errors and timeouts never go down on a request. *)
Lemma counted_once_mono b q p p' :
  counted_once b q p p' → st_errors p ≤ st_errors p' ∧ st_timeout p ≤ st_timeout p'.
Proof. unfold counted_once. intros [(?&?&?&?)|(?&[(?&?&?)|(?&?&?)]&?)]; lia. Qed.

Lemma serve_mono reqs st rs st' :
  serve cookiesuffix reqs st = (Ok rs, st') →
  Forall (λ r, path r ≠ "/stats/clear") reqs →
  st_errors (proxystats st) ≤ st_errors (proxystats st')
  ∧ st_timeout (proxystats st) ≤ st_timeout (proxystats st').
Proof.
  revert st rs. induction reqs as [|req reqs IH]; intros st rs Hrun Hall.
  - injection Hrun as <- <-. lia.
  - apply Forall_cons in Hall as [Hp Hall].
    simpl in Hrun. unfold bind at 1 in Hrun.
    destruct (do_GET cookiesuffix req st) as [[x|e] st1] eqn:Hreq; [|discriminate].
    unfold bind at 1 in Hrun.
    destruct (serve cookiesuffix reqs st1) as [[xs|e] st2] eqn:Hrest; [|discriminate].
    injection Hrun as <- <-.
    destruct (counted_once_mono _ _ _ _ (do_GET_counted_once _ _ _ _ Hreq Hp)).
    destruct (IH _ _ Hrest Hall). lia.
Qed.

Lemma serve_all_successful reqs st rs st' :
  serve cookiesuffix reqs st = (Ok rs, st') →
  Forall (λ r, path r ≠ "/stats/clear") reqs →
  st_errors (proxystats st') = st_errors (proxystats st) →
  st_timeout (proxystats st') = st_timeout (proxystats st) →
  st_gets (proxystats st') = st_gets (proxystats st) + Z.of_nat (length reqs)
  ∧ ∀ q, hits q (st_uri (proxystats st'))
         = hits q (st_uri (proxystats st)) + api_requests q reqs.
Proof.
  revert st rs. induction reqs as [|req reqs IH]; intros st rs Hrun Hall He Ht.
  - injection Hrun as <- <-. split; [simpl; lia|]. intros q. unfold api_requests. simpl. lia.
  - apply Forall_cons in Hall as [Hp Hall].
    simpl in Hrun. unfold bind at 1 in Hrun.
    destruct (do_GET cookiesuffix req st) as [[x|e] st1] eqn:Hreq; [|discriminate].
    unfold bind at 1 in Hrun.
    destruct (serve cookiesuffix reqs st1) as [[xs|e] st2] eqn:Hrest; [|discriminate].
    injection Hrun as <- <-.
    assert (Honce := do_GET_counted_once _ _ _ _ Hreq Hp).
    destruct (serve_mono _ _ _ _ Hrest Hall) as [Hme Hmt].
    destruct Honce as [(Hg1 & He1 & Ht1 & Hu1)|(_ & Hbad & _)];
      [|destruct Hbad as [(?&?&?)|(?&?&?)]; lia].
    destruct (IH _ _ Hrest Hall) as [Hg2 Hu2]; [lia..|].
    split; [rewrite Hg2, Hg1; simpl length; lia|].
    intros q. rewrite Hu2, Hu1. unfold api_requests. cbn [List.filter].
    destruct (is_static req); cbn [negb andb]; [lia|].
    destruct (String.eqb (path req) q); cbn [length]; lia.
Qed.

(** C4, as the code has it: a request other than [/stats/clear] that is
    answered is counted once: a request served by the static branch (local
    file, proxied or not found) in [gets] only; a request served by an API
    or derived branch in exactly one of [gets], [errors] and [timeout], and,
    when it is [gets], also in the hit counter of its path. So after a
    sequence of [N] answered requests none of which was counted as an error
    or a timeout, [gets] has grown by [N] and the hit counter of each path
    by the number of requests that an API or derived branch served for it. *)
Theorem requests_counted_once :
  (∀ req st r st',
     do_GET cookiesuffix req st = (Ok r, st') →
     path req ≠ "/stats/clear" →
     counted_once (is_static req) (path req) (proxystats st) (proxystats st'))
  ∧ (∀ reqs st rs st',
       serve cookiesuffix reqs st = (Ok rs, st') →
       Forall (λ r, path r ≠ "/stats/clear") reqs →
       st_errors (proxystats st') = st_errors (proxystats st) →
       st_timeout (proxystats st') = st_timeout (proxystats st) →
       st_gets (proxystats st') = st_gets (proxystats st) + Z.of_nat (length reqs)
       ∧ ∀ q, hits q (st_uri (proxystats st'))
              = hits q (st_uri (proxystats st)) + api_requests q reqs).
Proof.
  split.
  - apply do_GET_counted_once.
  - apply serve_all_successful.
Qed.

(** C5, where the code departs from it: the branch of [/stats/clear] sets
    [gets] and [errors] to 0, empties the hit counters and sets the clear
    timestamp, and leaves the start timestamp as it is; but it does not
    assign to [timeout], which keeps its value through the branch and
    through the whole request. *)
Theorem stats_clear_keeps_timeout req st :
  path req = "/stats/clear" →
  let cleared :=
    set_clear (now req) (set_uri [] (set_errors 0 (set_gets 0 (proxystats st)))) in
  clear_stats req st
  = (Ok (PStr (json_dumps false (stats_dict cleared))),
     MkServerSt (MkFacadeSt (self (facade st)) (logs (facade st) ++ [DebugClearStats]))
       cleared)
  ∧ (st_gets cleared = 0 ∧ st_errors cleared = 0 ∧ st_uri cleared = []
     ∧ st_clear cleared = now req ∧ st_start cleared = st_start (proxystats st))
  ∧ st_timeout cleared = st_timeout (proxystats st)
  ∧ st_timeout (proxystats (snd (do_GET cookiesuffix req st))) = st_timeout (proxystats st).
Proof.
  intros Hpath cleared.
  assert (Hclear : clear_stats req st
    = (Ok (PStr (json_dumps false (stats_dict cleared))),
       MkServerSt (MkFacadeSt (self (facade st)) (logs (facade st) ++ [DebugClearStats]))
         cleared)) by reflexivity.
  split; [exact Hclear|]. split; [by repeat split|]. split; [reflexivity|].
  unfold do_GET.
  assert (Hb : api_message req = Some (m <- clear_stats req ;; ret (m, json_type))).
  { unfold api_message. rewrite Hpath. reflexivity. }
  rewrite Hb. unfold bind at 1. unfold bind at 1. rewrite Hclear.
  unfold ret at 1. cbn [fst snd]. unfold bind at 1.
  match goal with
  | |- context [count ?q ?m ?s] =>
      destruct (count_run q m s) as (m' & p' & Hc & Honce)
  end.
  rewrite Hc.
  match goal with
  | |- context [send ?c ?m ?s] => assert (Hs := kc_send c m s)
  end.
  destruct Hs as (_ & _ & Ht & _). rewrite Ht. cbn [proxystats].
  destruct Honce as [(_&_&Ht'&_)|(_&[(_&_&Ht')|(_&_&Ht')]&_)]; try exact Ht'.
  exfalso. cbn [proxystats] in *.
  unfold count in Hc. simpl in Hc.
  destruct (String.eqb _ "ERROR!"); injection Hc as <- <-; simpl in Ht'; lia.
Qed.

End ServerFacts.

(** ** The response cache *)

Section CacheFacts.
Import ResponseCache.
Context `{!JsonDumps}.
#[local] Existing Instance cache_poll.
Implicit Types (st : FacadeSt ClientState) (e : CacheEntry).

Lemma facade_state_eta st :
  MkFacadeSt (with_client_state (self st) (client_of st)) (logs st) = st.
Proof. by destruct st as [[????????????????? ? []] ?]. Qed.

Lemma poll_cache_hit st api jsonformat raw recursive e :
  cache (client_of st) !! api = Some e →
  clock (client_of st) - fetchedAt e < ttl_of st →
  poll api jsonformat raw recursive false st = (Ok (rendered jsonformat (payload e)), st).
Proof.
  intros He Hf. unfold poll, bind, call_client, client_poll, cache_poll.
  fold (client_of st). rewrite He.
  assert (Hfr : fresh (cache_expire (cls (pw_client (self st)))) (clock (client_of st)) e = true).
  { unfold fresh. apply Z.ltb_lt. exact Hf. }
  rewrite Hfr. rewrite facade_state_eta. by destruct jsonformat.
Qed.

(** A poll that finds no entry to serve and whose fetch succeeds returns
    the fetched payload and stores it with the current time. *)
Lemma poll_cache_store st api jsonformat raw recursive p :
  fresh_entry st api = None →
  upstream (client_of st) api (fetch_count st) = Some p →
  ∃ st1,
    poll api jsonformat raw recursive false st = (Ok (rendered jsonformat p), st1)
    ∧ cache (client_of st1) !! api = Some (MkEntry p (clock (client_of st)))
    ∧ fetch_count st1 = Datatypes.S (fetch_count st)
    ∧ ttl_of st1 = ttl_of st.
Proof.
  intros Hmiss Hup. unfold fresh_entry, ttl_of in Hmiss. unfold fetch_count in Hup.
  unfold poll, bind, call_client, client_poll, cache_poll.
  fold (client_of st).
  assert (Hhit : (match cache (client_of st) !! api with
                  | Some e =>
                      if fresh (cache_expire (cls (pw_client (self st))))
                           (clock (client_of st)) e
                      then Some e else None
                  | None => None
                  end) = None) by exact Hmiss.
  rewrite Hhit, Hup.
  eexists. split; [by destruct jsonformat|].
  unfold client_of, fetch_count, ttl_of. cbn.
  by rewrite lookup_insert_eq.
Qed.

(** C1: with the cache not bypassed, a poll of a path that has a cache
    entry younger than [pwcacheexpire] returns the cached payload and
    leaves the client as it is: no fetch is issued, nothing is stored. A
    poll that finds no such entry and whose fetch succeeds returns the
    fetched payload, stores it with the current time and issues that one
    fetch. Hence for two polls of a path, the second at a time within the
    lifetime of the entry that the first one serves or, after a successful
    fetch, stores: the second returns what the first returned, byte for
    byte, issues no fetch, and the two together issue at most one. *)
Theorem poll_served_from_cache :
  (∀ st api jsonformat raw recursive e,
     cache (client_of st) !! api = Some e →
     clock (client_of st) - fetchedAt e < ttl_of st →
     poll api jsonformat raw recursive false st
     = (Ok (rendered jsonformat (payload e)), st))
  ∧ (∀ st api jsonformat raw recursive p,
       fresh_entry st api = None →
       upstream (client_of st) api (fetch_count st) = Some p →
       ∃ st1,
         poll api jsonformat raw recursive false st = (Ok (rendered jsonformat p), st1)
         ∧ cache (client_of st1) !! api = Some (MkEntry p (clock (client_of st)))
         ∧ fetch_count st1 = Datatypes.S (fetch_count st))
  ∧ (∀ st api jsonformat raw1 rec1 raw2 rec2 t2 r1 st1,
       poll api jsonformat raw1 rec1 false st = (r1, st1) →
       clock (client_of st) ≤ t2 →
       within_window st api t2 →
       poll api jsonformat raw2 rec2 false (at_time t2 st1) = (r1, at_time t2 st1)
       ∧ (fetch_count (at_time t2 st1) = fetch_count st1
          ∧ fetch_count st1 ≤ fetch_count st + 1)%nat).
Proof.
  split; [apply poll_cache_hit|]. split.
  { intros st api jsonformat raw recursive p Hmiss Hup.
    destruct (poll_cache_store st api jsonformat raw recursive p Hmiss Hup)
      as (st1 & Hrun & Hstored & Hcount & _).
    by exists st1. }
  intros st api jsonformat raw1 rec1 raw2 rec2 t2 r1 st1 Hfirst Ht2 Hwin.
  unfold within_window in Hwin.
  destruct (fresh_entry st api) as [e|] eqn:Hfe.
  - (* the first poll is served from the cache *)
    unfold fresh_entry in Hfe.
    destruct (cache (client_of st) !! api) as [e0|] eqn:Hc0; [|done].
    destruct (fresh (ttl_of st) (clock (client_of st)) e0) eqn:Hfr; [|done].
    injection Hfe as ->.
    assert (Hage : clock (client_of st) - fetchedAt e < ttl_of st)
      by (by apply Z.ltb_lt).
    rewrite (poll_cache_hit st api jsonformat raw1 rec1 e Hc0 Hage) in Hfirst.
    injection Hfirst as <- <-.
    split; [|split; [reflexivity|lia]].
    by apply poll_cache_hit.
  - (* the first poll fetches, and the fetch succeeds *)
    destruct Hwin as [Hup Hage].
    destruct (upstream (client_of st) api (fetch_count st)) as [p|] eqn:Hp; [|done].
    destruct (poll_cache_store st api jsonformat raw1 rec1 p Hfe Hp)
      as (st1' & Hrun & Hstored & Hcount & Httl).
    rewrite Hrun in Hfirst. injection Hfirst as <- <-.
    split; [|split; [reflexivity|lia]].
    apply (poll_cache_hit (at_time t2 st1') api jsonformat raw2 rec2
             (MkEntry p (clock (client_of st)))).
    + exact Hstored.
    + change (ttl_of (at_time t2 st1')) with (ttl_of st1'). rewrite Httl. exact Hage.
Qed.

End CacheFacts.

(** ** The properties on examples *)

Section Examples.
Import Demo.
#[local] Existing Instances demo_new demo_authenticate demo_poll demo_power
  demo_vitals demo_fetchpower demo_time_remaining demo_dumps demo_float_of_string
  demo_parse_version demo_expanduser demo_timedelta demo_help demo_reshaped
  demo_static demo_strings_from_vitals demo_strings_from_solar demo_blocks_from.

Lemma battery_scaling_witness :
  level true (demo_facade telemetry)
  = (Ok (PFloat 47.36842105263158%float), demo_facade telemetry)
  ∧ get_reserve false (demo_facade telemetry) = (Ok (PFloat 50%float), demo_facade telemetry).
Proof.
  destruct (battery_scaling (PInt 50) 50%float
              [("percentage", PInt 50)] [("backup_reserve_percent", PInt 50)]
              (demo_facade telemetry) (demo_facade telemetry) (demo_facade telemetry))
    as (_ & _ & H50 & _ & _ & Hraw & _).
  - vm_compute. reflexivity.
  - reflexivity.
  - reflexivity.
  - reflexivity.
  - reflexivity.
  - split; [apply H50; reflexivity|exact Hraw].
Defined.

Lemma grid_status_mapping_witness :
  grid_status "string" (demo_facade telemetry) = (Ok (PStr "UP"), demo_facade telemetry)
  ∧ grid_status "numeric" (demo_facade telemetry) = (Ok (PInt 1), demo_facade telemetry).
Proof.
  destruct (grid_status_mapping
              (PDict [("grid_status", PStr "SystemGridConnected");
                      ("grid_services_active", PBool false)])
              "SystemGridConnected" (demo_facade telemetry) (demo_facade telemetry))
    as (Hup & _).
  - reflexivity.
  - reflexivity.
  - apply Hup. reflexivity.
Defined.

(** The gateway does not answer: every poll gives [None]. *)
Lemma grid_status_absent_payload_raises_witness :
  grid_status "numeric" (demo_facade []) = (Raise TypeError, demo_facade []).
Proof.
  destruct (grid_status_absent_payload_raises "numeric" [] (demo_facade []) (demo_facade []))
    as [Hnone _].
  - right. reflexivity.
  - reflexivity.
  - apply Hnone. reflexivity.
Defined.

Lemma backend_selection_witness :
  Powerwall_init "" "password" "email@example.com" "America/Los_Angeles" 5 5 15 false
    None "" "cookie" ".powerwall" = Ok cloud_pw
  ∧ pw_cloudmode cloud_pw = true
  ∧ cls (pw_client cloud_pw) = PyPowerwallCloud "email@example.com" 5 5 None "".
Proof.
  split; [reflexivity|].
  destruct (backend_selection "" "password" "email@example.com" "America/Los_Angeles"
              5 5 15 false None "" "cookie" ".powerwall" cloud_pw) as (Hcloud & _).
  - reflexivity.
  - apply Hcloud. left. reflexivity.
Defined.

Lemma problems_default_on_failure_witness :
  fst (do_GET "path=/;" (MkRequest "/api/troubleshooting/problems" 1000 0)
         (demo_server [] (demo_stats 0 0 0 [])))
  = Ok (MkResponse 200 (api_headers "application/json" 16) true (Some default_problems)).
Proof.
  destruct (problems_default_on_failure "path=/;"
              (MkRequest "/api/troubleshooting/problems" 1000 0)
              (demo_server [] (demo_stats 0 0 0 [])) PNone (demo_facade []))
    as [Hrun _].
  - reflexivity.
  - reflexivity.
  - reflexivity.
  - rewrite Hrun. reflexivity.
Defined.

(** The home reading is absent and printed as [0.00]. *)
Lemma csv_five_values_witness :
  fst (do_GET "path=/;" (MkRequest "/csv" 1000 0) (demo_server telemetry (demo_stats 0 0 0 [])))
  = Ok (MkResponse 200 (api_headers "text/plain; charset=utf-8" 32) true
          (Some (String.append "1234.50,0.00,3.00,-250.25,50.00" newline))).
Proof.
  destruct (csv_five_values "path=/;" (MkRequest "/csv" 1000 0)
              (demo_server telemetry (demo_stats 0 0 0 []))
              (PInt 50) (PFloat 1234.5) (PInt 3) (PFloat (-250.25)) PNone
              (demo_facade telemetry) (demo_facade telemetry) (demo_facade telemetry)
              (demo_facade telemetry) (demo_facade telemetry)
              50%float 1234.5%float 3%float (-250.25)%float 0%float)
    as [Hrun _].
  - reflexivity.
  - reflexivity.
  - reflexivity.
  - reflexivity.
  - reflexivity.
  - reflexivity.
  - split; vm_compute; reflexivity.
  - split; vm_compute; reflexivity.
  - split; vm_compute; reflexivity.
  - split; vm_compute; reflexivity.
  - split; vm_compute; reflexivity.
  - rewrite Hrun. vm_compute. reflexivity.
Defined.

(** Two timeouts were counted before the statistics are cleared; they are
    still counted afterwards. *)
Lemma stats_clear_keeps_timeout_witness :
  st_timeout (proxystats (snd (do_GET "path=/;" (MkRequest "/stats/clear" 2000 0)
                                 (demo_server [] (demo_stats 7 1 2 [("/soe", 7)])))))
  = 2.
Proof.
  destruct (stats_clear_keeps_timeout "path=/;" (MkRequest "/stats/clear" 2000 0)
              (demo_server [] (demo_stats 7 1 2 [("/soe", 7)])))
    as (_ & _ & _ & Hafter).
  - reflexivity.
  - rewrite Hafter. reflexivity.
Defined.

Lemma requests_counted_once_witness :
  let st := demo_server telemetry (demo_stats 0 0 0 []) in
  let st' := snd (serve "path=/;" three_requests st) in
  st_gets (proxystats st') = 3
  ∧ hits "/soe" (st_uri (proxystats st')) = 2
  ∧ counted_once false "/soe" (proxystats st)
      (proxystats (snd (do_GET "path=/;" (MkRequest "/soe" 1000 0) st))).
Proof.
  intros st st'.
  destruct (requests_counted_once (S:=table) "path=/;") as [Hone Hall].
  assert (Hrun : ∃ rs, serve "path=/;" three_requests st = (Ok rs, st'))
    by (eexists; reflexivity).
  destruct Hrun as [rs Hrun].
  destruct (Hall three_requests st rs st' Hrun) as [Hgets Hhits].
  - repeat constructor; discriminate.
  - reflexivity.
  - reflexivity.
  - split; [exact Hgets|]. split; [exact (Hhits "/soe")|].
    remember (do_GET "path=/;" (MkRequest "/soe" 1000 0) st) as res eqn:Hres.
    assert (Hok : is_ok (fst res) = true) by (subst res; reflexivity).
    destruct res as [[r|e] s1]; [|discriminate].
    symmetry in Hres. apply (Hone _ _ _ _ Hres). discriminate.
Defined.

(** The design document has a request that the static branch serves
    counted in the hit counter of its path as well; the code counts it in
    [gets] only. *)
Lemma static_request_not_in_hit_counters :
  ¬ (∀ req (st : ServerSt table) r st',
       do_GET "path=/;" req st = (Ok r, st') →
       st_gets (proxystats st') = st_gets (proxystats st) + 1 →
       hits (path req) (st_uri (proxystats st'))
       = hits (path req) (st_uri (proxystats st)) + 1).
Proof.
  intros Hclaim.
  specialize (Hclaim (MkRequest "/app.js" 1000 0)
                (demo_token_server [] (demo_stats 0 0 0 [])) _ _ eq_refl eq_refl).
  vm_compute in Hclaim. discriminate.
Qed.

End Examples.

Section CacheExamples.
Import ResponseCache Demo.
#[local] Existing Instances demo_dumps cache_poll.

(** A first poll at time 100 fetches; a second one at time 104 is served
    from the cache. *)
Lemma poll_served_from_cache_witness :
  poll "/api/status" false false false false (at_time 104 warm_facade)
  = (Ok status_payload, at_time 104 warm_facade)
  ∧ fetch_count (at_time 104 warm_facade) = 1%nat.
Proof.
  destruct poll_served_from_cache as (_ & _ & Htwice).
  destruct (Htwice cold_facade "/api/status" false false false false false 104
              (Ok status_payload) warm_facade)
    as (Hsecond & Hsame & Hle).
  - vm_compute. reflexivity.
  - vm_compute. discriminate.
  - vm_compute. split; [discriminate|reflexivity].
  - split; [exact Hsecond|]. rewrite Hsame. vm_compute. reflexivity.
Defined.

End CacheExamples.

(** * Further properties of the code *)

(** ** The facade *)

(** The pairs of results that [grid_status] gives for the types ["string"]
    and ["numeric"]. *)
Definition grid_states : list (pyval * pyval) :=
  [ (PStr "UP", PInt 1); (PStr "DOWN", PInt 0); (PStr "SYNCING", PInt (-1));
    (PNone, PNone) ].

Section FacadeExtras.
Context {S : Type}.
Context `{!ClientPoll S, !ClientPower S, !ClientVitals S, !ClientFetchpower S,
          !ClientTimeRemaining S}.
Context `{!JsonDumps, !FloatOfString, !ParseVersion}.
Context `{!StringsFromVitals, !StringsFromSolar, !BlocksFrom}.
Implicit Types (st : FacadeSt S) (payload : pyval).

(** X1: [is_connected] never raises: it returns [True] exactly when the
    client's poll of [/api/status] returns a payload that is not [None], and
    [False] when the payload is [None] or the poll raises. *)
Theorem is_connected_never_raises st :
  ∃ b, fst (is_connected st) = Ok b
       ∧ (b = true ↔
          ∃ v, fst (call_client (fun c => client_poll c "/api/status" false false false) st)
               = Ok v ∧ v ≠ PNone).
Proof.
  unfold is_connected, try_except, status, bind.
  destruct (call_client _ st) as [[v|e] st1]; cbn [fst].
  - destruct v; cbn; eexists; (split; [reflexivity|]);
      split; try done; try (intros _; eexists; split; [reflexivity|done]).
    intros (v & Hv & Hne). by inversion Hv; subst.
  - cbn. exists false. split; [done|]. split; [done|]. by intros (v & Hv & _).
Qed.

(** X2: [site_name] raises only when the poll itself raises: for every
    payload the poll returns ([None], a list, a number, a dictionary without
    the key) the result is the value of the key [site_name], or [None]. *)
Theorem site_name_tolerates_any_payload st :
  match fst (poll "/api/site_info/site_name" false false false false st) with
  | Ok payload =>
      fst (site_name st)
      = Ok (match py_getitem payload "site_name" with Ok x => x | Raise _ => PNone end)
  | Raise e => fst (site_name st) = Raise e
  end.
Proof.
  unfold site_name, bind, try_except.
  destruct (poll _ _ _ _ _ st) as [[payload|e] st1]; cbn [fst]; [|done].
  unfold lift_outcome. by destruct (py_getitem payload "site_name").
Qed.

(** X3: when [/api/status] gives a dictionary, [status(param)] is
    [payload.get(param)] whatever [jsonformat] is, and [version()],
    [uptime()] and [din()] are the entries [version], [up_time_seconds] and
    [din] of that dictionary, [None] when the key is missing; the client's
    state is the one the poll left. *)
Theorem status_fields_of_dictionary d st st1 :
  call_client (fun c => client_poll c "/api/status" false false false) st
  = (Ok (PDict d), st1) →
  (∀ p jsonformat,
     fst (status (Some p) jsonformat st) = py_get (PDict d) p
     ∧ self (snd (status (Some p) jsonformat st)) = self st1)
  ∧ fst (version false st) = py_get (PDict d) "version"
  ∧ fst (uptime st) = py_get (PDict d) "up_time_seconds"
  ∧ fst (din st) = py_get (PDict d) "din".
Proof.
  intros Hp.
  assert (Hs : ∀ p jsonformat,
             fst (status (Some p) jsonformat st) = py_get (PDict d) p
             ∧ self (snd (status (Some p) jsonformat st)) = self st1).
  { intros p j. unfold status, bind. rewrite Hp. cbn.
    unfold dict_mem. by destruct (dict_get p d). }
  split; [exact Hs|].
  unfold version, uptime, din. cbn [negb].
  repeat split; apply Hs.
Qed.

(** X4: [grid_status] checks its argument before it polls: a [type] other
    than ["json"], ["string"] and ["numeric"] raises [ValueError] and leaves
    the object, its client and the log as they were. *)
Theorem grid_status_rejects_type type st :
  type ≠ "json" → type ≠ "string" → type ≠ "numeric" →
  grid_status type st
  = (Raise (ValueError (String.append "Invalid value for parameter 'type': " type)), st).
Proof.
  intros Hj Hs Hn. unfold grid_status.
  apply String.eqb_neq in Hj, Hs, Hn. by rewrite Hj, Hs, Hn.
Qed.

(** X5: for a payload whose [grid_status] is a string, any string, the
    results for the types ["string"] and ["numeric"] go together: they are
    ["UP"] and 1, ["DOWN"] and 0, ["SYNCING"] and -1, or both [None]. *)
Theorem grid_status_string_numeric_agree payload s st st' :
  poll "/api/system_status/grid_status" false false false false st = (Ok payload, st') →
  py_getitem payload "grid_status" = Ok (PStr s) →
  ∃ a b, fst (grid_status "string" st) = Ok a
         ∧ fst (grid_status "numeric" st) = Ok b
         ∧ In (a, b) grid_states.
Proof.
  intros Hp Hg.
  rewrite (grid_status_of_string "string" payload s st st') by auto.
  rewrite (grid_status_of_string "numeric" payload s st st') by auto.
  unfold gridmap_get, gridmap. cbn [dict_get].
  repeat (match goal with
          | |- context [String.eqb s ?k] => destruct (String.eqb s k)
          end;
          [cbn; eexists _, _; (split; [reflexivity|]); (split; [reflexivity|]);
           unfold grid_states; cbn; tauto|]).
  cbn. exists PNone, PNone. unfold grid_states. cbn. tauto.
Qed.

(** The checks made on the scaled value of the integer percentage [n]: its
    sign, and that it is at most 100. *)
Definition scaled_level_ok (n : nat) : bool :=
  match app_scale (PInt (Z.of_nat n)) with
  | Ok (PFloat f) =>
      Bool.eqb (f <? 0)%float (Z.of_nat n <? 5)
      && Bool.eqb (f =? 0)%float (Z.of_nat n =? 5)
      && (f <=? 100)%float
  | _ => false
  end.

(** The scaled value of [n] is below the scaled value of [m]. *)
Definition scaled_level_lt (n m : nat) : bool :=
  match app_scale (PInt (Z.of_nat n)), app_scale (PInt (Z.of_nat m)) with
  | Ok (PFloat f), Ok (PFloat g) => (f <? g)%float
  | _, _ => false
  end.

Lemma scaled_level_table :
  forallb (fun n => scaled_level_ok n
                    && forallb (fun m => (m <=? n)%nat || scaled_level_lt n m) (seq 0 101))
    (seq 0 101) = true.
Proof. vm_compute. reflexivity. Qed.

Lemma scaled_level_entry z :
  0 ≤ z ≤ 100 →
  scaled_level_ok (Z.to_nat z) = true
  ∧ ∀ z', z < z' ≤ 100 → scaled_level_lt (Z.to_nat z) (Z.to_nat z') = true.
Proof.
  intros Hz. pose proof scaled_level_table as T.
  rewrite forallb_forall in T.
  specialize (T (Z.to_nat z)). rewrite in_seq in T.
  destruct (andb_prop _ _ (T ltac:(lia))) as [Hok Hlt].
  split; [exact Hok|]. intros z' Hz'.
  rewrite forallb_forall in Hlt.
  specialize (Hlt (Z.to_nat z')). rewrite in_seq in Hlt.
  specialize (Hlt ltac:(lia)).
  apply orb_prop in Hlt as [Hle|Hlt]; [|exact Hlt].
  apply Nat.leb_le in Hle. lia.
Qed.

(** X6: the app scale on a whole percentage from 0 to 100: [level(True)]
    returns a float that is negative exactly below 5 percent, zero exactly
    at 5 percent, never above 100, and that grows strictly with the
    percentage. *)
Theorem level_scaled_range z d st st' :
  0 ≤ z ≤ 100 →
  poll "/api/system_status/soe" false false false false st = (Ok (PDict d), st') →
  dict_get "percentage" d = Some (PInt z) →
  ∃ f, level true st = (Ok (PFloat f), st')
       ∧ (f <? 0)%float = (z <? 5)
       ∧ (f =? 0)%float = (z =? 5)
       ∧ (f <=? 100)%float = true
       ∧ ∀ z' f', z < z' ≤ 100 → app_scale (PInt z') = Ok (PFloat f') →
                  (f <? f')%float = true.
Proof.
  intros Hz Hp Hd.
  rewrite (level_of_payload true d (PInt z) st st' Hp Hd).
  destruct (scaled_level_entry z Hz) as [Hok Hlt].
  unfold scaled_level_ok in Hok. rewrite Z2Nat.id in Hok by lia.
  destruct (app_scale (PInt z)) as [[| | |f| | |]|] eqn:E; try discriminate.
  exists f. split; [done|].
  apply andb_prop in Hok as [Hok H100]. apply andb_prop in Hok as [Hneg Hzero].
  apply Bool.eqb_prop in Hneg, Hzero.
  repeat split; try done.
  intros z' f' Hz' E'. specialize (Hlt z' Hz').
  unfold scaled_level_lt in Hlt. rewrite !Z2Nat.id in Hlt by lia.
  by rewrite E, E' in Hlt.
Qed.

(** X7: whenever [get_reserve] returns, with or without the app scale, the
    result is a float or [None]. *)
Theorem get_reserve_float_or_none scale st v st' :
  get_reserve scale st = (Ok v, st') → v = PNone ∨ ∃ f, v = PFloat f.
Proof.
  unfold get_reserve, bind, lift_outcome, ret. intros Hr.
  destruct (poll _ _ _ _ _ st) as [[data|e] st1]; [|done].
  destruct data; try (inversion Hr; by left);
    (destruct (py_contains _ _) as [[|]|]; [| inversion Hr; by left | done];
     destruct (py_getitem _ _); [|done];
     destruct (py_float _) as [percent|]; [|done];
     destruct scale;
     [ rewrite (app_scale_float (PFloat percent) percent eq_refl) in Hr |];
     inversion Hr; right; by eexists).
Qed.

(** X8: a percentage that is [None] in the payload: [level()] returns the
    [None], [level(True)] raises [TypeError], and [get_reserve] raises
    [TypeError] with and without the scale. *)
Theorem null_percentage d o st st1 st2 :
  poll "/api/system_status/soe" false false false false st = (Ok (PDict d), st1) →
  dict_get "percentage" d = Some PNone →
  poll "/api/operation" false false false false st = (Ok (PDict o), st2) →
  dict_get "backup_reserve_percent" o = Some PNone →
  level false st = (Ok PNone, st1)
  ∧ level true st = (Raise TypeError, st1)
  ∧ ∀ scale, get_reserve scale st = (Raise TypeError, st2).
Proof.
  intros Hp Hd Ho Hr.
  rewrite (level_of_payload false d PNone st st1 Hp Hd).
  rewrite (level_of_payload true d PNone st st1 Hp Hd).
  repeat split. intros scale.
  unfold get_reserve, bind. rewrite Ho. cbn. unfold dict_mem. by rewrite Hr.
Qed.

(** X9: [alerts] without vitals (the vitals are [None] or empty): when the
    device names are asked for ([alertsonly] false) the result is the empty
    list and [/api/solar_powerwall] is not polled; with [alertsonly] that
    payload is polled, an absent or empty payload gives the empty list, and
    a payload with the dictionaries [pvac_alerts] and [pvs_alerts] gives the
    keys of the first and then of the second whose value is [True]. *)
Theorem alerts_without_vitals v st st1 :
  vitals false st = (Ok v, st1) →
  py_truthy v = false →
  alerts false false st = (Ok (PList []), st1)
  ∧ ∀ p st2,
      poll "/api/solar_powerwall" false false false false st1 = (Ok p, st2) →
      (py_truthy p = false → alerts false true st = (Ok (PList []), st2))
      ∧ (∀ d a b, p = PDict d →
           dict_get "pvac_alerts" d = Some (PDict a) →
           dict_get "pvs_alerts" d = Some (PDict b) →
           alerts false true st = (Ok (PList (true_keys a ++ true_keys b)), st2)).
Proof.
  intros Hv Hf. unfold alerts, bind. rewrite Hv. unfold py_or. rewrite Hf.
  cbn [py_truthy]. split; [done|].
  intros p st2 Hp. rewrite Hp. split.
  - intros Hpf. rewrite Hpf. done.
  - intros d a b -> Ha Hb.
    destruct d as [|kv d]; [done|]. cbn [py_truthy].
    unfold alerts_of, py_get, lift_outcome. rewrite Ha, Hb.
    unfold py_or.
    destruct a, b; done.
Qed.

Lemma dict_mem_keys {V} k (d : list (string * V)) :
  In (PStr k) (map (fun kv => PStr (fst kv)) d) ↔ dict_mem k d = true.
Proof.
  unfold dict_mem. induction d as [|[k' x] d IH]; cbn.
  - split; [tauto|discriminate].
  - destruct (String.eqb k k') eqn:E.
    + apply String.eqb_eq in E. subst. split; auto.
    + apply String.eqb_neq in E. rewrite <- IH. split; [|tauto].
      intros [Hk|Hk]; [congruence|done].
Qed.

Lemma temps_loop_sound d todo acc t :
  temps_loop (PDict d) todo acc = Ok t →
  ∀ k x, dict_get k t = Some x →
    dict_get k acc = Some x
    ∨ (In (PStr k) todo ∧ String.prefix "TETHC" k = true
       ∧ ∃ dev, dict_get k d = Some dev ∧ py_get dev "THC_AmbientTemp" = Ok x).
Proof.
  revert acc. induction todo as [|i todo IH]; intros acc Ht k x Hk.
  - inversion Ht. subst. by left.
  - destruct i as [| | | |device| |]; try discriminate. cbn [temps_loop] in Ht.
    destruct (String.prefix "TETHC" device) eqn:Hpre.
    + cbn [py_getitem] in Ht.
      destruct (dict_get device d) as [dev|] eqn:Hdev; [|discriminate].
      destruct (py_get dev "THC_AmbientTemp") as [temp|] eqn:Htemp; [|discriminate].
      destruct (IH _ Ht k x Hk) as [Hacc|(Hin & Hp & Hx)].
      * destruct (String.eqb device k) eqn:E.
        -- apply String.eqb_eq in E. subst k.
           rewrite dict_get_set_eq in Hacc. inversion Hacc. subst temp.
           right. split; [by left|]. split; [done|]. by exists dev.
        -- apply String.eqb_neq in E. rewrite dict_get_set_ne in Hacc by done.
           by left.
      * right. split; [by right|done].
    + destruct (IH _ Ht k x Hk) as [Hacc|(Hin & Hp & Hx)]; [by left|].
      right. split; [by right|done].
Qed.

Lemma temps_loop_complete d todo acc t :
  temps_loop (PDict d) todo acc = Ok t →
  ∀ k, dict_mem k acc = true ∨ (In (PStr k) todo ∧ String.prefix "TETHC" k = true) →
       dict_mem k t = true.
Proof.
  revert acc. induction todo as [|i todo IH]; intros acc Ht k Hk.
  - inversion Ht. subst. destruct Hk as [Hk|[[] _]]. done.
  - destruct i as [| | | |device| |]; try discriminate. cbn [temps_loop] in Ht.
    destruct (String.prefix "TETHC" device) eqn:Hpre.
    + cbn [py_getitem] in Ht.
      destruct (dict_get device d) as [dev|] eqn:Hdev; [|discriminate].
      destruct (py_get dev "THC_AmbientTemp") as [temp|] eqn:Htemp; [|discriminate].
      apply (IH _ Ht k).
      destruct (String.eqb device k) eqn:E.
      * apply String.eqb_eq in E. subst k. left. unfold dict_mem.
        by rewrite dict_get_set_eq.
      * apply String.eqb_neq in E.
        destruct Hk as [Hk|[[Hk|Hk] Hp]].
        -- left. unfold dict_mem in *. by rewrite dict_get_set_ne.
        -- congruence.
        -- by right.
    + apply (IH _ Ht k).
      destruct Hk as [Hk|[[Hk|Hk] Hp]]; [by left| |by right].
      inversion Hk. subst. congruence.
Qed.

(** X10: [temps] keeps the thermal controllers and nothing else: when it
    returns, the keys of the result are exactly the keys of the vitals that
    start with [TETHC], and the value of each is the [THC_AmbientTemp] of
    that device, [None] when the device has no such entry. *)
Theorem temps_only_thermal_devices v d st st1 t st' :
  vitals false st = (Ok v, st1) →
  py_or v (PDict []) = PDict d →
  temps false st = (Ok (PDict t), st') →
  ∀ k, (dict_mem k t = true ↔ String.prefix "TETHC" k = true ∧ dict_mem k d = true)
       ∧ ∀ x, dict_get k t = Some x →
              ∃ dev, dict_get k d = Some dev ∧ py_get dev "THC_AmbientTemp" = Ok x.
Proof.
  intros Hv Hd Ht k. unfold temps, bind in Ht. rewrite Hv, Hd in Ht.
  cbn [py_iter lift_outcome] in Ht. unfold lift_outcome in Ht.
  destruct (temps_loop _ _ _) as [t'|] eqn:Hl; [|done].
  inversion Ht. subst t' st'. clear Ht.
  pose proof (temps_loop_sound _ _ _ _ Hl) as Hs.
  pose proof (temps_loop_complete _ _ _ _ Hl) as Hc.
  split; [split|].
  - unfold dict_mem at 1. destruct (dict_get k t) as [x|] eqn:Hx; [|done]. intros _.
    destruct (Hs k x Hx) as [Hacc|(Hin & Hp & _)]; [done|].
    split; [done|]. by apply dict_mem_keys.
  - intros [Hp Hm]. apply Hc. right. split; [|done]. by apply dict_mem_keys.
  - intros x Hx. destruct (Hs k x Hx) as [Hacc|(_ & _ & Hdev)]; done.
Qed.

(** X11: [battery_blocks] gives up early: when [/api/system_status] has no
    payload the result is [None] and the vitals are not asked for, and when
    the vitals are [None] or empty the result is [None] as well; in both
    cases nothing is read from the payloads. *)
Theorem battery_blocks_none jsonformat st :
  (∀ st1, poll "/api/system_status" false false false false st = (Ok PNone, st1) →
          battery_blocks jsonformat st = (Ok PNone, st1))
  ∧ (∀ ss st1 v st2,
       poll "/api/system_status" false false false false st = (Ok ss, st1) →
       ss ≠ PNone →
       vitals false st1 = (Ok v, st2) →
       py_truthy v = false →
       battery_blocks jsonformat st = (Ok PNone, st2)).
Proof.
  unfold battery_blocks, system_status, bind. split.
  - intros st1 Hp. by rewrite Hp.
  - intros ss st1 v st2 Hp Hne Hv Hf. rewrite Hp.
    destruct ss; try done; cbn; rewrite Hv, Hf; done.
Qed.

End FacadeExtras.

(** ** Version strings *)

(** Every character of a string passes a test. *)
Fixpoint all_chars (p : Ascii.ascii → bool) (s : string) : bool :=
  match s with
  | EmptyString => true
  | String c s' => p c && all_chars p s'
  end.

(** The text of a version with the given components: their decimal
    numerals, joined by points. *)
Definition dotted (ns : list Z) : string := String.concat "." (map Z_to_string ns).

(** The components after the padding of [/version]: at least three. *)
Definition padded (ns : list Z) : list Z := (ns ++ repeat 0 (3 - length ns))%list.

(** What may follow the version in the text: nothing, or a space and any
    further text (the hash of the build). *)
Definition version_tail (tail : string) : Prop :=
  tail = "" ∨ ∃ r, tail = String (Ascii.ascii_of_nat 32) r.

(** A character that the filter of [/version] keeps and [int] refuses: a
    slash, a backslash, or a superscript digit. *)
Definition refused_char (c : Ascii.ascii) : bool :=
  (version_punct c && negb (Ascii.eqb c (Ascii.ascii_of_nat 46)))
  || (py_isdigit c && negb (is_digit c)).

(** The first word of a version text. *)
Definition first_word (version : string) : string :=
  hd EmptyString (split_char (Ascii.ascii_of_nat 32) version).

Definition invalid_literal : exn := ValueError "invalid literal for int() with base 10".

Section VersionFacts.
Implicit Types (s t : string) (c sep : Ascii.ascii) (ns : list Z).

Lemma append_assoc s t u :
  String.append (String.append s t) u = String.append s (String.append t u).
Proof.
  induction s as [|c s IH]; [done|].
  change (String c (String.append (String.append s t) u)
          = String c (String.append s (String.append t u))).
  by rewrite IH.
Qed.

Lemma all_chars_app p s t : all_chars p (String.append s t) = all_chars p s && all_chars p t.
Proof. induction s as [|c s IH]; simpl; [done|]. by rewrite IH, andb_assoc. Qed.

Lemma all_chars_impl (p q : Ascii.ascii → bool) s :
  (∀ c, p c = true → q c = true) → all_chars p s = true → all_chars q s = true.
Proof.
  intros Hpq. induction s as [|c s IH]; simpl; [done|].
  intros [Hc Hs]%andb_prop. by rewrite (Hpq c Hc), IH.
Qed.

Lemma all_digits_chars s : all_digits s = all_chars is_digit s.
Proof. induction s as [|c s IH]; simpl; [done|]. by rewrite IH. Qed.

Lemma split_char_nonempty sep s : split_char sep s ≠ [].
Proof.
  induction s as [|c s IH]; simpl; [done|].
  destruct (Ascii.eqb c sep); [done|]. by destruct (split_char sep s).
Qed.

(** A string without the separator is the only component of itself. *)
Lemma split_char_none sep s :
  all_chars (fun c => negb (Ascii.eqb c sep)) s = true → split_char sep s = [s].
Proof.
  induction s as [|c s IH]; simpl; [done|].
  intros [Hc Hs]%andb_prop. apply negb_true_iff in Hc. rewrite Hc, (IH Hs). done.
Qed.

(** Splitting at the first separator. *)
Lemma split_char_app sep s t :
  all_chars (fun c => negb (Ascii.eqb c sep)) s = true →
  split_char sep (String.append s (String sep t)) = s :: split_char sep t.
Proof.
  induction s as [|c s IH]; simpl.
  - intros _. by rewrite Ascii.eqb_refl.
  - intros [Hc Hs]%andb_prop. apply negb_true_iff in Hc. by rewrite Hc, (IH Hs).
Qed.

Lemma split_char_length_cons sep c s :
  length (split_char sep (String c s))
  = if Ascii.eqb c sep then Datatypes.S (length (split_char sep s))
    else length (split_char sep s).
Proof.
  cbn [split_char]. destruct (Ascii.eqb c sep); [done|].
  pose proof (split_char_nonempty sep s). by destruct (split_char sep s).
Qed.

Lemma split_char_length_app sep s t :
  length (split_char sep (String.append s t))
  = (length (split_char sep s) + length (split_char sep t) - 1)%nat.
Proof.
  induction s as [|c s IH].
  - change (String.append "" t) with t. cbn [split_char length]. lia.
  - change (String.append (String c s) t) with (String c (String.append s t)).
    rewrite !split_char_length_cons, IH.
    assert (Hs : (1 ≤ length (split_char sep s))%nat).
    { pose proof (split_char_nonempty sep s). destruct (split_char sep s); [done|].
      cbn [length]. lia. }
    assert (Ht : (1 ≤ length (split_char sep t))%nat).
    { pose proof (split_char_nonempty sep t). destruct (split_char sep t); [done|].
      cbn [length]. lia. }
    destruct (Ascii.eqb c sep); lia.
Qed.

(** Two rounds are enough for the loop of the padding: the result has at
    least three components, whatever the text is. *)
Lemma pad_version_three val :
  (3 ≤ length (split_char (Ascii.ascii_of_nat 46) (pad_version 2 val)))%nat.
Proof.
  assert (Hstep : ∀ v, length (split_char (Ascii.ascii_of_nat 46) (String.append v ".0"))
                       = Datatypes.S (length (split_char (Ascii.ascii_of_nat 46) v))).
  { intros v. rewrite split_char_length_app.
    change (length (split_char (Ascii.ascii_of_nat 46) ".0")) with 2%nat.
    pose proof (split_char_nonempty (Ascii.ascii_of_nat 46) v).
    destruct (split_char (Ascii.ascii_of_nat 46) v); [done|]. cbn [length]. lia. }
  pose proof (split_char_nonempty (Ascii.ascii_of_nat 46) val) as Hne.
  cbn [pad_version].
  destruct (_ <? 3)%nat eqn:E1; [|apply Nat.ltb_ge in E1; exact E1].
  destruct (length (split_char _ (String.append val ".0")) <? 3)%nat eqn:E2;
    [|apply Nat.ltb_ge in E2; exact E2].
  rewrite !Hstep. destruct (split_char (Ascii.ascii_of_nat 46) val); [done|].
  cbn [length]. lia.
Qed.

Lemma version_chars_kept s :
  all_chars (fun c => py_isdigit c || version_punct c) s = true → version_chars s = s.
Proof.
  induction s as [|c s IH]; simpl; [done|].
  intros [Hc Hs]%andb_prop. by rewrite Hc, (IH Hs).
Qed.

Lemma to_uint_not_nil (n : N) : N.to_uint n ≠ Decimal.Nil.
Proof.
  intros Hn. pose proof (Unsigned.of_to n) as E. rewrite Hn in E. simpl in E.
  subst n. discriminate.
Qed.

Lemma Z_to_string_NilEmpty z : Z_to_string z = NilEmpty.string_of_uint (N.to_uint (Z.to_N z)).
Proof.
  unfold Z_to_string, NilZero.string_of_uint.
  pose proof (to_uint_not_nil (Z.to_N z)). by destruct (N.to_uint (Z.to_N z)).
Qed.

(** Reading back the numeral of a natural number gives the number. *)
Lemma int10_Z_to_string z : 0 ≤ z → int10 (Z_to_string z) = Ok z.
Proof.
  intros Hz. unfold int10.
  destruct (Z_to_string_digits z) as [Hne _].
  destruct (Z_to_string z) as [|c s] eqn:E; [done|].
  rewrite <- E, Z_to_string_NilEmpty, NilEmpty.usu, Unsigned.of_to.
  by rewrite Z2N.id.
Qed.

Lemma Z_to_string_inj z z' : 0 ≤ z → 0 ≤ z' → Z_to_string z = Z_to_string z' → z = z'.
Proof.
  intros Hz Hz' E. pose proof (int10_Z_to_string z Hz) as H1.
  rewrite E, (int10_Z_to_string z' Hz') in H1. by inversion H1.
Qed.

Lemma digit_not_sep c sep :
  is_digit c = true → is_digit sep = false → negb (Ascii.eqb c sep) = true.
Proof.
  intros Hc Hs. apply negb_true_iff. destruct (Ascii.eqb c sep) eqn:E; [|done].
  apply Ascii.eqb_eq in E. congruence.
Qed.

Lemma numeral_no_sep sep z :
  is_digit sep = false →
  all_chars (fun c => negb (Ascii.eqb c sep)) (Z_to_string z) = true.
Proof.
  intros Hs. destruct (Z_to_string_digits z) as [_ Hd].
  rewrite all_digits_chars in Hd.
  apply (all_chars_impl is_digit); [|done].
  intros c Hc. by apply digit_not_sep.
Qed.

Lemma numeral_kept z :
  all_chars (fun c => py_isdigit c || version_punct c) (Z_to_string z) = true.
Proof.
  destruct (Z_to_string_digits z) as [_ Hd].
  rewrite all_digits_chars in Hd.
  apply (all_chars_impl is_digit); [|done].
  intros c Hc. unfold py_isdigit. unfold is_digit in Hc. by rewrite Hc.
Qed.

Lemma dotted_cons a b ns :
  dotted (a :: b :: ns)
  = String.append (Z_to_string a) (String (Ascii.ascii_of_nat 46) (dotted (b :: ns))).
Proof. reflexivity. Qed.

Lemma dotted_all_chars (p : Ascii.ascii → bool) ns :
  p (Ascii.ascii_of_nat 46) = true →
  (∀ z, all_chars p (Z_to_string z) = true) →
  all_chars p (dotted ns) = true.
Proof.
  intros Hdot Hnum. induction ns as [|a [|b ns] IH]; [done|apply Hnum|].
  rewrite dotted_cons, all_chars_app, Hnum. simpl. by rewrite Hdot, IH.
Qed.

Lemma split_dotted ns :
  ns ≠ [] → split_char (Ascii.ascii_of_nat 46) (dotted ns) = map Z_to_string ns.
Proof.
  intros Hne. induction ns as [|a [|b ns] IH]; [done| |].
  - apply split_char_none. by apply numeral_no_sep.
  - rewrite dotted_cons, split_char_app by (by apply numeral_no_sep).
    by rewrite IH.
Qed.

Lemma dotted_snoc ns z :
  ns ≠ [] →
  String.append (dotted ns) (String (Ascii.ascii_of_nat 46) (Z_to_string z))
  = dotted (ns ++ [z]).
Proof.
  intros Hne. induction ns as [|a [|b ns] IH]; [done|done|].
  change ((a :: b :: ns) ++ [z])%list with (a :: b :: (ns ++ [z]))%list.
  rewrite !dotted_cons. change (b :: (ns ++ [z]))%list with ((b :: ns) ++ [z])%list.
  rewrite <- IH by done.
  by rewrite append_assoc.
Qed.

Lemma pad_dotted ns : ns ≠ [] → pad_version 2 (dotted ns) = dotted (padded ns).
Proof.
  intros Hne. unfold padded.
  assert (Hstep : ∀ ms, ms ≠ [] → String.append (dotted ms) ".0" = dotted (ms ++ [0])).
  { intros ms Hms. by rewrite <- dotted_snoc. }
  destruct ns as [|a [|b [|c ns]]]; [done| | |].
  - cbn [pad_version]. rewrite split_dotted by done. cbn [map length Nat.ltb Nat.leb].
    rewrite (Hstep [a]) by done. cbn [app].
    rewrite split_dotted by done. cbn [map length Nat.ltb Nat.leb].
    by rewrite (Hstep [a; 0]).
  - cbn [pad_version]. rewrite split_dotted by done. cbn [map length Nat.ltb Nat.leb].
    rewrite (Hstep [a; b]) by done. cbn [app].
    rewrite split_dotted by done. done.
  - cbn [pad_version]. rewrite split_dotted by done. cbn [map length Nat.ltb Nat.leb].
    cbn [length Nat.sub repeat]. by rewrite app_nil_r.
Qed.

Lemma int10_all_numerals ns :
  Forall (fun z => 0 ≤ z) ns → int10_all (map Z_to_string ns) = Ok ns.
Proof.
  induction 1 as [|z ns Hz _ IH]; [done|].
  cbn [map int10_all]. by rewrite int10_Z_to_string, IH.
Qed.

Lemma first_word_dotted ns tail :
  version_tail tail →
  hd EmptyString (split_char (Ascii.ascii_of_nat 32) (String.append (dotted ns) tail))
  = dotted ns.
Proof.
  assert (Hsp : all_chars (fun c => negb (Ascii.eqb c (Ascii.ascii_of_nat 32))) (dotted ns)
                = true).
  { apply dotted_all_chars; [done|]. intros z. by apply numeral_no_sep. }
  intros [->|[r ->]].
  - replace (String.append (dotted ns) "") with (dotted ns).
    + by rewrite split_char_none.
    + generalize (dotted ns). intros t. induction t as [|c t IH]; [done|].
      change (String c t = String c (String.append t "")). by rewrite <- IH.
  - by rewrite split_char_app.
Qed.

Lemma padded_nonneg ns : Forall (fun z => 0 ≤ z) ns → Forall (fun z => 0 ≤ z) (padded ns).
Proof.
  intros Hns. unfold padded. apply Forall_app. split; [done|].
  generalize (3 - length ns)%nat. intros n. induction n; cbn; by constructor.
Qed.

(** The integer of a version written as numerals joined by points. *)
Lemma vint_of_dotted ns tail :
  ns ≠ [] → Forall (fun z => 0 ≤ z) ns → version_tail tail →
  vint_of (String.append (dotted ns) tail) = Ok (weighted_sum 0 (rev (padded ns))).
Proof.
  intros Hne Hns Ht. unfold vint_of.
  rewrite first_word_dotted by done.
  rewrite version_chars_kept
    by (apply dotted_all_chars; [done|apply numeral_kept]).
  rewrite pad_dotted by done.
  rewrite split_dotted by (unfold padded; by destruct ns).
  by rewrite int10_all_numerals by (by apply padded_nonneg).
Qed.

Lemma vint_three (a b c : Z) : weighted_sum 0 (rev (padded [a; b; c])) = a * 10000 + b * 100 + c.
Proof. cbn. lia. Qed.

Lemma uint_of_string_digits x d :
  NilEmpty.uint_of_string x = Some d → all_digits x = true.
Proof.
  revert d. induction x as [|c x IH]; intros d Hd; [done|].
  cbn [NilEmpty.uint_of_string] in Hd.
  destruct (NilEmpty.uint_of_string x) as [d0|] eqn:E; [|done].
  cbn [all_digits]. rewrite (IH d0 eq_refl), andb_true_r.
  destruct (uint_of_char_spec c d0 d Hd) as [[-> _]|[[-> _]|[[-> _]|[[-> _]|[[-> _]|
    [[-> _]|[[-> _]|[[-> _]|[[-> _]|[-> _]]]]]]]]]]; reflexivity.
Qed.

Lemma int10_ok x n : int10 x = Ok n → x ≠ "" ∧ all_digits x = true.
Proof.
  unfold int10. destruct x as [|c x]; [done|].
  destruct (NilEmpty.uint_of_string (String c x)) as [d|] eqn:E; [|done].
  intros _. split; [done|]. by apply (uint_of_string_digits _ d).
Qed.

Lemma int10_raise x e : int10 x = Raise e → e = invalid_literal.
Proof.
  unfold int10. destruct x as [|c x]; [by inversion 1|].
  destruct (NilEmpty.uint_of_string _); [done|by inversion 1].
Qed.

Lemma int10_all_ok xs l :
  int10_all xs = Ok l → Forall (fun x => x ≠ "" ∧ all_digits x = true) xs.
Proof.
  revert l. induction xs as [|x xs IH]; intros l Hl; [constructor|].
  cbn [int10_all] in Hl.
  destruct (int10 x) as [n|] eqn:E; [|done].
  destruct (int10_all xs) as [l'|]; [|done].
  constructor; [by apply (int10_ok x n)|by apply (IH l')].
Qed.

Lemma int10_all_raise xs e : int10_all xs = Raise e → e = invalid_literal.
Proof.
  induction xs as [|x xs IH]; [done|]. cbn [int10_all].
  destruct (int10 x) as [n|e'] eqn:E.
  - destruct (int10_all xs); [done|]. inversion 1. subst. by apply IH.
  - inversion 1. subst. by apply (int10_raise x).
Qed.

(** A test that holds for the separator and for every component holds for
    the whole string. *)
Lemma split_all_chars (p : Ascii.ascii → bool) sep s :
  p sep = true →
  Forall (fun x => all_chars p x = true) (split_char sep s) →
  all_chars p s = true.
Proof.
  intros Hsep. induction s as [|c s IH]; [done|].
  cbn [split_char all_chars].
  destruct (Ascii.eqb c sep) eqn:E.
  - apply Ascii.eqb_eq in E. subst c. intros Hf. inversion Hf; subst.
    rewrite Hsep. by apply IH.
  - pose proof (split_char_nonempty sep s) as Hne.
    destruct (split_char sep s) as [|h t]; [done|].
    intros Hf. inversion Hf as [|? ? Hh Ht]; subst. cbn [all_chars] in Hh.
    apply andb_prop in Hh as [Hc Hh]. rewrite Hc. apply IH. by constructor.
Qed.

Lemma pad_version_app n val : ∃ suffix, pad_version n val = String.append val suffix.
Proof.
  revert val. induction n as [|n IH]; intros val.
  - exists "". induction val as [|c t IHt]; [done|].
    change (String c t = String c (String.append t "")). by rewrite <- IHt.
  - cbn [pad_version]. destruct (_ <? _)%nat.
    + destruct (IH (String.append val ".0")) as [suffix ->].
      exists (String.append ".0" suffix). by rewrite append_assoc.
    + exists "". induction val as [|c t IHt]; [done|].
      change (String c t = String c (String.append t "")). by rewrite <- IHt.
Qed.

Lemma accepted_not_refused c :
  is_digit c || Ascii.eqb c (Ascii.ascii_of_nat 46) = true → refused_char c = false.
Proof. by destruct c as [[] [] [] [] [] [] [] []]. Qed.

Lemma dropped_not_refused c :
  py_isdigit c || version_punct c = false → refused_char c = false.
Proof.
  intros [Hd Hp]%orb_false_elim. unfold refused_char. by rewrite Hd, Hp.
Qed.

Lemma version_chars_refused w :
  all_chars (fun c => is_digit c || Ascii.eqb c (Ascii.ascii_of_nat 46)) (version_chars w)
  = true →
  all_chars (fun c => negb (refused_char c)) w = true.
Proof.
  induction w as [|c w IH]; [done|]. cbn [version_chars all_chars].
  destruct (py_isdigit c || version_punct c) eqn:Hk.
  - cbn [all_chars]. intros [Hc Hw]%andb_prop.
    by rewrite (accepted_not_refused c Hc), (IH Hw).
  - intros Hw. by rewrite (dropped_not_refused c Hk), (IH Hw).
Qed.

(** When the integer of a version is computed, its first word has no
    character that [int] refuses. *)
Lemma vint_of_ok_chars version n :
  vint_of version = Ok n →
  all_chars (fun c => negb (refused_char c)) (first_word version) = true.
Proof.
  unfold vint_of. fold (first_word version). intros Hv.
  destruct (int10_all _) as [l|] eqn:E; [|done]. clear Hv.
  apply int10_all_ok in E.
  apply version_chars_refused.
  destruct (pad_version_app 2 (version_chars (first_word version))) as [suffix Hs].
  rewrite Hs in E.
  assert (Hall : all_chars (fun c => is_digit c || Ascii.eqb c (Ascii.ascii_of_nat 46))
                   (String.append (version_chars (first_word version)) suffix) = true).
  { apply (split_all_chars _ (Ascii.ascii_of_nat 46)); [done|].
    eapply Forall_impl; [exact E|]. intros x [_ Hx]. cbn beta.
    rewrite all_digits_chars in Hx.
    apply (all_chars_impl is_digit); [|done]. intros c Hc. by rewrite Hc. }
  rewrite all_chars_app in Hall. by apply andb_prop in Hall as [Hall _].
Qed.

End VersionFacts.

(** ** The branch [/version] *)

Section VersionBranch.
Context {S : Type}.
Context `{!ClientPoll S, !JsonDumps, !ParseVersion}.
Implicit Types (st : FacadeSt S).

(** X12: the branch [/version] on a version written as numbers joined by
    points, alone or followed by a space and more text: the reply carries
    the text as it is and, as [vint], the components read as digits in base
    100 after padding to three components; so [A.B.C] gives
    [A*10000 + B*100 + C], [A.B] gives [A*10000 + B*100] and [A] gives
    [A*10000]. *)
Theorem version_branch_vint ns tail d st st1 :
  ns ≠ [] → Forall (fun z => 0 ≤ z) ns → version_tail tail →
  call_client (fun c => client_poll c "/api/status" false false false) st
  = (Ok (PDict d), st1) →
  dict_get "version" d = Some (PStr (String.append (dotted ns) tail)) →
  version_branch st
  = (Ok (PStr (json_dumps false
                 (PDict [("version", PStr (String.append (dotted ns) tail));
                         ("vint", PInt (weighted_sum 0 (rev (padded ns))))]))), st1)
  ∧ (∀ a b c, ns = [a; b; c] →
       weighted_sum 0 (rev (padded ns)) = a * 10000 + b * 100 + c)
  ∧ (∀ a b, ns = [a; b] → weighted_sum 0 (rev (padded ns)) = a * 10000 + b * 100)
  ∧ (∀ a, ns = [a] → weighted_sum 0 (rev (padded ns)) = a * 10000).
Proof.
  intros Hne Hns Ht Hp Hd. split; [|repeat split; intros; subst; cbn; lia].
  unfold version_branch, version, status, bind. cbn [negb]. rewrite Hp. cbn.
  unfold dict_mem. rewrite Hd. cbn.
  by rewrite (vint_of_dotted ns tail Hne Hns Ht).
Qed.

(** X13: for versions of three components of which the second and the third
    are below 100, [vint] orders the versions as their components do, the
    first component first. *)
Theorem vint_order (a b c a' b' c' : Z) tail tail' :
  0 ≤ a → 0 ≤ b < 100 → 0 ≤ c < 100 →
  0 ≤ a' → 0 ≤ b' < 100 → 0 ≤ c' < 100 →
  version_tail tail → version_tail tail' →
  ∃ n n',
    vint_of (String.append (dotted [a; b; c]) tail) = Ok n
    ∧ vint_of (String.append (dotted [a'; b'; c']) tail') = Ok n'
    ∧ (n < n' ↔ a < a' ∨ (a = a' ∧ (b < b' ∨ (b = b' ∧ c < c')))).
Proof.
  intros Ha Hb Hc Ha' Hb' Hc' Ht Ht'.
  exists (a * 10000 + b * 100 + c), (a' * 10000 + b' * 100 + c').
  rewrite <- !vint_three.
  split; [|split].
  - apply vint_of_dotted; [done| |done]. repeat constructor; lia.
  - apply vint_of_dotted; [done| |done]. repeat constructor; lia.
  - rewrite !vint_three. lia.
Qed.

(** X14: the integer of a version is computed or [ValueError] is raised,
    nothing else. It is raised when the first word of the text has a slash,
    a backslash or a superscript digit, which the filter keeps and [int]
    refuses, and when the first word has no digit and no point at all (an
    empty text, a text that starts with a space, a name). *)
Theorem vint_of_value_error version :
  ((∃ n, vint_of version = Ok n) ∨ vint_of version = Raise invalid_literal)
  ∧ (all_chars (fun c => negb (refused_char c)) (first_word version) = false →
     vint_of version = Raise invalid_literal)
  ∧ (version_chars (first_word version) = "" →
     vint_of version = Raise invalid_literal).
Proof.
  assert (Hcases : (∃ n, vint_of version = Ok n) ∨ vint_of version = Raise invalid_literal).
  { unfold vint_of. destruct (int10_all _) as [l|e] eqn:E; [left; by eexists|].
    right. by rewrite (int10_all_raise _ _ E). }
  split; [exact Hcases|]. split.
  - intros Hbad. destruct Hcases as [[n Hn]|Hcases]; [|done].
    apply vint_of_ok_chars in Hn. congruence.
  - intros Hempty. unfold vint_of. fold (first_word version). by rewrite Hempty.
Qed.

(** X15: without a version the branch [/version] answers [SolarOnly] with
    the integer 0: when [/api/status] has no payload, and when its payload
    is a dictionary without the key [version]. *)
Theorem version_branch_solar_only payload st st1 :
  call_client (fun c => client_poll c "/api/status" false false false) st
  = (Ok payload, st1) →
  payload = PNone ∨ (∃ d, payload = PDict d ∧ dict_get "version" d = None) →
  fst (version_branch st)
  = Ok (PStr (json_dumps false (PDict [("version", PStr "SolarOnly"); ("vint", PInt 0)]))).
Proof.
  intros Hp Hcase. unfold version_branch, version, status, bind. cbn [negb].
  rewrite Hp. destruct Hcase as [->|(d & -> & Hd)]; [done|].
  cbn. unfold dict_mem. by rewrite Hd.
Qed.

End VersionBranch.

(** ** Numbered keys *)

(** The dictionary of the values [vs] under the keys [PW<idx><suffix>],
    [PW<idx+1><suffix>], and so on, in this order. *)
Fixpoint numbered (idx : Z) (suffix : string) (vs : list pyval) : list (string * pyval) :=
  match vs with
  | [] => []
  | v :: rest => (pwkey idx suffix, v) :: numbered (idx + 1) suffix rest
  end.

Section NumberedKeys.
Implicit Types (s t u : string) (d : list (string * pyval)) (k : string) (v : pyval).

Lemma append_same_length s t u u' :
  String.length s = String.length t →
  String.append s u = String.append t u' → s = t.
Proof.
  revert t. induction s as [|c s IH]; intros [|c' t] Hl Heq; try done.
  change (String c (String.append s u) = String c' (String.append t u')) in Heq.
  inversion Heq. subst. f_equal. apply IH; [|done]. cbn in Hl. lia.
Qed.

Lemma length_append s t :
  String.length (String.append s t) = (String.length s + String.length t)%nat.
Proof.
  induction s as [|c s IH]; [done|].
  change (Datatypes.S (String.length (String.append s t))
          = Datatypes.S (String.length s + String.length t)).
  by rewrite IH.
Qed.

Lemma append_inj_r s t u : String.append s u = String.append t u → s = t.
Proof.
  intros Heq. apply (append_same_length s t u u); [|done].
  apply (f_equal String.length) in Heq. rewrite !length_append in Heq. lia.
Qed.

(** Two indices have the same key only when they are the same. *)
Lemma pwkey_inj i j suffix : 0 ≤ i → 0 ≤ j → pwkey i suffix = pwkey j suffix → i = j.
Proof.
  intros Hi Hj Heq. unfold pwkey in Heq.
  change (String.append "PW" (String.append (Z_to_string i) suffix)
          = String.append "PW" (String.append (Z_to_string j) suffix)) in Heq.
  inversion Heq as [Heq'].
  change (String.append (Z_to_string i) suffix = String.append (Z_to_string j) suffix)
    in Heq'.
  apply append_inj_r in Heq'. by apply Z_to_string_inj.
Qed.

Lemma dict_set_fresh k v d : dict_get k d = None → dict_set k v d = (d ++ [(k, v)])%list.
Proof.
  induction d as [|[k' v'] d IH]; [done|]. cbn [dict_get dict_set app].
  destruct (String.eqb k k'); [done|]. intros Hk. by rewrite IH.
Qed.

Lemma dict_get_snoc k k' v d :
  dict_get k d = None → k ≠ k' → dict_get k (d ++ [(k', v)])%list = None.
Proof.
  intros Hd Hne. induction d as [|[k0 v0] d IH]; cbn [dict_get app] in *.
  - apply String.eqb_neq in Hne. by rewrite Hne.
  - destruct (String.eqb k k0); [done|]. by apply IH.
Qed.

Lemma dict_get_NoDup (t : list (string * pyval)) k v :
  NoDup (map fst ((k, v) :: t)) → dict_get k ((k, v) :: t) = Some v.
Proof. intros _. cbn. by rewrite String.eqb_refl. Qed.

(** The closed form of the loop of [/temps/pw]. *)
Lemma pwtemp_loop_numbered temps todo vs idx acc :
  0 ≤ idx →
  Forall2 (fun i v => py_subscript temps i = Ok v) todo vs →
  (∀ j, idx ≤ j → dict_get (pwkey j "_temp") acc = None) →
  pwtemp_loop temps todo idx acc = Ok (acc ++ numbered idx "_temp" vs)%list.
Proof.
  intros Hidx Hf. revert idx acc Hidx.
  induction Hf as [|i v todo vs Hi _ IH]; intros idx acc Hidx Hacc.
  - cbn. by rewrite app_nil_r.
  - cbn [pwtemp_loop numbered]. rewrite Hi.
    fold (pwkey idx "_temp").
    rewrite dict_set_fresh by (apply Hacc; lia).
    rewrite IH; [by rewrite <- app_assoc|lia|].
    intros j Hj. apply dict_get_snoc; [apply Hacc; lia|].
    intros Heq. apply pwkey_inj in Heq; lia.
Qed.

Lemma keys_subscript (t : list (string * pyval)) :
  NoDup (map fst t) →
  Forall2 (fun i v => py_subscript (PDict t) i = Ok v)
    (map (fun kv => PStr (fst kv)) t) (map snd t).
Proof.
  intros Hnd.
  assert (G : ∀ l : list (string * pyval), (∀ k v, In (k, v) l → dict_get k t = Some v) →
              Forall2 (fun i v => py_subscript (PDict t) i = Ok v)
                (map (fun kv => PStr (fst kv)) l) (map snd l)).
  { induction l as [|[k v] l IH]; intros Hu; cbn; constructor.
    - cbn. by rewrite (Hu k v (or_introl eq_refl)).
    - apply IH. intros k' v' Hin. apply Hu. by right. }
  apply G. clear G. induction t as [|[k0 v0] t IH]; [done|].
  intros k v Hin. cbn [dict_get]. cbn in Hnd. apply NoDup_cons in Hnd as [Hk0 Hnd].
  destruct Hin as [Hin|Hin].
  - inversion Hin. subst. by rewrite String.eqb_refl.
  - destruct (String.eqb k k0) eqn:E; [|by apply IH].
    apply String.eqb_eq in E. subst k0. exfalso. apply Hk0.
    apply list_elem_of_In. change k with (fst (k, v)). by apply in_map.
Qed.

Lemma dict_set_keys_NoDup k v d : NoDup (map fst d) → NoDup (map fst (dict_set k v d)).
Proof.
  intros Hnd. destruct (dict_get k d) as [x|] eqn:E.
  - assert (Hk : map fst (dict_set k v d) = map fst d); [|by rewrite Hk].
    clear Hnd. revert E. induction d as [|[k' v'] d IH]; [done|]. cbn [dict_get dict_set].
    destruct (String.eqb k k') eqn:Ek.
    + apply String.eqb_eq in Ek. by subst.
    + intros E. cbn. by rewrite IH.
  - rewrite dict_set_fresh by done. rewrite map_app. cbn.
    apply NoDup_app. split; [done|]. split; [|apply NoDup_singleton].
    intros x Hx ->%list_elem_of_singleton.
    apply list_elem_of_In, in_map_iff in Hx as ([k' v'] & Hk' & Hin). cbn in Hk'. subst k'.
    clear Hnd. induction d as [|[k0 v0] d IH]; [done|]. cbn [dict_get] in E.
    destruct (String.eqb k k0) eqn:Ek; [done|]. apply String.eqb_neq in Ek.
    destruct Hin as [Hin|Hin]; [congruence|by apply IH].
Qed.

Lemma temps_loop_NoDup devices todo acc (res : list (string * pyval)) :
  temps_loop devices todo acc = Ok res → NoDup (map fst acc) → NoDup (map fst res).
Proof.
  revert acc. induction todo as [|i todo IH]; intros acc Ht Hnd.
  - inversion Ht. by subst.
  - destruct i as [| | | |device| |]; try discriminate. cbn [temps_loop] in Ht.
    destruct (String.prefix "TETHC" device); [|by apply (IH acc)].
    destruct (py_getitem devices device) as [dev|]; [|done].
    destruct (py_get dev "THC_AmbientTemp") as [temp|]; [|done].
    apply (IH _ Ht). by apply dict_set_keys_NoDup.
Qed.

End NumberedKeys.

(** ** The handler *)

Section HandlerVocabulary.
Context {S : Type}.
Context `{!ClientPoll S, !JsonDumps}.

(** The branch of a request that is answered with [pw.poll(q)]. *)
Definition poll_branch (q : string) : Py (ServerSt S) (pyval * string) :=
  m <- on_pw (poll q false false false false) ;; ret (m, json_type).

(** The API path whose payload is the answer to a request for [p] as it
    is: the two short names, and the paths of [ALLOWLIST] other than
    [/api/troubleshooting/problems], which has a default. *)
Definition proxied (p : string) : option string :=
  if String.eqb p "/aggregates" || String.eqb p "/api/meters/aggregates" then
    Some "/api/meters/aggregates"
  else if String.eqb p "/soe" then Some "/api/system_status/soe"
  else if String.eqb p "/api/troubleshooting/problems" then None
  else if existsb (String.eqb p) ALLOWLIST then Some p
  else None.

(** A computation that never returns [None]. *)
Definition never_none {St} (c : Py St pyval) : Prop :=
  ∀ st m st', c st = (Ok m, st') → m ≠ PNone.

End HandlerVocabulary.

Section ServerExtras.
Context {S : Type}.
Context `{!ClientPoll S, !ClientPower S, !ClientVitals S, !ClientFetchpower S,
          !ClientTimeRemaining S}.
Context `{!JsonDumps, !FloatOfString, !ParseVersion}.
Context `{!StringsFromVitals, !StringsFromSolar, !BlocksFrom}.
Context `{!TimedeltaStr, !RenderHelp, !Reshaped S, !ServeStatic S}.
Context (cookiesuffix : string).
Implicit Types (st : ServerSt S) (req : Request) (p : ProxyStats).

(** [get_value] on a dictionary is [a.get(key)]: it never raises, and
    a missing key gives [None] and one debug record, a present key leaves
    the log as it was. *)
Lemma get_value_of_dictionary d key (f : FacadeSt S) :
  fst (get_value (PDict d) key f) = py_get (PDict d) key
  ∧ snd (get_value (PDict d) key f)
    = (if dict_mem key d then f
       else MkFacadeSt (self f) (logs f ++ [DebugMissingKey key])).
Proof.
  unfold get_value, bind, lift_outcome. cbn. unfold dict_mem.
  by destruct (dict_get key d).
Qed.

(** The paths answered with a poll are routed to it: no earlier test of the
    chain takes them. *)
Lemma proxied_routed req q :
  proxied (path req) = Some q → api_message req = Some (poll_branch q).
Proof.
  unfold proxied. destruct req as [pth nw mr]. cbn [path].
  destruct (String.eqb pth "/aggregates" || String.eqb pth "/api/meters/aggregates") eqn:E1.
  { intros Hq. inversion Hq. subst q. unfold api_message. cbn [path]. by rewrite E1. }
  destruct (String.eqb pth "/soe") eqn:E2.
  { intros Hq. inversion Hq. subst q. unfold api_message. cbn [path]. by rewrite E1, E2. }
  destruct (String.eqb pth "/api/troubleshooting/problems") eqn:E3; [done|].
  destruct (existsb (String.eqb pth) ALLOWLIST) eqn:E4; [|done].
  intros Hq. inversion Hq. subst q. clear Hq E1 E2.
  apply existsb_exists in E4 as (x & Hin & Hx). apply String.eqb_eq in Hx. subst x.
  unfold ALLOWLIST in Hin. cbn [In] in Hin.
  repeat (destruct Hin as [<-|Hin]; [try done|]); done.
Qed.

Lemma do_GET_polled req q st payload f' :
  proxied (path req) = Some q →
  poll q false false false false (facade st) = (Ok payload, f') →
  do_GET cookiesuffix req st
  = (message <- count (path req) payload ;; send json_type message)
      (MkServerSt f' (proxystats st)).
Proof.
  intros Hq Hp. unfold do_GET. rewrite (proxied_routed req q Hq).
  unfold poll_branch. unfold bind at 1 2. by rewrite (on_pw_run _ st _ _ Hp).
Qed.

(** X16: a payload that is a string is passed through: a request for one of
    the two short names or for a path of the allow list (the problems path
    apart), whose poll returns a string other than ["ERROR!"], is answered
    with that string as the body and its length as [Content-Length], and is
    counted in [gets] and in the hit counter of the requested path. *)
Theorem string_payload_passed_through req q st s f' :
  proxied (path req) = Some q →
  poll q false false false false (facade st) = (Ok (PStr s), f') →
  String.eqb s "ERROR!" = false →
  do_GET cookiesuffix req st
  = (Ok (MkResponse 200 (api_headers json_type (String.length s)) true (Some s)),
     MkServerSt f' (counted_get (path req) (proxystats st))).
Proof.
  intros Hq Hp Hs. rewrite (do_GET_polled req q st _ f' Hq Hp).
  by rewrite count_send_string.
Qed.

(** X17: a poll that returns [None] is answered with the body ["TIMEOUT!"]
    and counted in [timeout] alone: [gets], [errors] and the hit counters
    stay as they were. *)
Theorem absent_payload_counted_as_timeout req q st f' :
  proxied (path req) = Some q →
  poll q false false false false (facade st) = (Ok PNone, f') →
  do_GET cookiesuffix req st
  = (Ok (MkResponse 200 (api_headers json_type 8) true (Some "TIMEOUT!")),
     MkServerSt f' (set_timeout (st_timeout (proxystats st) + 1) (proxystats st))).
Proof.
  intros Hq Hp. by rewrite (do_GET_polled req q st _ f' Hq Hp).
Qed.

(** X18: a payload that is a dictionary or a list is never written: the
    request is counted in [gets] and in its hit counter, the headers are
    sent with the number of entries as [Content-Length], the conversion to
    bytes fails, the failure is logged and the response has no body. *)
Theorem structured_payload_not_written req q st payload f' :
  proxied (path req) = Some q →
  poll q false false false false (facade st) = (Ok payload, f') →
  (∃ d, payload = PDict d) ∨ (∃ l, payload = PList l) →
  ∃ n, py_len payload = Ok n
       ∧ do_GET cookiesuffix req st
         = (Ok (MkResponse 200 (api_headers json_type n) true None),
            MkServerSt (MkFacadeSt (self f') (logs f' ++ [ErrorSocketBroken]))
              (counted_get (path req) (proxystats st))).
Proof.
  intros Hq Hp Hpay. rewrite (do_GET_polled req q st _ f' Hq Hp).
  destruct Hpay as [[d ->]|[l ->]]; eexists; (split; [reflexivity|]);
    unfold count, bind, counted_get; cbn;
    by destruct (dict_get (path req) (st_uri (proxystats st))).
Qed.

Lemma temps_result_NoDup (f f1 : FacadeSt S) res :
  temps false f = (Ok (PDict res), f1) → NoDup (map fst res).
Proof.
  unfold temps, bind, lift_outcome. intros Ht.
  destruct (vitals false f) as [[v|e] f']; [|done].
  destruct (py_iter _) as [todo|]; [|done].
  destruct (temps_loop _ _ _) as [r|] eqn:Hl; [|done].
  inversion Ht. subst. apply (temps_loop_NoDup _ _ _ _ Hl). constructor.
Qed.

(** X19: [/temps/pw] renumbers the temperatures: when [pw.temps()] returns
    a dictionary, the reply is the dictionary of the same values in the same
    order under the keys [PW1_temp], [PW2_temp], and so on, one for each
    entry; an empty dictionary gives an empty one. *)
Theorem temps_pw_numbered st res f1 :
  temps false (facade st) = (Ok (PDict res), f1) →
  temps_pw_message st
  = (Ok (PStr (json_dumps false (PDict (numbered 1 "_temp" (map snd res))))),
     MkServerSt f1 (proxystats st)).
Proof.
  intros Ht. pose proof (temps_result_NoDup _ _ _ Ht) as Hnd.
  unfold temps_pw_message. unfold bind at 1. rewrite (on_pw_run _ st _ _ Ht).
  unfold bind, lift_outcome. cbn [py_iter].
  rewrite (pwtemp_loop_numbered (PDict res) _ (map snd res) 1 []);
    [done|lia|by apply keys_subscript|done].
Qed.

End ServerExtras.

(** ** The handler with its reshaping branches *)

Section NeverNone.
Context {St : Type}.

Lemma nn_ret (v : pyval) : v ≠ PNone → never_none (St:=St) (ret v).
Proof. intros Hv st m st' Hr. inversion Hr. by subst. Qed.

Lemma nn_raise e : never_none (St:=St) (raise e).
Proof. by intros st m st' Hr. Qed.

Lemma nn_bind {A} (c : Py St A) (k : A → Py St pyval) :
  (∀ x, never_none (k x)) → never_none (bind c k).
Proof.
  intros Hk st m st' Hr. unfold bind in Hr.
  destruct (c st) as [[x|e] st1]; [|done]. by apply (Hk x st1 m st').
Qed.

(** A computation that raises from every state. *)
Definition fails {A} (c : Py St A) : Prop := ∀ st, is_ok (fst (c st)) = false.

Lemma fails_bind_k {A B} (c : Py St A) (k : A → Py St B) :
  (∀ x, fails (k x)) → fails (bind c k).
Proof.
  intros Hk st. unfold bind. destruct (c st) as [[x|e] st1]; [apply Hk|done].
Qed.

Lemma is_ok_bind {A B} (c : Py St A) (k : A → Py St B) st :
  is_ok (fst (c st)) = false → is_ok (fst (bind c k st)) = false.
Proof. unfold bind. by destruct (c st) as [[x|e] st1]. Qed.

End NeverNone.

Ltac nn_step :=
  match goal with
  | |- never_none (bind _ _) => apply nn_bind; intros ?
  | |- never_none (ret _) => by apply nn_ret
  | |- never_none (raise _) => apply nn_raise
  | |- never_none (if ?b then _ else _) => destruct b
  | |- never_none (match ?x with _ => _ end) => destruct x
  end.

Section HandlerFacts.
Context {S : Type}.
Context `{!ClientPoll S, !ClientPower S, !ClientVitals S, !ClientFetchpower S,
          !ClientTimeRemaining S}.
Context `{!JsonDumps, !FloatOfString, !ParseVersion, !IntOfString}.
Context `{!StringsFromVitals, !StringsFromSolar, !BlocksFrom}.
Context `{!TimedeltaStr, !RenderHelp, !ServeStatic S}.
Context (alerts_pw : Py (FacadeSt S) pyval).
Context (cookiesuffix : string).
Implicit Types (st : ServerSt S) (req : Request) (p : ProxyStats).

(** The handler as the source has it: the branches [/freq], [/pod] and
    [/version] as embedded, the branch [/alerts/pw] as given. *)
#[local] Instance handler_paths : Reshaped S := handler_reshaped alerts_pw.

Lemma nn_on_pw (c : Py (FacadeSt S) pyval) : never_none c → never_none (on_pw c).
Proof.
  intros Hc st m st' Hr. unfold on_pw in Hr.
  destruct (c (facade st)) as [r f'] eqn:E. inversion Hr. subst.
  by apply (Hc (facade st) m f').
Qed.

Lemma nn_version_branch : never_none (version_branch (S:=S)).
Proof. unfold version_branch. repeat nn_step. Qed.

Lemma nn_freq_branch : never_none (freq_branch (S:=S)).
Proof. unfold freq_branch. repeat nn_step. Qed.

Lemma nn_pod_branch : never_none (pod_branch (S:=S)).
Proof. unfold pod_branch. repeat nn_step. Qed.

Lemma nn_csv_message : never_none (csv_message (S:=S)).
Proof. unfold csv_message. repeat nn_step. Qed.

Lemma nn_temps_pw_message : never_none (temps_pw_message (S:=S)).
Proof. unfold temps_pw_message. repeat nn_step. Qed.

Lemma nn_clear_stats req : never_none (clear_stats (S:=S) req).
Proof. unfold clear_stats. repeat nn_step. Qed.

Lemma py_or_not_none a b : b ≠ PNone → py_or a b ≠ PNone.
Proof.
  intros Hb. unfold py_or. destruct (py_truthy a) eqn:E; [|done]. by destruct a.
Qed.

Lemma answers_bind {A} (c : Py (ServerSt S) A) (f : A → pyval) (ct : string) st mc st1 :
  (∀ x, f x ≠ PNone) →
  (x <- c ;; ret (f x, ct)) st = (Ok mc, st1) → fst mc ≠ PNone.
Proof.
  intros Hf Hb. unfold bind in Hb. destruct (c st) as [[x|e] st2]; [|done].
  inversion Hb. subst. apply Hf.
Qed.

Lemma answers_nn (c : Py (ServerSt S) pyval) (ct : string) st mc st1 :
  never_none c →
  (m <- c ;; ret (m, ct)) st = (Ok mc, st1) → fst mc ≠ PNone.
Proof.
  intros Hc Hb. unfold bind in Hb. destruct (c st) as [[x|e] st2] eqn:E; [|done].
  inversion Hb. subst. by apply (Hc st x st1).
Qed.

Lemma answers_stats (c : Py (ServerSt S) unit) (f : ProxyStats → string) (ct : string)
    st mc st1 :
  (c ;;; x <- get_stats ;; ret (PStr (f x), ct)) st = (Ok mc, st1) → fst mc ≠ PNone.
Proof.
  intros Hb. unfold bind in Hb. destruct (c st) as [[x|e] st2]; [|done].
  cbn in Hb. inversion Hb. by subst.
Qed.

Lemma nn_reshaped pth :
  reshaped_path pth = true → pth ≠ "/alerts/pw" → never_none (reshaped pth).
Proof.
  intros Hr Hne. unfold reshaped, handler_paths, handler_reshaped.
  destruct (String.eqb pth "/freq") eqn:E1; [apply nn_freq_branch|].
  destruct (String.eqb pth "/pod") eqn:E2; [apply nn_pod_branch|].
  destruct (String.eqb pth "/version") eqn:E3; [apply nn_version_branch|].
  exfalso. unfold reshaped_path in Hr. cbn [existsb] in Hr.
  rewrite E1, E2, E3 in Hr. apply String.eqb_neq in Hne. by rewrite Hne in Hr.
Qed.

(** Apart from the polled paths and [/alerts/pw], every branch of the chain
    gives a message that is not [None]. *)
Lemma branch_answers req branch st mc st1 :
  api_message req = Some branch →
  proxied (path req) = None →
  path req ≠ "/alerts/pw" →
  branch st = (Ok mc, st1) → fst mc ≠ PNone.
Proof.
  unfold api_message, proxied. destruct req as [pth nw mr]. cbn [path].
  intros Hapi Hprox Hne Hb.
  destruct (String.eqb pth "/aggregates" || String.eqb pth "/api/meters/aggregates");
    [done|].
  destruct (String.eqb pth "/soe"); [done|].
  destruct (String.eqb pth "/api/system_status/soe").
  { inversion Hapi. subst branch.
    apply (answers_bind _ (fun l => PStr (json_dumps false (PDict [("percentage", l)])))
             _ _ _ _ ltac:(done) Hb). }
  destruct (String.eqb pth "/api/system_status/grid_status") eqn:Egs.
  { apply String.eqb_eq in Egs. by subst pth. }
  destruct (String.eqb pth "/csv").
  { inversion Hapi. subst branch. apply (answers_nn _ _ _ _ _ nn_csv_message Hb). }
  destruct (String.eqb pth "/vitals").
  { inversion Hapi. subst branch.
    apply (answers_bind _ (fun v => py_or v (PDict [])) _ _ _ _
             ltac:(intros; by apply py_or_not_none) Hb). }
  destruct (String.eqb pth "/strings").
  { inversion Hapi. subst branch.
    apply (answers_bind _ (fun v => py_or v (PDict [])) _ _ _ _
             ltac:(intros; by apply py_or_not_none) Hb). }
  destruct (String.eqb pth "/stats").
  { inversion Hapi. subst branch.
    apply (answers_stats _ (fun x => json_dumps false (stats_dict x)) _ _ _ _ Hb). }
  destruct (String.eqb pth "/stats/clear").
  { inversion Hapi. subst branch. apply (answers_nn _ _ _ _ _ (nn_clear_stats _) Hb). }
  destruct (String.eqb pth "/temps").
  { inversion Hapi. subst branch.
    apply (answers_bind _ (fun v => py_or v (PDict [])) _ _ _ _
             ltac:(intros; by apply py_or_not_none) Hb). }
  destruct (String.eqb pth "/temps/pw").
  { inversion Hapi. subst branch. apply (answers_nn _ _ _ _ _ nn_temps_pw_message Hb). }
  destruct (String.eqb pth "/alerts").
  { inversion Hapi. subst branch.
    apply (answers_bind _ (fun v => py_or v (PList [])) _ _ _ _
             ltac:(intros; by apply py_or_not_none) Hb). }
  destruct (reshaped_path pth) eqn:Er.
  { inversion Hapi. subst branch.
    apply (answers_nn _ _ _ _ _ (nn_on_pw _ (nn_reshaped pth Er Hne)) Hb). }
  destruct (String.eqb pth "/help").
  { inversion Hapi. subst branch.
    apply (answers_stats _ (fun x => render_help x nw) _ _ _ _ Hb). }
  destruct (String.eqb pth "/api/troubleshooting/problems").
  { inversion Hapi. subst branch.
    apply (answers_bind _ (fun v => py_or v (PStr default_problems)) _ _ _ _
             ltac:(intros; by apply py_or_not_none) Hb). }
  by destruct (existsb (String.eqb pth) ALLOWLIST).
Qed.

Lemma count_keeps_timeout q m st :
  m ≠ PNone →
  st_timeout (proxystats (snd (count q m st))) = st_timeout (proxystats st).
Proof.
  intros Hm. unfold count, bind.
  destruct m; try done; cbn;
    try (by destruct (dict_get q (st_uri (proxystats st)))).
  destruct (String.eqb s "ERROR!"); cbn; [done|].
  by destruct (dict_get q (st_uri (proxystats st))).
Qed.

Lemma clear_stats_keeps_timeout req st :
  st_timeout (proxystats (snd (clear_stats req st))) = st_timeout (proxystats st).
Proof. reflexivity. Qed.

Lemma branch_keeps_timeout req branch st :
  api_message req = Some branch →
  st_timeout (proxystats (snd (branch st))) = st_timeout (proxystats st).
Proof.
  intros Hapi. destruct (String.eqb (path req) "/stats/clear") eqn:E.
  - apply String.eqb_eq in E. unfold api_message in Hapi. rewrite E in Hapi.
    cbn in Hapi. inversion Hapi. subst branch. unfold bind.
    pose proof (clear_stats_keeps_timeout req st) as Hc.
    destruct (clear_stats req st) as [[m|e] st1]; exact Hc.
  - apply String.eqb_neq in E.
    destruct (kc_api_message req branch Hapi E st) as (_ & _ & Ht & _). exact Ht.
Qed.

(** X20: a timeout is counted only for a request that is answered with a
    poll as it is, or for [/alerts/pw]: whenever the handler answers another
    request (the scaled battery level, [/csv], [/vitals], [/strings],
    [/stats], [/temps], [/alerts], [/freq], [/pod], [/version], [/help],
    the problems path, a static file), the counter [timeout] is left as it
    was, whatever the gateway returned. *)
Theorem timeout_counted_only_for_polls req st r st' :
  do_GET cookiesuffix req st = (Ok r, st') →
  st_timeout (proxystats st') ≠ st_timeout (proxystats st) →
  proxied (path req) ≠ None ∨ path req = "/alerts/pw".
Proof.
  intros Hget Hchanged.
  destruct (proxied (path req)) as [q|] eqn:Hprox; [by left|].
  destruct (String.eqb (path req) "/alerts/pw") eqn:Ea;
    [right; by apply String.eqb_eq|].
  apply String.eqb_neq in Ea. exfalso. apply Hchanged. clear Hchanged.
  unfold do_GET in Hget. destruct (api_message req) as [branch|] eqn:Hapi.
  - pose proof (branch_keeps_timeout req branch st Hapi) as Hb.
    unfold bind in Hget.
    destruct (branch st) as [[mc|e] st1] eqn:Ebr; [|done].
    pose proof (branch_answers req branch st mc st1 Hapi Hprox Ea Ebr) as Hm.
    pose proof (count_keeps_timeout (path req) (fst mc) st1 Hm) as Hc.
    destruct (count (path req) (fst mc) st1) as [[m|e] st2]; [|done].
    destruct (kc_send (snd mc) m st2) as (_ & _ & Hs & _).
    rewrite Hget in Hs. cbn [snd] in *. congruence.
  - pose proof (static_branch_counts cookiesuffix req st) as Hs.
    rewrite Hget in Hs. cbn [snd] in Hs.
    destruct Hs as [(_ & _ & Ht & _)|(Hf & _)]; done.
Qed.

(** A request whose branch raises is not answered, and leaves the counters
    as they were. *)
Lemma do_GET_branch_raises req branch st :
  api_message req = Some branch →
  path req ≠ "/stats/clear" →
  is_ok (fst (branch st)) = false →
  is_ok (fst (do_GET cookiesuffix req st)) = false
  ∧ same_counters (proxystats st) (proxystats (snd (do_GET cookiesuffix req st))).
Proof.
  intros Hapi Hne Hb. unfold do_GET. rewrite Hapi.
  pose proof (kc_api_message req branch Hapi Hne st) as Hk.
  unfold bind. by destruct (branch st) as [[mc|e] st1].
Qed.

(** The flags of a battery block that [/pod] converts with [int]. *)
Definition pod_flags : list string :=
  ["off_grid"; "vf_mode"; "wobble_detected"; "charge_power_clamped"; "backup_ready"].

Lemma assign_rows_missing_flag b name idx rows out flag (f : FacadeSt S) :
  (∃ suffix, In (suffix, CInt flag) rows) →
  dict_get flag b = None →
  is_ok (fst (assign_rows (PDict b) name idx rows out f)) = false.
Proof.
  intros [suffix Hin] Hb. revert out f.
  induction rows as [|[sfx c] rows IH]; intros out f; [done|].
  cbn [assign_rows]. unfold bind.
  destruct (cell_value (PDict b) name c f) as [[v|e] f1] eqn:Ec; [|done].
  destruct Hin as [Hin|Hin]; [|by apply IH].
  inversion Hin. subst sfx c. exfalso.
  unfold cell_value, get_value, bind, lift_outcome in Ec. cbn in Ec.
  unfold dict_mem in Ec. rewrite Hb in Ec. by cbn in Ec.
Qed.

Lemma blocks_loop_missing_flag b flag rows blocks idx out (f : FacadeSt S) :
  (∃ suffix, In (suffix, CInt flag) rows) →
  In (PDict b) blocks →
  dict_get flag b = None →
  is_ok (fst (blocks_loop rows blocks idx out f)) = false.
Proof.
  intros Hrow Hin Hb. revert idx out f.
  induction blocks as [|block blocks IH]; intros idx out f; [done|].
  cbn [blocks_loop]. unfold bind.
  destruct Hin as [->|Hin].
  - pose proof (assign_rows_missing_flag b PNone idx rows out flag f Hrow Hb) as Ha.
    by destruct (assign_rows _ _ _ _ _ f) as [[o|e] f1].
  - destruct (assign_rows _ _ _ _ _ f) as [[o|e] f1]; [|done]. by apply IH.
Qed.

(** X21: [/pod] needs the five flags in every battery block: when one block
    of [battery_blocks] is a dictionary without [off_grid], [vf_mode],
    [wobble_detected], [charge_power_clamped] or [backup_ready], the
    conversion of the missing value raises, the request is not answered and
    no counter changes. *)
Theorem pod_block_needs_flags d b blocks flag nw mr st f1 :
  poll "/api/system_status" false false false false (facade st) = (Ok (PDict d), f1) →
  dict_get "battery_blocks" d = Some (PList blocks) →
  In (PDict b) blocks →
  In flag pod_flags →
  dict_get flag b = None →
  is_ok (fst (do_GET cookiesuffix (MkRequest "/pod" nw mr) st)) = false
  ∧ same_counters (proxystats st)
      (proxystats (snd (do_GET cookiesuffix (MkRequest "/pod" nw mr) st))).
Proof.
  intros Hp Hd Hin Hflag Hb.
  apply (do_GET_branch_raises _ (m <- on_pw (reshaped "/pod") ;; ret (m, json_type)));
    [done|done|].
  apply is_ok_bind. unfold on_pw.
  change (reshaped "/pod") with (pod_branch (S:=S)).
  assert (Hf : is_ok (fst (pod_branch (facade st))) = false);
    [|by destruct (pod_branch (facade st))].
  unfold pod_branch. unfold bind at 1. unfold system_status, bind at 1. rewrite Hp.
  destruct d as [|kv d']; [done|].
  cbn [py_or py_truthy]. apply is_ok_bind.
  unfold blocks_part, bind, lift_outcome.
  change (py_or (PDict (kv :: d')) (PDict [])) with (PDict (kv :: d')).
  cbn [py_contains py_getitem]. unfold dict_mem. rewrite Hd. cbn [py_iter].
  apply blocks_loop_missing_flag with (b := b) (flag := flag); [|done|done].
  unfold pod_flags in Hflag. cbn [In] in Hflag.
  destruct Hflag as [<-|[<-|[<-|[<-|[<-|[]]]]]]; eexists; unfold pod_block_rows;
    cbn [In]; tauto.
Qed.

(** X22: [/pod] without battery data: when [/api/system_status] has no
    payload, or one without [battery_blocks], and there are no vitals, the
    reply is the empty dictionary, and the time remaining and the reserve
    are not asked for. *)
Theorem pod_without_battery_data ss v (f f1 f2 : FacadeSt S) :
  poll "/api/system_status" false false false false f = (Ok ss, f1) →
  ss = PNone ∨ (∃ d, ss = PDict d ∧ dict_get "battery_blocks" d = None) →
  vitals false f1 = (Ok v, f2) →
  py_truthy v = false →
  pod_branch f = (Ok (PStr (json_dumps false (PDict []))), f2).
Proof.
  intros Hp Hss Hv Hf. unfold pod_branch, system_status.
  unfold bind at 1 2. rewrite Hp.
  assert (Hb : ∀ g : FacadeSt S,
            blocks_part pod_block_rows (py_or ss (PDict [])) [] g = (Ok [], g)).
  { intros g. destruct Hss as [->|(d & -> & Hd)]; [done|].
    unfold blocks_part, bind, lift_outcome, py_or.
    destruct d as [|kv d]; [done|]. cbn [py_truthy py_contains].
    unfold dict_mem. by rewrite Hd. }
  assert (Hrest :
    (pod <- blocks_part pod_block_rows (py_or ss (PDict [])) [] ;;
     v <- vitals false ;;
     let vitals := py_or v (PDict []) in
     todo <- lift_outcome (py_iter vitals) ;;
     pod <- pod_devices_loop vitals todo 1 pod ;;
     pod <- pod_aggregate (py_or ss (PDict [])) pod ;;
     ret (PStr (json_dumps false (PDict pod)))) f1
    = (Ok (PStr (json_dumps false (PDict []))), f2)).
  { unfold bind at 1. rewrite Hb. unfold bind at 1. rewrite Hv.
    unfold py_or at 1 2. rewrite Hf. done. }
  destruct Hss as [->|(d & -> & Hd)]; exact Hrest.
Qed.

(** X23: [/freq] needs the grid status: with a client whose poll of
    [/api/system_status/grid_status] has no payload, the request is never
    answered, whatever the system status and the vitals are, and no counter
    changes. *)
Theorem freq_needs_grid_status nw mr st :
  (∀ c s, fst (client_poll c "/api/system_status/grid_status" false false false s)
          = Ok PNone) →
  is_ok (fst (do_GET cookiesuffix (MkRequest "/freq" nw mr) st)) = false
  ∧ same_counters (proxystats st)
      (proxystats (snd (do_GET cookiesuffix (MkRequest "/freq" nw mr) st))).
Proof.
  intros Hgs.
  apply (do_GET_branch_raises _ (m <- on_pw (reshaped "/freq") ;; ret (m, json_type)));
    [done|done|].
  apply is_ok_bind. unfold on_pw.
  change (reshaped "/freq") with (freq_branch (S:=S)).
  assert (Hf : fails (freq_branch (S:=S)));
    [|specialize (Hf (facade st)); by destruct (freq_branch (facade st))].
  unfold freq_branch. do 5 (apply fails_bind_k; intros ?).
  intros f. apply is_ok_bind.
  unfold grid_status. cbn. unfold poll, bind, call_client.
  specialize (Hgs (cls (pw_client (self f))) (cst (pw_client (self f)))).
  destruct (client_poll _ _ _ _ _ _) as [r s']. cbn in Hgs. subst r. done.
Qed.

End HandlerFacts.

(** ** Static requests *)

Section StaticFacts.
Context {S : Type}.
Context `{!ClientNew S, !ClientAuthenticate S, !ClientPoll S, !ClientPower S,
          !ClientVitals S, !ClientFetchpower S, !ClientTimeRemaining S}.
Context `{!JsonDumps, !FloatOfString, !ParseVersion, !ExpandUser}.
Context `{!StringsFromVitals, !StringsFromSolar, !BlocksFrom}.
Context `{!TimedeltaStr, !RenderHelp, !Reshaped S, !ServeStatic S}.
Context (cookiesuffix : string).

Lemma Powerwall_init_auth host password email timezone pwcacheexpire timeout
    poolmaxsize cloudmode siteid authpath authmode cachefile (pw : Powerwall S) :
  Powerwall_init host password email timezone pwcacheexpire timeout poolmaxsize
    cloudmode siteid authpath authmode cachefile = Ok pw →
  pw_auth pw = [] ∧ pw_authmode pw = authmode.
Proof.
  unfold Powerwall_init. destruct (client_new _) as [s|]; [|done].
  destruct (client_authenticate _ s) as [[u|e] s']; [|done].
  intros Hpw. inversion Hpw. by subst.
Qed.

(** X24: in cookie mode the static branch has no cookies to send: for a
    facade as the constructor builds it with an [authmode] other than
    ["token"], after any calls of its methods, a request that falls through
    to the static branch is counted in [gets] and then raises [KeyError] on
    [pw.auth['AuthCookie']], because no method of the facade ever fills
    [auth]. *)
Theorem static_request_without_cookies host password email timezone pwcacheexpire
    timeout poolmaxsize cloudmode siteid authpath authmode cachefile
    (pw : Powerwall S) ms logs stats req :
  Powerwall_init host password email timezone pwcacheexpire timeout poolmaxsize
    cloudmode siteid authpath authmode cachefile = Ok pw →
  authmode ≠ "token" →
  is_static req = true →
  do_GET cookiesuffix req (MkServerSt (after_calls ms (MkFacadeSt pw logs)) stats)
  = (Raise (KeyError (PStr "AuthCookie")),
     MkServerSt (after_calls ms (MkFacadeSt pw logs))
       (set_gets (st_gets stats + 1) stats)).
Proof.
  intros Hinit Hmode Hstatic.
  destruct (Powerwall_init_auth _ _ _ _ _ _ _ _ _ _ _ _ _ Hinit) as [Hauth Hauthmode].
  destruct (after_calls_same ms (MkFacadeSt pw logs)) as [s Hs]. cbn [self] in Hs.
  unfold do_GET. unfold is_static in Hstatic.
  destruct (api_message req); [done|].
  unfold static_branch, bind, modify_stats, get_pw, lift_outcome, auth_cookies.
  cbn [facade proxystats]. rewrite Hs. cbn [pw_authmode pw_auth with_client_state].
  rewrite Hauth, Hauthmode. apply String.eqb_neq in Hmode. by rewrite Hmode.
Qed.

End StaticFacts.

(** ** Examples of the further properties *)

Section FurtherExamples.
Import Demo.
#[local] Existing Instances demo_new demo_authenticate demo_poll demo_power
  demo_vitals demo_fetchpower demo_time_remaining demo_dumps demo_float_of_string
  demo_parse_version demo_expanduser demo_timedelta demo_help demo_reshaped
  demo_static demo_strings_from_vitals demo_strings_from_solar demo_blocks_from
  demo_int_of_string.

Lemma status_fields_of_dictionary_witness :
  fst (version false (demo_facade status_table)) = Ok (PStr "23.44.0 eb113390")
  ∧ fst (uptime (demo_facade status_table)) = Ok PNone.
Proof.
  destruct (status_fields_of_dictionary
              [("version", PStr "23.44.0 eb113390"); ("din", PStr "1232100-00-E--TG0123")]
              (demo_facade status_table) (demo_facade status_table))
    as (_ & Hv & Hu & _).
  - reflexivity.
  - rewrite Hv, Hu. split; reflexivity.
Defined.

Lemma grid_status_rejects_type_witness :
  grid_status "xml" (demo_facade telemetry)
  = (Raise (ValueError "Invalid value for parameter 'type': xml"), demo_facade telemetry).
Proof.
  apply (grid_status_rejects_type "xml" (demo_facade telemetry)); discriminate.
Defined.

Lemma grid_status_string_numeric_agree_witness :
  ∃ a b, fst (grid_status "string" (demo_facade telemetry)) = Ok a
         ∧ fst (grid_status "numeric" (demo_facade telemetry)) = Ok b
         ∧ In (a, b) grid_states.
Proof.
  apply (grid_status_string_numeric_agree
           (PDict [("grid_status", PStr "SystemGridConnected");
                   ("grid_services_active", PBool false)])
           "SystemGridConnected" (demo_facade telemetry) (demo_facade telemetry));
    reflexivity.
Defined.

Lemma level_scaled_range_witness :
  ∃ f, level true (demo_facade telemetry) = (Ok (PFloat f), demo_facade telemetry)
       ∧ (f <? 0)%float = (50 <? 5)
       ∧ (f =? 0)%float = (50 =? 5)
       ∧ (f <=? 100)%float = true
       ∧ ∀ z' f', 50 < z' ≤ 100 → app_scale (PInt z') = Ok (PFloat f') →
                  (f <? f')%float = true.
Proof.
  apply (level_scaled_range 50 [("percentage", PInt 50)]
           (demo_facade telemetry) (demo_facade telemetry)).
  - lia.
  - reflexivity.
  - reflexivity.
Defined.

Lemma get_reserve_float_or_none_witness :
  PFloat 50 = PNone ∨ ∃ f, PFloat 50 = PFloat f.
Proof.
  apply (get_reserve_float_or_none false (demo_facade telemetry) (PFloat 50)
           (demo_facade telemetry)).
  vm_compute. reflexivity.
Defined.

Lemma null_percentage_witness :
  level false (demo_facade null_table) = (Ok PNone, demo_facade null_table)
  ∧ level true (demo_facade null_table) = (Raise TypeError, demo_facade null_table)
  ∧ ∀ scale, get_reserve scale (demo_facade null_table)
             = (Raise TypeError, demo_facade null_table).
Proof.
  apply (null_percentage [("percentage", PNone)] [("backup_reserve_percent", PNone)]
           (demo_facade null_table) (demo_facade null_table) (demo_facade null_table));
    reflexivity.
Defined.

Lemma alerts_without_vitals_witness :
  alerts false false (demo_facade solar_alerts_table)
  = (Ok (PList []), demo_facade solar_alerts_table)
  ∧ alerts false true (demo_facade solar_alerts_table)
    = (Ok (PList [PStr "PVAC_a"; PStr "PVS_a"]), demo_facade solar_alerts_table).
Proof.
  destruct (alerts_without_vitals PNone (demo_facade solar_alerts_table)
              (demo_facade solar_alerts_table)) as [Hnone Hsolar].
  - reflexivity.
  - reflexivity.
  - split; [exact Hnone|].
    destruct (Hsolar (reply "/api/solar_powerwall" solar_alerts_table)
                (demo_facade solar_alerts_table) eq_refl) as [_ Hd].
    exact (Hd _ [("PVAC_a", PBool true); ("PVAC_b", PBool false)] [("PVS_a", PBool true)]
             eq_refl eq_refl eq_refl).
Defined.

Lemma temps_only_thermal_devices_witness :
  (dict_mem "TEPOD--1" [("TETHC--1", PFloat 21.5)] = true
   ↔ String.prefix "TETHC" "TEPOD--1" = true
     ∧ dict_mem "TEPOD--1" [("TETHC--1", PDict [("THC_AmbientTemp", PFloat 21.5)]);
                            ("TEPOD--1", PDict [])] = true)
  ∧ ∀ x, dict_get "TEPOD--1" [("TETHC--1", PFloat 21.5)] = Some x →
         ∃ dev, dict_get "TEPOD--1" [("TETHC--1", PDict [("THC_AmbientTemp", PFloat 21.5)]);
                                     ("TEPOD--1", PDict [])] = Some dev
                ∧ py_get dev "THC_AmbientTemp" = Ok x.
Proof.
  apply (temps_only_thermal_devices (reply "vitals" thermal_table) _
           (demo_facade thermal_table) (demo_facade thermal_table)
           [("TETHC--1", PFloat 21.5)] (demo_facade thermal_table));
    reflexivity.
Defined.

Lemma battery_blocks_none_witness :
  battery_blocks false (demo_facade []) = (Ok PNone, demo_facade []).
Proof.
  destruct (battery_blocks_none false (demo_facade [])) as [Hnone _].
  apply Hnone. reflexivity.
Defined.

Lemma version_branch_vint_witness :
  fst (version_branch (demo_facade status_table))
  = Ok (PStr (json_dumps false
                (PDict [("version", PStr "23.44.0 eb113390"); ("vint", PInt 234400)]))).
Proof.
  destruct (version_branch_vint [23; 44; 0] " eb113390"
              [("version", PStr "23.44.0 eb113390"); ("din", PStr "1232100-00-E--TG0123")]
              (demo_facade status_table) (demo_facade status_table))
    as (Hrun & Hthree & _).
  - discriminate.
  - repeat constructor; lia.
  - right. eexists. reflexivity.
  - reflexivity.
  - reflexivity.
  - rewrite Hrun, (Hthree 23 44 0 eq_refl). reflexivity.
Defined.

Lemma vint_order_witness :
  ∃ n n',
    vint_of "23.44.0 eb113390" = Ok n
    ∧ vint_of "24.4.1" = Ok n'
    ∧ (n < n' ↔ 23 < 24 ∨ (23 = 24 ∧ (44 < 4 ∨ (44 = 4 ∧ 0 < 1)))).
Proof.
  apply (vint_order 23 44 0 24 4 1 " eb113390" ""); try lia.
  - right. eexists. reflexivity.
  - left. reflexivity.
Defined.

Lemma vint_of_value_error_witness : vint_of "1/2.3" = Raise invalid_literal.
Proof.
  destruct (vint_of_value_error "1/2.3") as (_ & Hrefused & _).
  apply Hrefused. reflexivity.
Defined.

Lemma version_branch_solar_only_witness :
  fst (version_branch (demo_facade []))
  = Ok (PStr (json_dumps false (PDict [("version", PStr "SolarOnly"); ("vint", PInt 0)]))).
Proof.
  apply (version_branch_solar_only PNone (demo_facade []) (demo_facade [])).
  - reflexivity.
  - left. reflexivity.
Defined.

Lemma string_payload_passed_through_witness :
  do_GET "path=/;" (MkRequest "/aggregates" 1000 0)
    (demo_server text_table (demo_stats 0 0 0 []))
  = (Ok (MkResponse 200 (api_headers json_type 2) true (Some "{}")),
     MkServerSt (demo_facade text_table) (counted_get "/aggregates" (demo_stats 0 0 0 []))).
Proof.
  apply (string_payload_passed_through "path=/;" (MkRequest "/aggregates" 1000 0)
           "/api/meters/aggregates" (demo_server text_table (demo_stats 0 0 0 []))
           "{}" (demo_facade text_table));
    reflexivity.
Defined.

Lemma absent_payload_counted_as_timeout_witness :
  do_GET "path=/;" (MkRequest "/soe" 1000 0) (demo_server [] (demo_stats 0 0 0 []))
  = (Ok (MkResponse 200 (api_headers json_type 8) true (Some "TIMEOUT!")),
     MkServerSt (demo_facade []) (set_timeout 1 (demo_stats 0 0 0 []))).
Proof.
  apply (absent_payload_counted_as_timeout "path=/;" (MkRequest "/soe" 1000 0)
           "/api/system_status/soe" (demo_server [] (demo_stats 0 0 0 []))
           (demo_facade []));
    reflexivity.
Defined.

Lemma structured_payload_not_written_witness :
  ∃ n, py_len (PDict [("percentage", PInt 50)]) = Ok n
       ∧ do_GET "path=/;" (MkRequest "/soe" 1000 0)
           (demo_server telemetry (demo_stats 0 0 0 []))
         = (Ok (MkResponse 200 (api_headers json_type n) true None),
            MkServerSt (MkFacadeSt (demo_pw telemetry) [ErrorSocketBroken])
              (counted_get "/soe" (demo_stats 0 0 0 []))).
Proof.
  apply (structured_payload_not_written "path=/;" (MkRequest "/soe" 1000 0)
           "/api/system_status/soe" (demo_server telemetry (demo_stats 0 0 0 []))
           (PDict [("percentage", PInt 50)]) (demo_facade telemetry)).
  - reflexivity.
  - reflexivity.
  - left. eexists. reflexivity.
Defined.

Lemma temps_pw_numbered_witness :
  temps_pw_message (demo_server thermal_table (demo_stats 0 0 0 []))
  = (Ok (PStr (json_dumps false (PDict [("PW1_temp", PFloat 21.5)]))),
     demo_server thermal_table (demo_stats 0 0 0 [])).
Proof.
  apply (temps_pw_numbered (demo_server thermal_table (demo_stats 0 0 0 []))
           [("TETHC--1", PFloat 21.5)] (demo_facade thermal_table)).
  reflexivity.
Defined.

Lemma timeout_counted_only_for_polls_witness :
  proxied "/soe" ≠ None ∨ "/soe" = "/alerts/pw".
Proof.
  eapply (timeout_counted_only_for_polls (S:=table) (ret (PStr "{}")) "path=/;"
            (MkRequest "/soe" 1000 0) (demo_server [] (demo_stats 0 0 0 []))).
  - reflexivity.
  - vm_compute. discriminate.
Defined.

Lemma pod_block_needs_flags_witness :
  is_ok (fst (do_GET (Reshaped0 := handler_paths (ret (PStr "{}"))) "path=/;"
                (MkRequest "/pod" 1000 0)
                (demo_server battery_table (demo_stats 0 0 0 [])))) = false.
Proof.
  destruct (pod_block_needs_flags (S:=table) (ret (PStr "{}")) "path=/;"
              [("battery_blocks",
                PList [PDict [("PackageSerialNumber", PStr "TG0123"); ("off_grid", PInt 0)]])]
              [("PackageSerialNumber", PStr "TG0123"); ("off_grid", PInt 0)]
              [PDict [("PackageSerialNumber", PStr "TG0123"); ("off_grid", PInt 0)]]
              "vf_mode" 1000 0
              (demo_server battery_table (demo_stats 0 0 0 []))
              (demo_facade battery_table)) as [Hraises _].
  - reflexivity.
  - reflexivity.
  - left. reflexivity.
  - right. left. reflexivity.
  - reflexivity.
  - exact Hraises.
Defined.

Lemma pod_without_battery_data_witness :
  pod_branch (demo_facade []) = (Ok (PStr (json_dumps false (PDict []))), demo_facade []).
Proof.
  apply (pod_without_battery_data PNone PNone (demo_facade []) (demo_facade [])
           (demo_facade [])).
  - reflexivity.
  - left. reflexivity.
  - reflexivity.
  - reflexivity.
Defined.

Lemma freq_needs_grid_status_witness :
  is_ok (fst (do_GET (ClientPoll0 := demo_poll_down)
                (Reshaped0 := handler_paths (ClientPoll0 := demo_poll_down)
                                (ret (PStr "{}")))
                "path=/;" (MkRequest "/freq" 1000 0)
                (demo_server telemetry (demo_stats 0 0 0 [])))) = false.
Proof.
  destruct (freq_needs_grid_status (S:=table) (ClientPoll0 := demo_poll_down)
              (ret (PStr "{}")) "path=/;" 1000 0
              (demo_server telemetry (demo_stats 0 0 0 []))) as [Hraises _].
  - intros c s. reflexivity.
  - exact Hraises.
Defined.

Lemma static_request_without_cookies_witness :
  do_GET "path=/;" (MkRequest "/index.html" 1000 0)
    (MkServerSt (after_calls [CallLevel false; CallSiteName] (MkFacadeSt (demo_pw []) []))
       (demo_stats 0 0 0 []))
  = (Raise (KeyError (PStr "AuthCookie")),
     MkServerSt (after_calls [CallLevel false; CallSiteName] (MkFacadeSt (demo_pw []) []))
       (set_gets 1 (demo_stats 0 0 0 []))).
Proof.
  apply (static_request_without_cookies "path=/;" "10.0.1.99" "password"
           "email@example.com" "America/Los_Angeles" 5 5 15 false None "" "cookie"
           ".powerwall" (demo_pw []) [CallLevel false; CallSiteName] []
           (demo_stats 0 0 0 []) (MkRequest "/index.html" 1000 0)).
  - reflexivity.
  - discriminate.
  - reflexivity.
Defined.

End FurtherExamples.
